(* ===== verification/_CoqProject ===== *)
-Q . S2P
Prelude.v
Table.v
Dates.v
ConditionFilter.v
GroupBy.v
StateAggregator.v
Dashboard.v
DashRuntime.v
NotebookApps.v
TimeSeries.v
CsvRead.v
Charts.v
