(* ===== verification/Prelude.v ===== *)
(** * Verification of the COVID-19 mortality dashboards

    The repository has two programs.  [src/app.py] is a Dash web app with
    two tabs over the table [deaths] (coviddeath.csv): tab 1 filters the
    rows by an age range and a condition and draws a bar per row
    ([update_mortality_dashboard]); tab 2 sums the death counts per state,
    optionally for one age group, and colours a US map
    ([update_time_series_dashboard]); [render_tab_content] swaps the tabs.
    [src/covid_analysis.py] is an exported notebook: a US time-series
    analysis of covid_grouped.csv (moving averages, a death-to-case ratio,
    monthly sums), static charts, and clones of the two callbacks
    ([update_output], [update_usa_map]) with small differences.

    ** Files
    - [Prelude] (this file): the [frame_scope] notation [df ⟦ mask ⟧] for a
      boolean mask ([List.filter]), the hint databases [frame] and
      [frame_rw], the tactics [bool_to_prop], [decide_closed] and
      [case_str], and the shared lemmas on column sums ([sumZ], summing by
      groups over any key with a boolean equality, Section [Partition]),
      minimum and maximum, string order, sortedness through [map], and
      windows of lists.
    - [Table]: a row of [deaths] as a record of its four used columns
      ([State], [Age_Group], [Condition], the count as [option Z], [None]
      being NaN); the 23 conditions and 10 age options of the dropdowns;
      pandas' NaN-skipping [Series.sum()] ([nansum]).
    - [ConditionFilter]: tab 1's callback as [update_mortality_dashboard]
      (the age mask with its ["All ages"] disjunct, the condition mask, the
      status text and the [px.bar] arguments) and, in Module [Notebook],
      [update_output] with its plain-equality age mask and clearable
      dropdowns.
    - [GroupBy]: [groupby("State")[...].sum().reset_index()], a library
      call, as the class [GroupBySum] with its contract [GroupBySumLaws];
      an executable instance by sorted insertion.
    - [StateAggregator]: tab 2's callback ([age_selection], [state_totals],
      [px_choropleth]) against any lawful [GroupBySum] (Section
      [Aggregator]), and in Module [Notebook] [update_usa_map] with its
      colour range [[min, max * 0.025]] and the NaN of [min]/[max] on an
      empty frame.
    - [Dashboard]: the page as a record [App] (tab value, rendered content
      with its dropdown values and outputs, Dash's queue of pending
      callbacks); [dispatch] is a user event (guarded by the dropdown
      options and [clearable=False]), [fire] runs the queue's head with
      [run_callback], [step] interleaves both, [reachable] is its closure
      from [app_layout], and [settle] runs the queue with fuel.
    - [Dates]: the date record, its order key, the calendar (leap years,
      month lengths, month ends) and [parse_date], the [pd.to_datetime]
      conversion of the ISO day strings of covid_grouped.csv, with its
      printer [print_date].
    - [TimeSeries]: lines 35-98 of the notebook: the US filter, the
      conversion of the text dates of the US rows ([usa_grouped_raw]), the date
      sort (an insertion sort, related to pandas' unstable sort by the
      sorted-permutation contract), [diff] and [rolling(window=7).mean()],
      the ratio with [inf]/NaN replaced by 0, and [resample("M").sum()].
    - [CsvRead]: the three [pd.read_csv] calls (notebook lines 26-28, app
      line 7) on a map from paths to file texts: pandas' C tokenizer as a
      state machine over the characters ([tokenize], quoted fields with
      doubled quotes, both line ends, skipped blank and whitespace
      lines), the header's columns located by name
      ([read_frame]), the default NA strings, pandas' inference of one
      type per column ([read_column]: text, a float count with NaN, an
      int64), and the cells of the columns the code reads as [Row]s,
      [RawRow]s and the unused covid.csv ([load_notebook]); and a writer
      with minimal quoting.
    - [DashRuntime]: how Dash runs a page with one callback, generic in the
      page's inputs, outputs and events ([SinglePageApp], a record of
      operations): a run at load, a run per changed input, queued runs
      that read the current inputs ([page_step], [page_reachable] as
      stdpp's [rtc]); the request/response specification
      [spec_reachable]; and the refinement lemmas [page_refines],
      [spec_complete] and [settled_page_reachable_iff].
    - [NotebookApps]: the notebook's two JupyterDash apps as instances of
      [SinglePageApp]: [app1] (layout, clearable dropdowns as
      [app1_event], callback [update_output]) and [app2] (callback
      [update_usa_map]).
    - [Charts]: the six charts of cells In[5]-In[9] as the series, labels,
      legend flag and output file handed to plotly, matplotlib and seaborn
      ([notebook_charts]), and their export: a file system of directories
      and files ([FileSystem]) on which [makedirs] (line 24) and the six
      writes act in order, each raising as Python does ([notebook_export]).

    ** Theorems
    - Selection (ConditionFilter): what the bar chart selects, its count
      read back from the status text, and where the notebook differs
      (["All ages"], cleared dropdowns).
    - Aggregation (GroupBy, StateAggregator): the executable model
      meets the groupby contract; the map's
      totals are the per-state sums of the selected rows, grow with the
      selection, and the ["All ages"] total adds the table's own
      ["All ages"] rows to the nine bands (counted twice); the notebook's
      colour range is inverted unless the largest total is at least 40
      times the smallest; the grouped sum respects permutation of
      its rows ([Proper] instances), so neither map depends on the order
      of the CSV rows.
    - The page (Dashboard): an invariant of every reachable page (rule
      induction on [step]), termination of the callback queue, and that a
      settled page shows the callbacks' results for the inputs displayed;
      a visit to tab 2 and back restores the page of the first load, so
      tab 1's selections are lost; a dropdown change on a settled page
      queues exactly one callback run, which empties the queue.
    - Time series (TimeSeries): the 7-day averages are the increase over
      the last seven days divided by 7 (a telescoping sum), the ratio's
      value and bounds (a day without cases gives 0, whether the division
      gave NaN or an infinity), the sort's contract, consecutive monthly
      bins and preserved totals; the 7-day
      averages are non-negative on never-decreasing cumulative data.
    - Dates (Dates, TimeSeries): a day string of the ISO layout yields a
      day exactly when it is the text of a calendar day in the
      [datetime64[ns]] range, and raises otherwise; when pandas reads the
      column with the ISO format, line 36 raises exactly when a US row's
      date is not such a day.
    - Loading (CsvRead): the tokenizer reads back any printed records
      (commas, quotes and line breaks inside fields included), and the
      notebook's three reads give back exactly the tables the files were
      written from, an empty count as NaN, when pandas infers the column
      types the code uses and the counts fit them.
    - The notebook's apps (DashRuntime, NotebookApps): on every reachable
      page the dropdowns hold offered or cleared values (safety); the
      settled pages are exactly the callbacks' answers on such values
      (refinement, both directions); a cleared dropdown is reachable and
      shows 0 cases or an empty map with colour range [[NaN, NaN]].
    - Figures (StateAggregator, Charts): the map has distinct sorted
      locations with one colour each, its state's total; every chart line
      has one y per x, is drawn in date order, and the six charts go to
      six distinct files; the export creates the output directory and
      leaves each chart in its own file, no other file touched.

    ** Bounds and fuel
    [settle] needs fuel at least [queue_weight] of the queue: a tab render
    weighs 2 because it queues one dashboard callback, which weighs 1 and
    queues nothing, so each run lowers the weight by at least one.
    Callback runs are atomic (a run reads the whole page at once).  In
    DashRuntime a page's queue counts pending runs and [page_settle] needs
    fuel equal to it; a user event that keeps an input's value queues
    nothing, as Dash fires only on a change.  In CsvRead [dec_width]
    counts the decimal digits of a count with the count itself as fuel,
    enough since each step divides by 10; the tokenizer is structural on
    the input.

    ** Numbers
    Counts are integers ([Z]).  Reading a file keeps them only where
    pandas holds them exactly: below [2^53] in a count column with NaN
    (float64), below [2^63] in an int64 column; larger counts are outside
    the model.  Float results (means, ratios, [max * 0.025]) are rationals
    ([Q]), with NaN and the infinities as extra constructors where the
    code meets them; rounding is not modelled.

    ** Outcomes
    A call that may raise returns an [Outcome] (Prelude): a value, a
    Python exception, or [Outside] where pandas infers something the
    model does not follow (a date format other than the ISO one, a column
    type other than the one the code uses).  The model assumes pandas 2,
    whose [to_datetime] infers one format from the first string.

    ** Not modelled
    The charts' rendering (the bytes of the exported files, figure sizes,
    tick formats), a library's output rather than the code's; CSV input
    outside the data files' layout (counts written as decimals or with a
    sign, pandas' implicit index, a missing column), date layouts other
    than the ISO ["YYYY-MM-DD"] and column types other than the ones the
    code uses: all [Outside]; the web servers ([app.run_server],
    [app2.run_server]) and the browser's rendering of the widgets,
    framework I/O; the notebook's list [condition_groups] (lines
    154-157), which nothing uses; the imports. *)

From Stdlib Require Export ZArith Lia Sorted Permutation.
From Stdlib Require String.
From stdpp Require Export base list strings.
Export ListNotations.

(** ** Notation: boolean masks over frames

    A pandas boolean-mask selection [df[mask]] keeps the rows of [df] on
    which [mask] is true, in their original order.  Frames are lists of
    rows, so the selection is [List.filter]. *)

Declare Scope frame_scope.
Delimit Scope frame_scope with frame.
Notation "df ⟦ mask ⟧" := (List.filter mask df)
  (at level 1, mask at level 200, format "df ⟦ mask ⟧") : frame_scope.
Open Scope frame_scope.

Create HintDb frame discriminated.
Create Rewrite HintDb frame_rw.

(** ** Sums of integer columns *)

Definition sumZ (l : list Z) : Z := fold_right Z.add 0%Z l.

Lemma sumZ_app (l1 l2 : list Z) : sumZ (l1 ++ l2) = (sumZ l1 + sumZ l2)%Z.
Proof. induction l1 as [|x l1 IH]; simpl; lia. Qed.

Lemma sumZ_nonneg (l : list Z) : Forall (fun z => 0 <= z)%Z l -> (0 <= sumZ l)%Z.
Proof. induction 1; simpl; lia. Qed.

Lemma sumZ_filter_split {A} (p : A -> bool) (f : A -> Z) (l : list A) :
  sumZ (map f l) = (sumZ (map f l⟦p⟧) + sumZ (map f l⟦fun x => negb (p x)⟧))%Z.
Proof. induction l as [|x l IH]; simpl; [done|]. destruct (p x); simpl; lia. Qed.

Lemma sumZ_filter_le {A} (p : A -> bool) (f : A -> Z) (l : list A) :
  Forall (fun x => 0 <= f x)%Z l -> (sumZ (map f l⟦p⟧) <= sumZ (map f l))%Z.
Proof.
  induction 1 as [|x l Hx _ IH]; simpl; [done|]. destruct (p x); simpl; lia.
Qed.

(** Masks keep a permutation of the rows. *)
#[export] Instance filter_Permutation_proper {A} (p : A -> bool) :
  Proper (Permutation ==> Permutation) (List.filter p).
Proof.
  intros l1 l2 Hp. induction Hp as [|x l1 l2 _ IH|x y l|]; simpl.
  - done.
  - destruct (p x); [by constructor|done].
  - destruct (p x), (p y); [apply perm_swap|..]; done.
  - by etrans.
Qed.

(** A sum does not depend on the order of its terms. *)
#[export] Instance sumZ_Permutation : Proper (Permutation ==> eq) sumZ.
Proof. intros l1 l2 Hp. induction Hp; simpl; lia. Qed.

(** Summing a column group by group, over a duplicate-free list of
    labels that covers every row's label, gives the column's sum. *)

Lemma sumZ_map_add {A} (g h : A -> Z) (l : list A) :
  sumZ (map (fun a => g a + h a)%Z l) = (sumZ (map g l) + sumZ (map h l))%Z.
Proof. induction l; simpl; lia. Qed.

Section Partition.
Context {K : Type} (eqb : K -> K -> bool) (eqb_spec : forall a b, reflect (a = b) (eqb a b)).

Lemma sumZ_indicator (c : K) (v : Z) (labels : list K) :
  List.NoDup labels -> In c labels ->
  sumZ (map (fun a => if eqb c a then v else 0%Z) labels) = v.
Proof.
  induction 1 as [|a labels Ha Hnd IH]; simpl; [done|]. intros [->|Hc].
  - destruct (eqb_spec c c); [|done].
    enough (sumZ (map (fun b => if eqb c b then v else 0%Z) labels) = 0%Z) by lia.
    clear IH Hnd. induction labels as [|b labels IH']; simpl; [done|].
    destruct (eqb_spec c b) as [->|]; [simpl in Ha; tauto|]. simpl in Ha. rewrite IH'; tauto.
  - destruct (eqb_spec c a) as [->|]; [done|]. rewrite IH; [lia|done].
Qed.

Lemma sumZ_partition {A} (f : A -> Z) (key : A -> K) (labels : list K) (l : list A) :
  List.NoDup labels -> Forall (fun x => In (key x) labels) l ->
  sumZ (map f l) = sumZ (map (fun a => sumZ (map f l⟦fun x => eqb (key x) a⟧)) labels).
Proof.
  intros Hnd. induction 1 as [|x l Hx _ IH]; simpl.
  - clear Hnd. induction labels; simpl; lia.
  - rewrite IH.
    transitivity (sumZ (map (fun a => (if eqb (key x) a then f x else 0)
                                     + sumZ (map f l⟦fun y => eqb (key y) a⟧))%Z labels)).
    + rewrite (sumZ_map_add (fun a => if eqb (key x) a then f x else 0%Z)
                 (fun a => sumZ (map f l⟦fun y => eqb (key y) a⟧))).
      by rewrite sumZ_indicator.
    + f_equal. apply map_ext_in. intros a _. destruct (eqb (key x) a); simpl; lia.
Qed.

End Partition.

(** ** Minimum and maximum of a non-empty column *)

Lemma fold_left_min_spec (zs : list Z) (z : Z) :
  In (fold_left Z.min zs z) (z :: zs) /\ Forall (fun t => fold_left Z.min zs z <= t)%Z (z :: zs).
Proof.
  revert z. induction zs as [|y zs IH]; intros z; simpl.
  - split; [by left | repeat constructor; lia].
  - destruct (IH (Z.min z y)) as [Hin Hall]. split.
    + destruct Hin as [<-|Hin]; [|by right; right].
      destruct (Z.min_spec z y) as [[_ ->]|[_ ->]]; [by left | by right; left].
    + inversion Hall as [|? ? Hm Hrest]; subst.
      constructor; [lia|]. constructor; [lia|done].
Qed.

Lemma fold_left_max_spec (zs : list Z) (z : Z) :
  In (fold_left Z.max zs z) (z :: zs) /\ Forall (fun t => t <= fold_left Z.max zs z)%Z (z :: zs).
Proof.
  revert z. induction zs as [|y zs IH]; intros z; simpl.
  - split; [by left | repeat constructor; lia].
  - destruct (IH (Z.max z y)) as [Hin Hall]. split.
    + destruct Hin as [<-|Hin]; [|by right; right].
      destruct (Z.max_spec z y) as [[_ ->]|[_ ->]]; [by right; left | by left].
    + inversion Hall as [|? ? Hm Hrest]; subst.
      constructor; [lia|]. constructor; [lia|done].
Qed.

(** ** Membership is decidable on lists of a type with decidable equality *)

#[export] Instance In_decision {A} `{EqDecision A} (x : A) (l : list A) : Decision (In x l) :=
  List.in_dec (fun a b => decide (a = b)) x l.

(** ** Masks *)

Lemma filter_filter {A} (p q : A -> bool) (l : list A) :
  l⟦q⟧⟦p⟧ = l⟦fun x => q x && p x⟧.
Proof.
  induction l as [|x l IH]; simpl; [done|].
  destruct (q x); simpl; [destruct (p x); simpl|]; rewrite IH; done.
Qed.

Lemma filter_sublist {A} (p : A -> bool) (l : list A) : l⟦p⟧ `sublist_of` l.
Proof.
  induction l as [|x l IH]; simpl; [constructor|].
  destruct (p x); [by apply sublist_skip | by apply sublist_cons].
Qed.

Lemma filter_sublist_mono {A} (p q : A -> bool) (l : list A) :
  (forall x, p x = true -> q x = true) -> l⟦p⟧ `sublist_of` l⟦q⟧.
Proof.
  intros Hpq. induction l as [|x l IH]; simpl; [constructor|].
  destruct (p x) eqn:Ep; [rewrite (Hpq x Ep); by apply sublist_skip|].
  destruct (q x); [by apply sublist_cons|done].
Qed.

Lemma Forall_mask {A} (P : A -> Prop) (p : A -> bool) (l : list A) :
  Forall P l -> Forall P l⟦p⟧.
Proof. induction 1; simpl; [constructor|]. destruct (p x); [constructor|]; auto. Qed.

Lemma filter_nil_iff {A} (p : A -> bool) (l : list A) :
  l⟦p⟧ = [] <-> Forall (fun x => p x = false) l.
Proof.
  induction l as [|x l IH]; simpl; [split; auto|].
  destruct (p x) eqn:E; split; intros H.
  - done.
  - inversion H; congruence.
  - constructor; [done|]. by apply IH.
  - inversion H; subst. by apply IH.
Qed.

Lemma filter_ext_pointwise {A} (p q : A -> bool) (l : list A) :
  (forall x, In x l -> p x = q x) -> l⟦p⟧ = l⟦q⟧.
Proof. apply filter_ext_in. Qed.

(** ** Strict order on strings

    pandas sorts string group keys by code point; on the ASCII strings of
    the data this is the order of [String.compare]. *)

Definition str_lt (s1 s2 : string) : Prop := String.compare s1 s2 = Lt.

#[export] Instance str_lt_dec : RelDecision str_lt.
Proof. intros s1 s2. unfold str_lt. apply _. Defined.

Lemma str_compare_refl (s : string) : String.compare s s = Eq.
Proof.
  induction s as [|a s IH]; simpl; [done|].
  unfold Ascii.compare. by rewrite N.compare_refl.
Qed.

Lemma str_compare_eq (s1 s2 : string) : String.compare s1 s2 = Eq <-> s1 = s2.
Proof. split; [apply String.compare_eq_iff | intros ->; apply str_compare_refl]. Qed.

Lemma str_compare_gt (s1 s2 : string) : String.compare s1 s2 = Gt <-> str_lt s2 s1.
Proof. unfold str_lt. rewrite String.compare_antisym. destruct (String.compare s2 s1); simpl; done. Qed.

Lemma str_lt_le (s1 s2 : string) : str_lt s1 s2 <-> strings.String.le s1 s2 /\ s1 <> s2.
Proof.
  unfold str_lt, strings.String.le, String.leb.
  rewrite <- str_compare_eq.
  destruct (String.compare s1 s2); simpl; intuition congruence.
Qed.

Lemma str_lt_irrefl (s : string) : ~ str_lt s s.
Proof. unfold str_lt. by rewrite str_compare_refl. Qed.

Lemma str_lt_trans (s1 s2 s3 : string) : str_lt s1 s2 -> str_lt s2 s3 -> str_lt s1 s3.
Proof.
  rewrite !str_lt_le. intros [H12 N12] [H23 N23]. split.
  - by trans s2.
  - intros ->. apply N12. by apply (anti_symm strings.String.le).
Qed.

#[export] Instance str_lt_strict : StrictOrder str_lt.
Proof. split; [intros s; apply str_lt_irrefl | intros ???; apply str_lt_trans]. Qed.

#[export] Hint Resolve sumZ_nonneg filter_sublist str_lt_irrefl : frame.
#[export] Hint Rewrite sumZ_app @filter_filter : frame_rw.

(** ** Tactics

    [bool_to_prop] turns the boolean tests the code performs (string and
    integer equality, conjunction and disjunction of masks) into
    propositions, in the goal and in every hypothesis. *)

Ltac bool_to_prop :=
  repeat match goal with
  | H : context [(_ =? _)%string = true] |- _ => rewrite String.eqb_eq in H
  | H : context [(_ =? _)%string = false] |- _ => rewrite String.eqb_neq in H
  | H : context [_ && _ = true] |- _ => rewrite andb_true_iff in H
  | H : context [_ || _ = true] |- _ => rewrite orb_true_iff in H
  | |- context [(_ =? _)%string = true] => rewrite String.eqb_eq
  | |- context [(_ =? _)%string = false] => rewrite String.eqb_neq
  | |- context [_ && _ = true] => rewrite andb_true_iff
  | |- context [_ || _ = true] => rewrite orb_true_iff
  end.

(** [decide_closed] proves a decidable proposition about closed terms by
    evaluating its decision procedure. *)
Ltac decide_closed := apply (bool_decide_unpack _); vm_compute; exact I.

(** [case_str a b] splits on the outcome of the string test [a =? b]. *)
Ltac case_str a b :=
  let E := fresh "E" in
  destruct (String.eqb_spec a b) as [E|E]; [subst|].

(** ** Windows of a list by index *)

Lemma skipn_nth_cons {A} (d : A) (l : list A) (k : nat) :
  k < length l -> skipn k l = nth k l d :: skipn (S k) l.
Proof.
  revert l. induction k as [|k IH]; intros [|x l] Hk; simpl in *; try lia; [done|].
  apply IH. lia.
Qed.

Lemma firstn_skipn_seq {A} (d : A) (l : list A) (k n : nat) :
  k + n <= length l -> firstn n (skipn k l) = map (fun j => nth j l d) (seq k n).
Proof.
  revert k. induction n as [|n IH]; intros k Hk; [by rewrite firstn_O|].
  rewrite (skipn_nth_cons d) by lia. simpl. f_equal. apply IH. lia.
Qed.

(** The two columns of an association list, read side by side. *)
Lemma Forall2_fst_snd {A B} (P : A -> B -> Prop) (l : list (A * B)) :
  Forall (fun p => P p.1 p.2) l -> Forall2 P (map fst l) (map snd l).
Proof. induction 1; simpl; by constructor. Qed.

(** Sortedness through a map. *)
Lemma Sorted_map_2 {A B} (R : B -> B -> Prop) (f : A -> B) (l : list A) :
  Sorted (fun a b => R (f a) (f b)) l -> Sorted R (map f l).
Proof.
  induction 1 as [|a l Hs IH Hhd]; simpl; constructor; [done|].
  destruct Hhd; simpl; constructor. done.
Qed.

(** A column indexed by consecutive numbers is sorted when each entry is
    related to the next. *)
Lemma Sorted_map_seq {B} (R : B -> B -> Prop) (f : nat -> B) (a m : nat) :
  (forall n, R (f n) (f (S n))) -> Sorted R (map f (seq a m)).
Proof.
  intros Hf. revert a. induction m as [|m IH]; intros a; simpl; constructor; [apply IH|].
  destruct m; simpl; constructor. apply Hf.
Qed.

(** A mask commutes with a partial conversion of the rows that keeps
    what the mask reads. *)
Lemma filter_omap {A B} (f : A -> option B) (p : B -> bool) (q : A -> bool) (l : list A) :
  (forall a b, f a = Some b -> p b = q a) -> List.filter p (omap f l) = omap f (List.filter q l).
Proof.
  intros H. induction l as [|a l IH]; [done|]. simpl.
  destruct (f a) as [b|] eqn:Ef; destruct (q a) eqn:Eq; simpl; rewrite ?Ef; simpl;
    rewrite ?(H a b Ef), ?Eq; try f_equal; exact IH.
Qed.

(** A column that never decreases from one row to the next is ordered
    between any two rows. *)
Lemma nth_mono (l : list Z) (a b : nat) :
  (forall j, S j < length l -> (nth j l 0 <= nth (S j) l 0)%Z) ->
  a <= b < length l -> (nth a l 0 <= nth b l 0)%Z.
Proof.
  intros Hm [Hab Hb]. induction Hab as [|b Hab IH]; [lia|].
  etrans; [apply IH; lia|]. apply Hm. lia.
Qed.

(** A column computed index by index, read back at an index. *)
Lemma nth_map_seq {A} (f : nat -> A) (m i : nat) (d : A) :
  i < m -> nth i (map f (seq 0 m)) d = f i.
Proof.
  intros Hi. rewrite (nth_indep _ d (f 0)) by (rewrite length_map, length_seq; lia).
  by rewrite map_nth, seq_nth.
Qed.

(** A telescoping sum of consecutive differences. *)
Lemma sumZ_telescope (f : nat -> Z) (a n : nat) :
  sumZ (map (fun j => f j - f (j - 1)%nat)%Z (seq (S a) n)) = (f (a + n)%nat - f a)%Z.
Proof.
  revert a. induction n as [|n IH]; intros a; simpl.
  - rewrite Nat.add_0_r. lia.
  - rewrite IH, Nat.sub_0_r. replace (S a + n)%nat with (a + S n)%nat by lia. lia.
Qed.

(** ** Prefixes and strings *)

Fixpoint take_while {A} (p : A -> bool) (l : list A) : list A :=
  match l with
  | [] => []
  | x :: l' => if p x then x :: take_while p l' else []
  end.

Lemma take_while_app_stop {A} (p : A -> bool) (l1 : list A) (x : A) (l2 : list A) :
  Forall (fun y => p y = true) l1 -> p x = false -> take_while p (l1 ++ x :: l2) = l1.
Proof. induction 1 as [|y l1 Hy _ IH]; intros Hx; simpl; [by rewrite Hx|]. by rewrite Hy, IH. Qed.

Lemma list_ascii_of_string_app (s1 s2 : string) :
  String.list_ascii_of_string (s1 +:+ s2) =
  String.list_ascii_of_string s1 ++ String.list_ascii_of_string s2.
Proof. induction s1 as [|a s1 IH]; simpl; [done|]. by rewrite IH. Qed.

Lemma str_app_cons (a : Ascii.ascii) (s1 s2 : string) : String a s1 +:+ s2 = String a (s1 +:+ s2).
Proof. done. Qed.

Lemma str_app_assoc (s1 s2 s3 : string) : s1 +:+ (s2 +:+ s3) = (s1 +:+ s2) +:+ s3.
Proof. induction s1 as [|a s1 IH]; [done|]. by rewrite !str_app_cons, IH. Qed.

#[export] Hint Rewrite list_ascii_of_string_app : frame_rw.

(** ** Outcomes of a Python call

    What a call of the program does: it returns a value ([Done]), raises
    one of the exceptions the modelled code can raise ([Raised]), or does
    something the model does not decide ([Outside]): pandas' inference of
    a date format or a column type the model does not follow.  A theorem
    that concludes [Done] or [Raised] is a claim about the program; a
    definition that returns [Outside] claims nothing. *)

Inductive PyError :=
| FileNotFoundError
| EmptyDataError
| ParserError
| DateParseError
| OutOfBoundsDatetime.

#[export] Instance PyError_eq_dec : EqDecision PyError.
Proof. solve_decision. Defined.

Inductive Outcome (A : Type) :=
| Done (a : A)
| Raised (e : PyError)
| Outside.

Arguments Done {A} _.
Arguments Raised {A} _.
Arguments Outside {A}.

#[export] Instance outcome_ret : MRet Outcome := @Done.

#[export] Instance outcome_bind : MBind Outcome := fun A B f m =>
  match m with
  | Done a => f a
  | Raised e => Raised e
  | Outside => Outside
  end.

#[export] Instance outcome_fmap : FMap Outcome := fun A B f m =>
  match m with
  | Done a => Done (f a)
  | Raised e => Raised e
  | Outside => Outside
  end.

(** [None] as an exception. *)
Definition of_option {A} (e : PyError) (o : option A) : Outcome A :=
  match o with Some a => Done a | None => Raised e end.

Lemma mapM_Done {A B} (f : A -> Outcome B) (g : A -> B) (l : list A) :
  (forall x, In x l -> f x = Done (g x)) -> mapM f l = Done (map g l).
Proof.
  induction l as [|x l IH]; intros Hf; [done|]. cbn. rewrite Hf by (left; done).
  cbn. rewrite IH by (intros y Hy; apply Hf; by right). done.
Qed.

Lemma mapM_Done_inv {A B} (f : A -> Outcome B) (l : list A) (ys : list B) :
  mapM f l = Done ys -> Forall2 (fun x y => f x = Done y) l ys.
Proof.
  revert ys. induction l as [|x l IH]; intros ys; cbn; [intros [= <-]; constructor|].
  destruct (f x) as [y| |] eqn:Hx; cbn; try discriminate.
  destruct (mapM f l) as [ys'| |]; cbn; try discriminate. intros [= <-]. constructor; auto.
Qed.

(** When no element is outside the model, the traversal raises exactly
    when some element raises. *)
Lemma mapM_Raised_iff {A B} (f : A -> Outcome B) (l : list A) :
  (forall x, In x l -> f x <> Outside) ->
  (exists e, mapM f l = Raised e) <-> Exists (fun x => exists e, f x = Raised e) l.
Proof.
  induction l as [|x l IH]; intros Hout; cbn.
  - split; [intros [e He]; discriminate | intros H; inversion H].
  - rewrite Exists_cons, <- IH by (intros y Hy; apply Hout; by right).
    specialize (Hout x (or_introl eq_refl)).
    destruct (f x) as [y|e|]; cbn; [| split; [intros _; left | intros _]; eauto | done].
    destruct (mapM f l) as [ys|e|]; cbn.
    + split; [intros [e He]; discriminate | intros [[e He]|[e He]]; discriminate].
    + split; [intros _; right; eauto | intros _; eauto].
    + split; [intros [e He]; discriminate | intros [[e He]|[e He]]; discriminate].
Qed.

Lemma mapM_not_Outside {A B} (f : A -> Outcome B) (l : list A) :
  (forall x, In x l -> f x <> Outside) -> mapM f l <> Outside.
Proof.
  induction l as [|x l IH]; intros Hout; cbn; [discriminate|].
  specialize (Hout x (or_introl eq_refl)) as Hx.
  destruct (f x) as [y|e|]; cbn; [|discriminate|done].
  pose proof (IH (fun y Hy => Hout y (or_intror Hy))). destruct (mapM f l); cbn; [discriminate | discriminate | done].
Qed.

Lemma outcome_bind_Done {A B} (a : A) (f : A -> Outcome B) : (Done a ≫= f) = f a.
Proof. done. Qed.

Lemma mapM_map_Done {A B C} (f : B -> Outcome C) (h : A -> B) (g : A -> C) (l : list A) :
  (forall x, In x l -> f (h x) = Done (g x)) -> mapM f (map h l) = Done (map g l).
Proof.
  induction l as [|x l IH]; intros Hf; [done|]. cbn. rewrite Hf by (left; done).
  cbn. rewrite IH by (intros y Hy; apply Hf; by right). done.
Qed.

Lemma forallb_impl {A} (p q : A -> bool) (l : list A) :
  (forall a, p a = true -> q a = true) -> forallb p l = true -> forallb q l = true.
Proof. intros Hpq. rewrite !forallb_forall. auto. Qed.
