(* ===== verification/Table.v ===== *)
(** * The mortality table and the dashboards' constants

    The frame [deaths] that [src/app.py] (line 7) and
    [src/covid_analysis.py] (line 28) read from [coviddeath.csv], reduced
    to the four columns the callbacks use; the dropdown option lists; and
    pandas' NaN-skipping column sum. *)

From S2P Require Import Prelude.
Open Scope string_scope.

(** ** Rows

    One row of [deaths].  A cell of the numeric column
    ["Number of COVID-19 Deaths"] may be empty in the CSV, which pandas
    reads as NaN: it is [None] here.  The three key columns are strings. *)

Record Row := mkRow {
  State : string;
  Age_Group : string;
  Condition : string;
  Number_of_COVID_19_Deaths : option Z
}.

#[export] Instance Row_eq_dec : EqDecision Row.
Proof. solve_decision. Defined.

(** A frame is its rows in index order. *)
Abbreviation Frame := (list Row).

(** ** The dropdown option lists *)

(** [conditions] (app.py lines 10-20; the same 23 names are repeated at
    covid_analysis.py lines 144-152). *)
Definition conditions : list string := [
  "Influenza and pneumonia"; "Chronic lower respiratory diseases";
  "Adult respiratory distress syndrome"; "Respiratory failure";
  "Respiratory arrest"; "Other diseases of the respiratory system";
  "Hypertensive diseases"; "Ischemic heart disease"; "Cardiac arrest";
  "Cardiac arrhythmia"; "Heart failure"; "Cerebrovascular diseases";
  "Other diseases of the circulatory system"; "Sepsis"; "Malignant neoplasms";
  "Diabetes"; "Obesity"; "Alzheimer disease"; "Vascular and unspecified dementia";
  "Renal failure"; "Intentional and unintentional injury, poisoning, and other adverse events";
  "All other conditions and causes (residual)"; "COVID-19"].

(** The ten values of both age-range dropdowns (app.py lines 41-45 and
    65-69; covid_analysis.py lines 163-174 and 235-246).  The last one,
    ["All ages"], is both a value of the ["Age Group"] column and the
    sentinel the callbacks test for. *)
Definition age_ranges : list string := [
  "0-24"; "25-34"; "35-44"; "45-54";
  "55-64"; "65-74"; "75-84"; "85+";
  "Not stated"; "All ages"].

(** The nine age bands: the dropdown values other than the sentinel. *)
Definition age_bands : list string := [
  "0-24"; "25-34"; "35-44"; "45-54";
  "55-64"; "65-74"; "75-84"; "85+"; "Not stated"].

Lemma age_ranges_bands : age_ranges = (age_bands ++ ["All ages"])%list.
Proof. reflexivity. Qed.

Lemma age_ranges_NoDup : List.NoDup age_ranges.
Proof. apply NoDup_ListNoDup. apply (bool_decide_unpack _ (dec := NoDup_dec _)). by vm_compute. Qed.

(** ** Dropdown values

    A dropdown with Dash's default [clearable=True] (the notebook's,
    covid_analysis.py lines 161-176, 178-182 and 233-248) can be cleared,
    and its callback then receives [None]; the app's dropdowns set
    [clearable=False] (app.py lines 47 and 53) and always hold a string. *)

Abbreviation Value := (option string).

(** [str(v)] inside an f-string. *)
Definition py_str (v : Value) : string :=
  match v with Some s => s | None => "None" end.

(** [series == v] on one cell, and [v == 'All ages'] on the scalar: a
    string never equals [None]. *)
Definition cell_eq (cell : string) (v : Value) : bool :=
  match v with Some s => cell =? s | None => false end.

Lemma cell_eq_true (cell : string) (v : Value) :
  cell_eq cell v = true <-> v = Some cell.
Proof.
  destruct v as [s|]; simpl; [|done].
  rewrite String.eqb_eq. split; congruence.
Qed.

(** ** Column sums

    [Series.sum()] with pandas' defaults [skipna=True, min_count=0]: NaN
    cells are skipped and an empty or all-NaN column sums to 0. *)

Definition nan_to_zero (c : option Z) : Z :=
  match c with Some z => z | None => 0%Z end.

Definition nansum (col : list (option Z)) : Z := sumZ (map nan_to_zero col).

(** The death-count column of a frame. *)
Definition deaths_col (d : Frame) : list (option Z) :=
  map Number_of_COVID_19_Deaths d.

(** The data invariant the spec states: no death count is negative. *)
Definition counts_nonneg (d : Frame) : Prop :=
  Forall (fun r => (0 <= nan_to_zero (Number_of_COVID_19_Deaths r))%Z) d.

(** Every row's age group is one of the dropdown values. *)
Definition ages_in_range (d : Frame) : Prop :=
  Forall (fun r => In (Age_Group r) age_ranges) d.

(** ** Lemmas on column sums *)

Lemma nansum_app (c1 c2 : list (option Z)) : nansum (c1 ++ c2) = (nansum c1 + nansum c2)%Z.
Proof. unfold nansum. by rewrite map_app, sumZ_app. Qed.

Lemma deaths_col_app (d1 d2 : Frame) : deaths_col (d1 ++ d2)%list = (deaths_col d1 ++ deaths_col d2)%list.
Proof. apply map_app. Qed.

#[export] Hint Rewrite nansum_app deaths_col_app : frame_rw.

#[export] Instance nansum_Permutation : Proper (Permutation ==> eq) nansum.
Proof. intros c1 c2 Hp. unfold nansum. by rewrite Hp. Qed.

Lemma nansum_cons (c : option Z) (col : list (option Z)) :
  nansum (c :: col) = (nan_to_zero c + nansum col)%Z.
Proof. done. Qed.

Lemma nansum_filter_le (p : Row -> bool) (d : Frame) :
  counts_nonneg d -> (nansum (deaths_col d⟦p⟧) <= nansum (deaths_col d))%Z.
Proof.
  intros Hnn. unfold nansum, deaths_col. rewrite !map_map.
  apply sumZ_filter_le. exact Hnn.
Qed.

Lemma nansum_nonneg (d : Frame) : counts_nonneg d -> (0 <= nansum (deaths_col d))%Z.
Proof.
  intros Hnn. unfold nansum, deaths_col. rewrite map_map.
  apply sumZ_nonneg. induction Hnn; simpl; constructor; auto.
Qed.

Lemma counts_nonneg_filter (p : Row -> bool) (d : Frame) :
  counts_nonneg d -> counts_nonneg d⟦p⟧.
Proof. apply Forall_mask. Qed.

Lemma nansum_deaths_col (d : Frame) :
  nansum (deaths_col d) = sumZ (map (fun r => nan_to_zero (Number_of_COVID_19_Deaths r)) d).
Proof. unfold nansum, deaths_col. by rewrite map_map. Qed.

Lemma age_bands_not_all (a : string) : In a age_bands -> a <> "All ages".
Proof. simpl. intros Ha. repeat destruct Ha as [<-|Ha]; done. Qed.

#[export] Hint Resolve nansum_filter_le nansum_nonneg counts_nonneg_filter : frame.
#[export] Hint Rewrite nansum_app nansum_cons : frame_rw.

(** ** The spec's scenario table *)

Definition spec_table : Frame := [
  mkRow "California" "65-74" "COVID-19" (Some 500%Z);
  mkRow "California" "65-74" "Diabetes" (Some 120%Z);
  mkRow "Texas" "65-74" "COVID-19" (Some 300%Z)].
