(* ===== verification/Dates.v ===== *)
(** * Dates: the calendar of the time-series analysis

    src/covid_analysis.py line 36 turns the ["Date"] column of the US rows
    into datetimes with [pd.to_datetime], and line 98 bins them by
    calendar month.  This file holds the date record, its order key, the
    calendar (leap years, month lengths, month ends) and the parser
    [parse_date] of the ISO day strings ["YYYY-MM-DD"] of
    covid_grouped.csv, with its printer [print_date].

    pandas (2.x, whose [to_datetime] infers one format from the first
    string) reads the data file's strings with the ISO format; the model
    decides exactly the strings of that layout: a calendar day within the
    [datetime64[ns]] range is read, a month outside 1-12, a day outside
    its month or a year out of range raises.  Other layouts are
    [Outside]: what pandas does with them depends on the format it
    infers. *)

From S2P Require Import Prelude.

(** ** Dates and the calendar *)

(** A date as [pd.to_datetime] yields it for the CSV's day strings. *)
Record Date := mkDate { year : Z; month : Z; day : Z }.

(** Dates compare by year, then month, then day: by this key on valid
    dates (months 1-12, days 1-31). *)
Definition date_key (d : Date) : Z := (year d * 12 + (month d - 1)) * 31 + (day d - 1).


(** The months since year 0 of a date: the bin [resample("M")] puts it in. *)
Definition month_index (d : Date) : Z := (year d * 12 + (month d - 1))%Z.

Definition is_leap (y : Z) : bool :=
  ((y mod 4 =? 0) && negb (y mod 100 =? 0) || (y mod 400 =? 0))%Z.

Definition days_in_month (y m : Z) : Z :=
  (if m =? 2 then (if is_leap y then 29 else 28)
   else if (m =? 4) || (m =? 6) || (m =? 9) || (m =? 11) then 30 else 31)%Z.

(** The label of bin [k]: its month's last day ("M" is month end). *)
Definition month_end (k : Z) : Date :=
  mkDate (k / 12) (k mod 12 + 1) (days_in_month (k / 12) (k mod 12 + 1))%Z.

(** A real calendar day. *)
Definition valid_date (d : Date) : bool :=
  ((1 <=? month d) && (month d <=? 12) &&
   (1 <=? day d) && (day d <=? days_in_month (year d) (month d)))%Z.

(** ** Parsing the day strings *)

Definition digit_val (c : Ascii.ascii) : option Z :=
  let n := Ascii.nat_of_ascii c in
  if (48 <=? n) && (n <=? 57) then Some (Z.of_nat n - 48)%Z else None.

(** The value of a run of decimal digits, [None] if a character is not a
    digit. *)
Definition parse_digits (l : list Ascii.ascii) : option Z :=
  fold_left (fun acc c => match acc, digit_val c with
                          | Some a, Some v => Some (a * 10 + v)%Z
                          | _, _ => None
                          end) l (Some 0%Z).

Definition dash : Ascii.ascii := Ascii.ascii_of_nat 45.

Definition is_digit (c : Ascii.ascii) : bool :=
  match digit_val c with Some _ => true | None => false end.

(** The layout ["dddd-dd-dd"] of the data file's day strings. *)
Definition iso_shape (s : string) : bool :=
  let l := String.list_ascii_of_string s in
  (length l =? 10)%nat && Ascii.eqb (nth 4 l dash) dash && Ascii.eqb (nth 7 l dash) dash &&
  forallb is_digit (firstn 4 l ++ firstn 2 (skipn 5 l) ++ skipn 8 l).

(** The days a [datetime64[ns]] holds: [Timestamp.min] is
    1677-09-21 00:12:43.145224193 and [Timestamp.max]
    2262-04-11 23:47:16.854775807, so midnight of a day is in range from
    1677-09-22 to 2262-04-11. *)
Definition in_ns_range (d : Date) : bool :=
  ((date_key (mkDate 1677 9 22) <=? date_key d) && (date_key d <=? date_key (mkDate 2262 4 11)))%Z.

(** [pd.to_datetime] on one string of the ISO layout, the format pandas
    infers for the data file: the day it names; a month or day that names
    no calendar day raises [DateParseError] ("day is out of range for
    month"), a day outside the [datetime64[ns]] range raises
    [OutOfBoundsDatetime].  pandas also reads other layouts (unpadded
    fields, surrounding spaces, other separators, depending on the format
    it infers); the model does not decide them ([Outside]). *)
Definition parse_date (s : string) : Outcome Date :=
  let l := String.list_ascii_of_string s in
  if iso_shape s then
    match parse_digits (firstn 4 l), parse_digits (firstn 2 (skipn 5 l)),
          parse_digits (skipn 8 l) with
    | Some y, Some m, Some d =>
        let dt := mkDate y m d in
        if negb (valid_date dt) then Raised DateParseError
        else if in_ns_range dt then Done dt else Raised OutOfBoundsDatetime
    | _, _, _ => Outside
    end
  else Outside.

(** ** Printing *)

Definition digit_char (n : Z) : Ascii.ascii := Ascii.ascii_of_nat (48 + Z.to_nat n).

(** The last [w] decimal digits of [n], zero-padded. *)
Fixpoint print_digits (w : nat) (n : Z) : list Ascii.ascii :=
  match w with
  | O => []
  | S w' => print_digits w' (n / 10) ++ [digit_char (n mod 10)]
  end.

(** A date as the data file writes it. *)
Definition print_date (d : Date) : string :=
  String.string_of_list_ascii
    (print_digits 4 (year d) ++ dash :: print_digits 2 (month d) ++ dash :: print_digits 2 (day d)).

(** ** Lemmas *)

Lemma days_in_month_bounds (y m : Z) : (28 <= days_in_month y m <= 31)%Z.
Proof. unfold days_in_month. repeat case_match; lia. Qed.

Lemma digit_val_char (k : Z) : (0 <= k <= 9)%Z -> digit_val (digit_char k) = Some k.
Proof.
  intros Hk. unfold digit_val, digit_char. rewrite Ascii.nat_ascii_embedding by lia.
  replace ((48 <=? 48 + Z.to_nat k) && (48 + Z.to_nat k <=? 57))%nat with true
    by (symmetry; apply andb_true_intro; split; apply Nat.leb_le; lia).
  f_equal. lia.
Qed.

Lemma digit_char_val (c : Ascii.ascii) (v : Z) :
  digit_val c = Some v -> (0 <= v <= 9)%Z /\ digit_char v = c.
Proof.
  unfold digit_val, digit_char. destruct (Nat.leb_spec 48 (Ascii.nat_of_ascii c)),
    (Nat.leb_spec (Ascii.nat_of_ascii c) 57); simpl; intros; simplify_eq; [|done..].
  split; [lia|]. rewrite <- (Ascii.ascii_nat_embedding c) at 2. f_equal. lia.
Qed.

Lemma parse_digits_snoc (l : list Ascii.ascii) (c : Ascii.ascii) :
  parse_digits (l ++ [c]) =
  match parse_digits l, digit_val c with Some a, Some v => Some (a * 10 + v)%Z | _, _ => None end.
Proof. unfold parse_digits. by rewrite fold_left_app. Qed.

Lemma print_digits_length (w : nat) (n : Z) : length (print_digits w n) = w.
Proof. revert n. induction w as [|w IH]; intros n; simpl; [done|]. rewrite length_app, IH. simpl. lia. Qed.

(** Printing [w] digits and parsing them back gives the number when it
    has at most [w] digits. *)
Lemma parse_print_digits (w : nat) (n : Z) :
  (0 <= n < 10 ^ Z.of_nat w)%Z -> parse_digits (print_digits w n) = Some n.
Proof.
  revert n. induction w as [|w IH]; intros n Hn; simpl.
  - simpl in Hn. by replace n with 0%Z by lia.
  - rewrite parse_digits_snoc, IH, digit_val_char.
    + f_equal. pose proof (Z.div_mod n 10). lia.
    + pose proof (Z.mod_pos_bound n 10). lia.
    + rewrite Nat2Z.inj_succ, Z.pow_succ_r in Hn by lia. split; [apply Z.div_pos; lia|].
      apply Z.div_lt_upper_bound; lia.
Qed.

(** Parsing a run of digits and printing the value back gives the run. *)
Lemma print_parse_digits (l : list Ascii.ascii) (n : Z) :
  parse_digits l = Some n -> (0 <= n < 10 ^ Z.of_nat (length l))%Z /\ print_digits (length l) n = l.
Proof.
  revert n. induction l as [|c l IH] using rev_ind; intros n.
  - unfold parse_digits. simpl. intros [= <-]. split; [simpl; lia|done].
  - rewrite parse_digits_snoc, length_app. simpl.
    destruct (parse_digits l) as [a|], (digit_val c) as [v|] eqn:Hc; try discriminate.
    intros [= <-]. destruct (IH a eq_refl) as [Ha Hp]. destruct (digit_char_val c v Hc) as [Hv Hcv].
    rewrite Nat.add_1_r, Nat2Z.inj_succ, Z.pow_succ_r by lia. split; [lia|]. simpl.
    replace ((a * 10 + v) / 10)%Z with a by (apply Z.div_unique with v; lia).
    replace ((a * 10 + v) mod 10)%Z with v by (apply Z.mod_unique with a; lia).
    by rewrite Hp, Hcv.
Qed.

Lemma valid_date_bounds (d : Date) :
  valid_date d = true -> (1 <= month d <= 12 /\ 1 <= day d <= 31)%Z.
Proof.
  unfold valid_date. intros H. repeat (apply andb_prop in H as [H ?]).
  pose proof (days_in_month_bounds (year d) (month d)). lia.
Qed.

Lemma parse_digits_digits (l : list Ascii.ascii) :
  forallb is_digit l = true -> exists n, parse_digits l = Some n.
Proof.
  induction l as [|c l IH] using rev_ind; [by exists 0%Z|].
  rewrite forallb_app. cbn. rewrite andb_true_r. intros [Hl Hc]%andb_prop.
  destruct (IH Hl) as [n Hn]. unfold is_digit in Hc. destruct (digit_val c) as [v|] eqn:Hv; [|done].
  exists (n * 10 + v)%Z. by rewrite parse_digits_snoc, Hn, Hv.
Qed.

Lemma parse_digits_is_digit (l : list Ascii.ascii) (n : Z) :
  parse_digits l = Some n -> forallb is_digit l = true.
Proof.
  revert n. induction l as [|c l IH] using rev_ind; intros n; [done|].
  rewrite parse_digits_snoc, forallb_app. cbn. rewrite andb_true_r.
  destruct (parse_digits l) as [a|] eqn:Ha, (digit_val c) eqn:Hc; try discriminate.
  intros _. rewrite (IH a eq_refl). unfold is_digit. by rewrite Hc.
Qed.

Lemma in_ns_range_year (d : Date) :
  valid_date d = true -> in_ns_range d = true -> (1677 <= year d <= 2262)%Z.
Proof.
  intros Hv Hr. destruct (valid_date_bounds d Hv).
  unfold in_ns_range, date_key in Hr. cbn [year month day] in Hr.
  apply andb_prop in Hr as [H1 H2]. apply Z.leb_le in H1, H2. lia.
Qed.

(** The string of a day in range is in the ISO layout and parses to the
    day. *)
Lemma parse_print_date (d : Date) :
  valid_date d = true -> in_ns_range d = true ->
  iso_shape (print_date d) = true /\ parse_date (print_date d) = Done d.
Proof.
  intros Hv Hr. pose proof (in_ns_range_year d Hv Hr) as Hy.
  destruct (valid_date_bounds d Hv) as [Hm Hd].
  destruct d as [y m dd]. cbn [year month day] in *.
  pose proof (parse_print_digits 4 y ltac:(simpl; lia)) as Py.
  pose proof (parse_print_digits 2 m ltac:(simpl; lia)) as Pm.
  pose proof (parse_print_digits 2 dd ltac:(simpl; lia)) as Pd.
  pose proof (parse_digits_is_digit _ _ Py) as Dy.
  pose proof (parse_digits_is_digit _ _ Pm) as Dm.
  pose proof (parse_digits_is_digit _ _ Pd) as Dd.
  pose proof (print_digits_length 4 y) as Ly.
  pose proof (print_digits_length 2 m) as Lm.
  pose proof (print_digits_length 2 dd) as Ld.
  unfold print_date, parse_date, iso_shape. cbn [year month day].
  destruct (print_digits 4 y) as [|y0 [|y1 [|y2 [|y3 [|]]]]]; try discriminate.
  destruct (print_digits 2 m) as [|m0 [|m1 [|]]]; try discriminate.
  destruct (print_digits 2 dd) as [|d0 [|d1 [|]]]; try discriminate.
  simpl app. rewrite String.list_ascii_of_string_of_list_ascii.
  cbn [length nth firstn skipn Nat.eqb andb app].
  assert (Hdig : forallb is_digit [y0; y1; y2; y3; m0; m1; d0; d1] = true).
  { change [y0; y1; y2; y3; m0; m1; d0; d1] with ([y0; y1; y2; y3] ++ [m0; m1] ++ [d0; d1])%list.
    by rewrite !forallb_app, Dy, Dm, Dd. }
  rewrite Ascii.eqb_refl, Hdig, Py, Pm, Pd. cbn [andb]. split; [done|]. by rewrite Hv, Hr.
Qed.

(** A string that parses is the ISO text of the day it yields. *)
Lemma parse_date_Done (s : string) (d : Date) :
  parse_date s = Done d -> valid_date d = true /\ in_ns_range d = true /\ s = print_date d.
Proof.
  intros H. rewrite <- (String.string_of_list_ascii_of_string s) in H |- *.
  generalize dependent (String.list_ascii_of_string s). intros l H.
  unfold parse_date, iso_shape in H. rewrite String.list_ascii_of_string_of_list_ascii in H.
  destruct l as [|c0 [|c1 [|c2 [|c3 [|c4 [|c5 [|c6 [|c7 [|c8 [|c9 [|]]]]]]]]]]]; try discriminate.
  cbn [length nth firstn skipn Nat.eqb andb app] in H.
  destruct (Ascii.eqb_spec c4 dash), (Ascii.eqb_spec c7 dash); try discriminate. subst c4 c7.
  destruct (forallb is_digit _); [|discriminate]. cbn [andb] in H.
  destruct (parse_digits [c0; c1; c2; c3]) as [y|] eqn:Hy,
    (parse_digits [c5; c6]) as [m|] eqn:Hm, (parse_digits [c8; c9]) as [dd|] eqn:Hd;
    try discriminate.
  cbn zeta in H. destruct (valid_date (mkDate y m dd)) eqn:Hv; [|discriminate].
  destruct (in_ns_range (mkDate y m dd)) eqn:Hr; [|discriminate]. injection H as <-.
  apply print_parse_digits in Hy as [_ Py], Hm as [_ Pm], Hd as [_ Pd].
  cbn [length] in Py, Pm, Pd. split_and!; [done | done |].
  unfold print_date. cbn [year month day]. by rewrite Py, Pm, Pd.
Qed.

(** A string of the ISO layout is decided: it parses or raises. *)
Lemma parse_date_Outside (s : string) : parse_date s = Outside <-> iso_shape s = false.
Proof.
  unfold parse_date. destruct (iso_shape s) eqn:Hs; [|done]. split; [|discriminate].
  unfold iso_shape in Hs. apply andb_prop in Hs as [_ Hs]. rewrite !forallb_app in Hs.
  apply andb_prop in Hs as [Hy Hs]. apply andb_prop in Hs as [Hm Hd].
  destruct (parse_digits_digits _ Hy) as [y ->], (parse_digits_digits _ Hm) as [m ->],
    (parse_digits_digits _ Hd) as [dd ->].
  cbn zeta. by repeat case_match.
Qed.

(** C30: [pd.to_datetime] on a day string of the data file: a string
    yields a day exactly when it is the ISO text ["YYYY-MM-DD"] of a real
    calendar day that a [datetime64[ns]] holds (1677-09-22 to
    2262-04-11), and then it yields that day; a string of the ISO layout
    that names no such day (the 30th of February, month 13, the year 9999)
    raises; the model decides exactly the strings of the ISO layout. *)
Theorem parse_date_spec (s : string) (d : Date) :
  (parse_date s = Done d <-> valid_date d = true /\ in_ns_range d = true /\ s = print_date d) /\
  (parse_date s = Outside <-> iso_shape s = false).
Proof.
  split; [split|apply parse_date_Outside].
  - apply parse_date_Done.
  - intros (Hv & Hr & ->). by apply parse_print_date.
Qed.

(** ** Examples *)

Example parse_date_examples :
  parse_date "2020-01-22" = Done (mkDate 2020 1 22) /\
  parse_date "2020-02-29" = Done (mkDate 2020 2 29) /\
  parse_date "2019-02-29" = Raised DateParseError /\
  parse_date "2020-02-30" = Raised DateParseError /\
  parse_date "2020-13-01" = Raised DateParseError /\
  parse_date "9999-12-31" = Raised OutOfBoundsDatetime /\
  parse_date "1677-09-21" = Raised OutOfBoundsDatetime /\
  parse_date "1677-09-22" = Done (mkDate 1677 9 22) /\
  parse_date "2020/01/22" = Outside /\
  parse_date "2020-1-22" = Outside.
Proof. vm_compute. repeat split. Qed.
