(* ===== verification/ConditionFilter.v ===== *)
(** * ConditionFilter: the "Mortality by Comorbidity" callback

    [update_mortality_dashboard] (src/app.py lines 94-108) selects the rows
    of [deaths] for one age range and one condition, reports how many rows
    it found and draws one bar per selected row.  Its notebook clone
    [update_output] (src/covid_analysis.py lines 199-217) is [Notebook]
    below: it tests the age range with a plain equality instead of the
    ["All ages"] disjunction, and its dropdowns can be cleared to [None]. *)

From Stdlib Require Import DecimalString DecimalNat Ascii.
From S2P Require Import Prelude Table.
Open Scope string_scope.

(** ** Python's [str] of an [int] inside an f-string *)

Definition py_str_int (n : nat) : string := NilEmpty.string_of_uint (Nat.to_uint n).

(** ** The figure handed to plotly

    [px.bar(filtered_data, x='State', y='Number of COVID-19 Deaths', ...)]
    draws one bar per row of the frame, in row order; [update_layout]
    then overrides the axis titles and hides the legend.  The rendering
    itself belongs to plotly and is not modelled. *)

Record BarFigure := mkBar {
  bar_x : list string;
  bar_y : list (option Z);
  bar_title : string;
  bar_labels : list (string * string);
  xaxis_title : string;
  yaxis_title : string;
  showlegend : option bool
}.

(** [px.bar]: axis titles default to the relabelled column names, the
    legend flag is left unset. *)
Definition px_bar (fd : Frame) (title : string) : BarFigure := {|
  bar_x := map State fd;
  bar_y := deaths_col fd;
  bar_title := title;
  bar_labels := [("Number of COVID-19 Deaths", "Deaths"); ("State", "State")];
  xaxis_title := "State";
  yaxis_title := "Deaths";
  showlegend := None |}.

(** [fig.update_layout(xaxis_title="State", yaxis_title="Number of Deaths",
    showlegend=False)] (app.py line 107). *)
Definition update_layout_bar (f : BarFigure) : BarFigure := {|
  bar_x := bar_x f;
  bar_y := bar_y f;
  bar_title := bar_title f;
  bar_labels := bar_labels f;
  xaxis_title := "State";
  yaxis_title := "Number of Deaths";
  showlegend := Some false |}.

Definition mortality_title (age_range condition : string) : string :=
  "COVID-19 Deaths by State for " +:+ condition +:+ " in Age Range: " +:+ age_range.

(** The [output_text] f-string (app.py line 99). *)
Definition output_text (age_range condition : string) (n : nat) : string :=
  "Age Range: " +:+ age_range +:+ ", Condition: " +:+ condition
  +:+ ", Number of Cases: " +:+ py_str_int n.

(** ** The app's callback (app.py lines 94-108) *)

(** [(deaths['Age Group'] == age_range) | (age_range == 'All ages')] *)
Definition age_mask (age_range : string) (r : Row) : bool :=
  (Age_Group r =? age_range) || (age_range =? "All ages").

(** [deaths['Condition'] == condition] *)
Definition condition_mask (condition : string) (r : Row) : bool :=
  Condition r =? condition.

Definition filtered_data (deaths : Frame) (age_range condition : string) : Frame :=
  deaths⟦fun r => age_mask age_range r && condition_mask condition r⟧.

Definition update_mortality_dashboard (deaths : Frame) (age_range condition : string)
    : string * BarFigure :=
  let fd := filtered_data deaths age_range condition in
  let output_text := output_text age_range condition (length fd) in
  let fig := px_bar fd (mortality_title age_range condition) in
  (output_text, update_layout_bar fig).

(** ** The notebook's callback (covid_analysis.py lines 199-217) *)

Module Notebook.

(** [(deaths['Age Group'] == age_range) & (deaths['Condition'] == condition)] *)
Definition filtered_data (deaths : Frame) (age_range condition : Value) : Frame :=
  deaths⟦fun r => cell_eq (Age_Group r) age_range && cell_eq (Condition r) condition⟧.

Definition update_output (deaths : Frame) (age_range condition : Value)
    : string * BarFigure :=
  let fd := filtered_data deaths age_range condition in
  let output_text := output_text (py_str age_range) (py_str condition) (length fd) in
  let fig := px_bar fd (mortality_title (py_str age_range) (py_str condition)) in
  (output_text, update_layout_bar fig).

End Notebook.

(** ** Reading the count back from the text

    A reader of the dashboard reads the count as the run of decimal digits
    that ends the status line.  [count_of_text] is that reading; the
    round-trip theorem below shows that it recovers the count the
    callback printed, whatever the age range and condition strings hold. *)

Definition is_digit (c : Ascii.ascii) : bool :=
  match c with
  | "0" | "1" | "2" | "3" | "4" | "5" | "6" | "7" | "8" | "9" => true
  | _ => false
  end%char.

Definition count_of_text (s : string) : option nat :=
  let ds := rev (take_while is_digit (rev (String.list_ascii_of_string s))) in
  option_map Nat.of_uint (NilEmpty.uint_of_string (String.string_of_list_ascii ds)).

Lemma py_str_int_digits (n : nat) :
  Forall (fun c => is_digit c = true) (String.list_ascii_of_string (py_str_int n)).
Proof.
  unfold py_str_int. generalize (Nat.to_uint n) as u.
  induction u; simpl; constructor; auto.
Qed.

Lemma count_of_text_suffix (pre : string) (n : nat) :
  count_of_text (pre +:+ " " +:+ py_str_int n) = Some n.
Proof.
  unfold count_of_text. rewrite !list_ascii_of_string_app, !rev_app_distr. simpl.
  rewrite <- app_assoc. simpl.
  rewrite take_while_app_stop by (auto using Forall_rev, py_str_int_digits).
  rewrite rev_involutive, String.string_of_list_ascii_of_string.
  unfold py_str_int. rewrite NilEmpty.usu. simpl. by rewrite DecimalNat.Unsigned.of_to.
Qed.

Lemma output_text_split (age_range condition : string) (n : nat) :
  output_text age_range condition n =
  ("Age Range: " +:+ age_range +:+ ", Condition: " +:+ condition +:+ ", Number of Cases:")
  +:+ " " +:+ py_str_int n.
Proof. unfold output_text. by rewrite <- !str_app_assoc. Qed.

(** ** Selection lemmas *)

Lemma age_mask_true (a : string) (r : Row) :
  age_mask a r = true <-> Age_Group r = a \/ a = "All ages".
Proof. unfold age_mask. by bool_to_prop. Qed.

Lemma condition_mask_true (c : string) (r : Row) :
  condition_mask c r = true <-> Condition r = c.
Proof. unfold condition_mask. by bool_to_prop. Qed.

#[export] Hint Rewrite age_mask_true condition_mask_true cell_eq_true : frame_rw.

(** ** Properties of the app's selection *)

(** C1: the bar chart's rows are an order-preserving subsequence of the
    table, and a row is selected exactly when its condition is the chosen
    one and either its age group is the chosen one or the chosen age range
    is ["All ages"]. *)
Theorem filtered_data_spec (deaths : Frame) (age_range condition : string) :
  filtered_data deaths age_range condition `sublist_of` deaths /\
  forall r, In r (filtered_data deaths age_range condition) <->
            In r deaths /\ Condition r = condition /\
            (Age_Group r = age_range \/ age_range = "All ages").
Proof.
  split; [apply filter_sublist|].
  intros r. unfold filtered_data. rewrite filter_In, andb_true_iff.
  autorewrite with frame_rw. tauto.
Qed.

(** C8: the status line the callback returns ends with the number of
    selected rows, which is the number of bars it draws: reading the
    trailing digits of the text gives back the bar count. *)
Theorem update_mortality_dashboard_count (deaths : Frame) (age_range condition : string) :
  let out := update_mortality_dashboard deaths age_range condition in
  count_of_text out.1 = Some (length (bar_x out.2)) /\
  length (bar_x out.2) = length (filtered_data deaths age_range condition) /\
  length (bar_y out.2) = length (bar_x out.2).
Proof.
  simpl. unfold deaths_col. rewrite !length_map. split; [|done].
  by rewrite output_text_split, count_of_text_suffix.
Qed.

(** ** The notebook clone against the app *)

(** C6: the notebook's callback selects the same rows as the app's for
    every age range except ["All ages"]; for ["All ages"] it keeps, of the
    app's selection, only the rows whose age group is literally
    ["All ages"], so it never agrees with the spec's reading of the
    sentinel on a table that has per-band rows of the condition. *)
Theorem notebook_filter_vs_app (deaths : Frame) (age_range condition : string) :
  (age_range <> "All ages" ->
   Notebook.filtered_data deaths (Some age_range) (Some condition)
   = filtered_data deaths age_range condition) /\
  Notebook.filtered_data deaths (Some "All ages") (Some condition)
  = (filtered_data deaths "All ages" condition)⟦fun r => Age_Group r =? "All ages"⟧.
Proof.
  split.
  - intros Hne. apply filter_ext_pointwise. intros r _. simpl.
    unfold age_mask, condition_mask. by rewrite (proj2 (String.eqb_neq _ _) Hne), orb_false_r.
  - unfold filtered_data. rewrite filter_filter. apply filter_ext_pointwise.
    intros r _. unfold age_mask, condition_mask. simpl. rewrite orb_true_r. apply andb_comm.
Qed.

(** C10: a cleared dropdown in the notebook ([None]) matches no row: the
    chart is empty and the status line reports 0 cases. *)
Theorem update_output_cleared (deaths : Frame) (age_range condition : Value) :
  age_range = None \/ condition = None ->
  Notebook.filtered_data deaths age_range condition = [] /\
  count_of_text (Notebook.update_output deaths age_range condition).1 = Some 0%nat.
Proof.
  intros Hnone.
  assert (Hnil : Notebook.filtered_data deaths age_range condition = []).
  { apply filter_nil_iff, List.Forall_forall. intros r _.
    destruct Hnone as [-> | ->]; simpl; [done | apply andb_false_r]. }
  split; [done|]. simpl. rewrite Hnil. by rewrite output_text_split, count_of_text_suffix.
Qed.

Lemma update_output_cleared_witness :
  (@None string = None \/ Some "COVID-19" = None) /\
  Notebook.filtered_data [mkRow "Texas" "All ages" "COVID-19" (Some 300%Z)] None (Some "COVID-19") = [] /\
  count_of_text
    (Notebook.update_output [mkRow "Texas" "All ages" "COVID-19" (Some 300%Z)] None (Some "COVID-19")).1
  = Some 0%nat.
Proof. split; [by left|]. apply update_output_cleared. by left. Defined.

(** ** The spec's scenarios *)

Example spec_scenario_filter :
  filtered_data spec_table "65-74" "COVID-19" =
    [mkRow "California" "65-74" "COVID-19" (Some 500%Z);
     mkRow "Texas" "65-74" "COVID-19" (Some 300%Z)] /\
  (update_mortality_dashboard spec_table "65-74" "COVID-19").1 =
    "Age Range: 65-74, Condition: COVID-19, Number of Cases: 2".
Proof. split; reflexivity. Qed.

Example spec_scenario_empty :
  filtered_data spec_table "0-24" "Alzheimer disease" = [] /\
  (update_mortality_dashboard spec_table "0-24" "Alzheimer disease").1 =
    "Age Range: 0-24, Condition: Alzheimer disease, Number of Cases: 0".
Proof. split; reflexivity. Qed.
