(* ===== verification/GroupBy.v ===== *)
(** * GroupBy: pandas' [groupby(key)[col].sum().reset_index()]

    Both map callbacks (src/app.py lines 117 and 119, src/covid_analysis.py
    lines 262 and 264) reduce a frame with
    [groupby("State")["Number of COVID-19 Deaths"].sum().reset_index()].
    That call belongs to pandas, so this file states what pandas promises
    of it as the class [GroupBySumLaws] (one output row per distinct key,
    keys in ascending order since [sort=True] is the default, each key's
    value the NaN-skipping sum of its group), gives an executable instance
    by insertion into a sorted association list that keeps the promise,
    and proves what the promise gives its clients: the result read as a
    [gmap] is the key-to-total function, and it does not depend on the
    order of the input rows. *)

From stdpp Require Import gmap.
From S2P Require Import Prelude Table.
Open Scope string_scope.

(** The input of the reduction: the key column paired with the summed
    column, row by row. *)
Abbreviation Keyed := (list (string * option Z)).

(** The output: one [(key, total)] row per group. *)
Abbreviation Grouped := (list (string * Z)).

(** The total of group [k]: the NaN-skipping sum over the rows whose key is [k]. *)
Definition group_total (l : Keyed) (k : string) : Z :=
  nansum (map snd l⟦fun p => p.1 =? k⟧).

(** ** The interface *)

Class GroupBySum := groupby_sum : Keyed -> Grouped.

Class GroupBySumLaws (gb : GroupBySum) : Prop := {
  groupby_sorted : forall l, StronglySorted str_lt (map fst (gb l));
  groupby_keys : forall l k, In k (map fst (gb l)) <-> In k (map fst l);
  groupby_value : forall l k v, In (k, v) (gb l) -> v = group_total l k
}.

(** The sum of the entries of [g] stored under [k]. *)
Definition grouped_total (g : Grouped) (k : string) : Z :=
  sumZ (map snd g⟦fun p => p.1 =? k⟧).

(** ** Lemmas on association lists with distinct keys *)

Lemma grouped_total_In (g : Grouped) (k : string) (v : Z) :
  List.NoDup (map fst g) -> In (k, v) g -> grouped_total g k = v.
Proof.
  unfold grouped_total. induction g as [|[k0 s] g IH]; simpl; [done|].
  intros Hnd Hin. apply List.NoDup_cons_iff in Hnd as [Hk0 Hnd].
  destruct Hin as [[= -> ->] | Hin].
  - rewrite String.eqb_refl. simpl.
    enough (g⟦fun p => p.1 =? k⟧ = []) as -> by (simpl; lia).
    apply filter_nil_iff, List.Forall_forall. intros [k1 s1] Hk1. simpl.
    apply String.eqb_neq. intros ->. apply Hk0, in_map_iff. by exists (k, s1).
  - assert (k0 <> k) as Hne.
    { intros ->. apply Hk0, in_map_iff. by exists (k, v). }
    rewrite (proj2 (String.eqb_neq _ _) Hne). by apply IH.
Qed.

Lemma StronglySorted_str_lt_NoDup (l : list string) :
  StronglySorted str_lt l -> List.NoDup l.
Proof.
  induction 1 as [|x l _ IH Hall]; constructor; [|done].
  intros Hin. eapply List.Forall_forall in Hall; [|exact Hin]. by apply str_lt_irrefl in Hall.
Qed.

(** Two strictly sorted lists with the same elements are equal. *)
Lemma StronglySorted_str_lt_ext (l1 l2 : list string) :
  StronglySorted str_lt l1 -> StronglySorted str_lt l2 ->
  (forall x, In x l1 <-> In x l2) -> l1 = l2.
Proof.
  intros H1. revert l2. induction H1 as [|a l1 H1 IH Ha]; intros l2 H2 Hext.
  - destruct l2 as [|b l2]; [done|]. exfalso. apply (Hext b). by left.
  - destruct H2 as [|b l2 H2 Hb].
    + exfalso. apply (Hext a). by left.
    + assert (a = b) as <-.
      { destruct (decide (a = b)) as [|Hne]; [done|]. exfalso.
        assert (In a l2) as Ha2 by (destruct (proj1 (Hext a) (or_introl eq_refl)); [congruence|done]).
        assert (In b l1) as Hb1 by (destruct (proj2 (Hext b) (or_introl eq_refl)); [congruence|done]).
        eapply List.Forall_forall in Hb; [|exact Ha2]. eapply List.Forall_forall in Ha; [|exact Hb1].
        apply (str_lt_irrefl a). by eapply str_lt_trans. }
      f_equal. apply IH; [done|]. intros x. split; intros Hx.
      * destruct (proj1 (Hext x) (or_intror Hx)) as [<-|]; [|done].
        eapply List.Forall_forall in Ha; [|exact Hx]. by apply str_lt_irrefl in Ha.
      * destruct (proj2 (Hext x) (or_intror Hx)) as [<-|]; [|done].
        eapply List.Forall_forall in Hb; [|exact Hx]. by apply str_lt_irrefl in Hb.
Qed.

(** Two association lists with the same key list whose values are both
    given by the same function of the key are equal. *)
Lemma grouped_ext (f : string -> Z) (g1 g2 : Grouped) :
  map fst g1 = map fst g2 ->
  (forall k v, In (k, v) g1 -> v = f k) -> (forall k v, In (k, v) g2 -> v = f k) ->
  g1 = g2.
Proof.
  revert g2. induction g1 as [|[k1 v1] g1 IH]; intros [|[k2 v2] g2]; simpl; try done.
  intros [= -> Hk] H1 H2.
  rewrite (H1 k2 v1 (or_introl eq_refl)), (H2 k2 v2 (or_introl eq_refl)).
  f_equal. apply IH; [done | |]; intros k v Hin; [apply H1 | apply H2]; by right.
Qed.

(** An association list with strictly sorted keys, the keys of [ks], and
    values given by [f], read as a finite map. *)
Lemma sorted_grouped_lookup (g : Grouped) (ks : list string) (f : string -> Z) (k : string) :
  StronglySorted str_lt (map fst g) ->
  (forall k, In k (map fst g) <-> In k ks) ->
  (forall k v, In (k, v) g -> v = f k) ->
  (list_to_map g : gmap string Z) !! k = if decide (In k ks) then Some (f k) else None.
Proof.
  intros Hs Hk Hv. case_decide as Hin.
  - apply Hk, in_map_iff in Hin as [[k' v] [Hk' Hkv]]. simpl in Hk'. subst k'.
    rewrite <- (Hv k v Hkv). apply elem_of_list_to_map_1.
    + apply NoDup_ListNoDup, StronglySorted_str_lt_NoDup, Hs.
    + by apply list_elem_of_In.
  - apply not_elem_of_list_to_map_1. rewrite list_elem_of_In.
    change (~ In k (map fst g)). by rewrite Hk.
Qed.

(** ** Consequences of the interface *)

Section Lawful.
Context (gb : GroupBySum) `{!GroupBySumLaws gb}.

(** The grouped result, read as a finite map from state to total, maps
    every key present in the input to its group's total and nothing else. *)
Lemma groupby_lookup (l : Keyed) (k : string) :
  (list_to_map (gb l) : gmap string Z) !! k =
  if decide (In k (map fst l)) then Some (group_total l k) else None.
Proof.
  apply sorted_grouped_lookup; [apply groupby_sorted | apply groupby_keys | apply groupby_value].
Qed.

Lemma groupby_nil (l : Keyed) : gb l = [] <-> l = [].
Proof.
  split; intros Hl.
  - destruct l as [|[k c] l]; [done|]. exfalso.
    assert (In k (map fst (gb ((k, c) :: l)))) as Hk by (apply groupby_keys; by left).
    rewrite Hl in Hk. done.
  - subst l. destruct (gb []) as [|[k v] g] eqn:E; [done|]. exfalso.
    assert (In k (map fst (gb []))) as Hk by (rewrite E; by left).
    by apply groupby_keys in Hk.
Qed.

(** The total the grouped result holds for [k] ([0] when [k] has no row). *)
Definition lookup_total (g : Grouped) (k : string) : Z :=
  match (list_to_map g : gmap string Z) !! k with Some v => v | None => 0%Z end.

Lemma groupby_lookup_total (l : Keyed) (k : string) :
  lookup_total (gb l) k = group_total l k.
Proof.
  unfold lookup_total. rewrite groupby_lookup. case_decide as Hk; [done|].
  unfold group_total.
  enough (l⟦fun p => p.1 =? k⟧ = []) as -> by done.
  apply filter_nil_iff, List.Forall_forall. intros [k' c] Hin. simpl.
  apply String.eqb_neq. intros ->. apply Hk, in_map_iff. by exists (k, c).
Qed.
(** A group's total does not depend on the order of the rows. *)
Lemma group_total_Permutation (l1 l2 : Keyed) (k : string) :
  Permutation l1 l2 -> group_total l1 k = group_total l2 k.
Proof. intros Hp. unfold group_total. by rewrite Hp. Qed.

(** The grouped sum does not depend on the order of the rows either: it
    respects permutation of its input. *)
#[export] Instance groupby_sum_Permutation : Proper (Permutation ==> eq) (@groupby_sum gb).
Proof.
  intros l1 l2 Hp. apply (grouped_ext (group_total l1)).
  - apply StronglySorted_str_lt_ext; [apply groupby_sorted.. |].
    intros k. rewrite !groupby_keys. split; apply Permutation_in; [|symmetry]; by apply Permutation_map.
  - apply groupby_value.
  - intros k v Hin. rewrite (group_total_Permutation _ _ k Hp). by apply groupby_value.
Qed.
End Lawful.

(** ** The implementation: insertion into a sorted association list *)

Fixpoint add_to_group (k : string) (v : Z) (g : Grouped) : Grouped :=
  match g with
  | [] => [(k, v)]
  | (k', s) :: g' =>
      match String.compare k k' with
      | Lt => (k, v) :: g
      | Eq => (k', (s + v)%Z) :: g'
      | Gt => (k', s) :: add_to_group k v g'
      end
  end.

Definition groupby_sorted_insert (l : Keyed) : Grouped :=
  fold_right (fun p g => add_to_group p.1 (nan_to_zero p.2) g) [] l.

(** ** Lemmas on [add_to_group] *)

Lemma add_to_group_keys (k k' : string) (v : Z) (g : Grouped) :
  In k' (map fst (add_to_group k v g)) <-> k' = k \/ In k' (map fst g).
Proof.
  induction g as [|[k0 s] g IH]; simpl; [intuition congruence|].
  destruct (String.compare k k0) eqn:C; simpl.
  - apply str_compare_eq in C as ->. intuition congruence.
  - intuition congruence.
  - rewrite IH. intuition congruence.
Qed.

Lemma add_to_group_hd (x k : string) (v : Z) (g : Grouped) :
  str_lt x k -> HdRel str_lt x (map fst g) -> HdRel str_lt x (map fst (add_to_group k v g)).
Proof.
  intros Hxk Hhd. destruct g as [|[k0 s] g]; simpl; [by constructor|].
  inversion Hhd; subst.
  destruct (String.compare k k0); simpl; by constructor.
Qed.

Lemma add_to_group_sorted (k : string) (v : Z) (g : Grouped) :
  Sorted str_lt (map fst g) -> Sorted str_lt (map fst (add_to_group k v g)).
Proof.
  induction g as [|[k0 s] g IH]; simpl; intros Hs; [by repeat constructor|].
  inversion Hs as [|? ? Hg Hhd]; subst.
  destruct (String.compare k k0) eqn:C; simpl.
  - apply str_compare_eq in C as ->. by constructor.
  - constructor; [done|]. by constructor.
  - apply str_compare_gt in C. constructor; [by apply IH|].
    by apply add_to_group_hd.
Qed.

Lemma add_to_group_total (k k' : string) (v : Z) (g : Grouped) :
  grouped_total (add_to_group k v g) k' =
  (grouped_total g k' + (if (k =? k')%string then v else 0))%Z.
Proof.
  unfold grouped_total.
  induction g as [|[k0 s] g IH]; simpl.
  - destruct (k =? k'); simpl; lia.
  - destruct (String.compare k k0) eqn:C; simpl.
    + apply str_compare_eq in C as ->. destruct (k0 =? k'); simpl; lia.
    + destruct (k =? k'), (k0 =? k'); simpl; lia.
    + destruct (k0 =? k'); simpl; rewrite IH; lia.
Qed.

Lemma group_total_cons (p : string * option Z) (l : Keyed) (k : string) :
  group_total (p :: l) k = ((if (p.1 =? k)%string then nan_to_zero p.2 else 0) + group_total l k)%Z.
Proof. unfold group_total. simpl. destruct (p.1 =? k); simpl; [done | lia]. Qed.

(** C3: the sorted-insertion reduction returns its keys in strictly
    ascending order, and read as a finite map it sends each state present
    in the input to the NaN-skipping sum of that state's counts and every
    other key to nothing. *)
Theorem groupby_sorted_insert_map (l : Keyed) :
  StronglySorted str_lt (map fst (groupby_sorted_insert l)) /\
  forall k, (list_to_map (groupby_sorted_insert l) : gmap string Z) !! k =
            if decide (In k (map fst l)) then Some (group_total l k) else None.
Proof.
  assert (Hs : Sorted str_lt (map fst (groupby_sorted_insert l))).
  { induction l as [|p l IH]; simpl; [constructor|]. by apply add_to_group_sorted. }
  apply Sorted_StronglySorted in Hs; [|exact str_lt_trans].
  split; [exact Hs|]. intros k. apply sorted_grouped_lookup; [exact Hs| |].
  - intros k'. clear Hs. induction l as [|p l IH]; simpl; [done|].
    rewrite add_to_group_keys, IH. intuition congruence.
  - intros k' v Hin. rewrite <- (grouped_total_In _ _ _ (StronglySorted_str_lt_NoDup _ Hs) Hin).
    clear Hs Hin. induction l as [|p l IH]; [done|].
    simpl. rewrite add_to_group_total, IH, group_total_cons. lia.
Qed.

(** ** The implementation meets the interface *)

Lemma groupby_sorted_insert_total (l : Keyed) (k : string) :
  grouped_total (groupby_sorted_insert l) k = group_total l k.
Proof.
  induction l as [|p l IH]; [done|].
  simpl. rewrite add_to_group_total, IH, group_total_cons. lia.
Qed.

Lemma groupby_sorted_insert_sorted (l : Keyed) :
  StronglySorted str_lt (map fst (groupby_sorted_insert l)).
Proof.
  apply Sorted_StronglySorted; [exact str_lt_trans|].
  induction l as [|p l IH]; simpl; [constructor|]. by apply add_to_group_sorted.
Qed.

Lemma groupby_sorted_insert_keys (l : Keyed) (k : string) :
  In k (map fst (groupby_sorted_insert l)) <-> In k (map fst l).
Proof.
  induction l as [|p l IH]; simpl; [done|].
  rewrite add_to_group_keys, IH. intuition congruence.
Qed.

#[export] Instance groupby_sorted_insert_gb : GroupBySum := groupby_sorted_insert.

#[export] Instance groupby_sorted_insert_lawful : GroupBySumLaws groupby_sorted_insert.
Proof.
  split.
  - apply groupby_sorted_insert_sorted.
  - apply groupby_sorted_insert_keys.
  - intros l k v Hin. rewrite <- groupby_sorted_insert_total. symmetry.
    apply grouped_total_In; [|done].
    apply StronglySorted_str_lt_NoDup, groupby_sorted_insert_sorted.
Qed.


