(* ===== verification/StateAggregator.v ===== *)
(** * StateAggregator: the per-state choropleth callbacks

    [update_time_series_dashboard] (src/app.py lines 115-129) sums the
    death counts per state, over the whole table when ["All ages"] is
    selected and over the rows of the selected age group otherwise, and
    colours a US map with the totals.  Its notebook clone [update_usa_map]
    (src/covid_analysis.py lines 260-277) does the same and also fixes the
    colour range to [[min, max * 0.025]] of the totals.  The grouped sum is
    any lawful [GroupBySum] (file GroupBy.v); the theorems hold for every
    such instance, and the executable one is found by instance search. *)

From stdpp Require Import gmap.
From Stdlib Require Import QArith.
From S2P Require Import Prelude Table GroupBy.
Open Scope string_scope.

(** ** Python floats

    A pandas float is a number or NaN ([None]).  [Series.min()] and
    [Series.max()] of an empty series are NaN, and NaN times a number is
    NaN.  Numbers are modelled exactly as rationals: rounding is not. *)

Abbreviation PyFloat := (option Q).

Definition series_min (col : list Z) : PyFloat :=
  match col with
  | [] => None
  | z :: zs => Some (inject_Z (fold_left Z.min zs z))
  end.

Definition series_max (col : list Z) : PyFloat :=
  match col with
  | [] => None
  | z :: zs => Some (inject_Z (fold_left Z.max zs z))
  end.

Definition py_mul (x : PyFloat) (c : Q) : PyFloat := option_map (fun q => q * c)%Q x.

(** ** The figure handed to plotly *)

Record MapFigure := mkMap {
  map_locations : list string;
  map_color : list Z;
  map_title : string;
  map_locationmode : string;
  map_scope : string;
  map_color_scale : string;
  map_range_color : option (PyFloat * PyFloat)
}.

(** [px.choropleth(filtered_data, locations="State", locationmode="USA-states",
    color="Number of COVID-19 Deaths", color_continuous_scale="Greys",
    title=..., scope="usa", range_color=...)]: one location per row of the
    grouped frame.  [range_color] is [None] when the argument is absent. *)
Definition px_choropleth (fd : Grouped) (title : string) (range : option (PyFloat * PyFloat))
    : MapFigure := {|
  map_locations := map fst fd;
  map_color := map snd fd;
  map_title := title;
  map_locationmode := "USA-states";
  map_scope := "usa";
  map_color_scale := "Greys";
  map_range_color := range |}.

Definition map_title_of (selected_age_range : string) : string :=
  "Total COVID-19 Deaths per State - Age Group: " +:+ selected_age_range.

(** The frame handed to the grouped sum: its key column ["State"] and its
    summed column ["Number of COVID-19 Deaths"]. *)
Definition state_deaths (d : Frame) : Keyed :=
  map (fun r => (State r, Number_of_COVID_19_Deaths r)) d.

(** ** The app's callback (app.py lines 115-129) *)

(** The [if]/[else] of lines 116-119: the whole table for ["All ages"],
    else [deaths[deaths['Age Group'] == selected_age_range]]. *)
Definition age_selection (deaths : Frame) (selected_age_range : string) : Frame :=
  if selected_age_range =? "All ages" then deaths
  else deaths⟦fun r => Age_Group r =? selected_age_range⟧.

Definition state_totals `{GroupBySum} (deaths : Frame) (selected_age_range : string) : Grouped :=
  groupby_sum (state_deaths (age_selection deaths selected_age_range)).

Definition update_time_series_dashboard `{GroupBySum} (deaths : Frame)
    (selected_age_range : string) : MapFigure :=
  px_choropleth (state_totals deaths selected_age_range)
    (map_title_of selected_age_range) None.

(** ** The notebook's callback (covid_analysis.py lines 260-277) *)

Module Notebook.

(** Lines 261-264; a cleared dropdown ([None]) is not ["All ages"] and
    equals no cell. *)
Definition age_selection (deaths : Frame) (selected_age_range : Value) : Frame :=
  if cell_eq "All ages" selected_age_range then deaths
  else deaths⟦fun r => cell_eq (Age_Group r) selected_age_range⟧.

Definition state_totals `{GroupBySum} (deaths : Frame) (selected_age_range : Value) : Grouped :=
  groupby_sum (state_deaths (age_selection deaths selected_age_range)).

(** [range_color=[col.min(), col.max() * 0.025]] (lines 274-275). *)
Definition range_color (fd : Grouped) : PyFloat * PyFloat :=
  (series_min (map snd fd), py_mul (series_max (map snd fd)) 0.025).

Definition update_usa_map `{GroupBySum} (deaths : Frame) (selected_age_range : Value)
    : MapFigure :=
  let fd := state_totals deaths selected_age_range in
  px_choropleth fd (map_title_of (py_str selected_age_range)) (Some (range_color fd)).

End Notebook.

(** ** Specifications *)

(** The rows a selection contributes to state [k]'s total. *)
Definition state_rows (deaths : Frame) (selected_age_range k : string) : Frame :=
  deaths⟦fun r => (State r =? k) &&
                  ((selected_age_range =? "All ages") || (Age_Group r =? selected_age_range))⟧.

(** The rows of state [k] in age group [a]. *)
Definition band_rows (deaths : Frame) (a k : string) : Frame :=
  deaths⟦fun r => (State r =? k) && (Age_Group r =? a)⟧.

(** ** Lemmas *)

Lemma state_deaths_group_total (d : Frame) (k : string) :
  group_total (state_deaths d) k = nansum (deaths_col d⟦fun r => State r =? k⟧).
Proof.
  induction d as [|r d IH]; [done|].
  change (state_deaths (r :: d)) with ((State r, Number_of_COVID_19_Deaths r) :: state_deaths d).
  rewrite group_total_cons, IH. simpl. unfold nansum. by destruct (State r =? k).
Qed.

Lemma state_deaths_keys (d : Frame) (k : string) :
  In k (map fst (state_deaths d)) <-> d⟦fun r => State r =? k⟧ <> [].
Proof.
  induction d as [|r d IH]; simpl; [done|].
  rewrite IH. case_str (State r) k; simpl; [|intuition congruence].
  split; [done|by left].
Qed.

Lemma age_selection_rows (d : Frame) (sel k : string) :
  (age_selection d sel)⟦fun r => State r =? k⟧ = state_rows d sel k.
Proof.
  unfold age_selection, state_rows. case_str sel "All ages".
  - apply filter_ext_pointwise. intros r _. by rewrite orb_true_l, andb_true_r.
  - rewrite filter_filter. apply filter_ext_pointwise. intros r _. apply andb_comm.
Qed.

Lemma state_rows_all_ages (d : Frame) (sel k : string) :
  state_rows d sel k =
  (state_rows d "All ages" k)⟦fun r => (sel =? "All ages") || (Age_Group r =? sel)⟧.
Proof.
  unfold state_rows. rewrite filter_filter. apply filter_ext_pointwise. intros r _.
  simpl. by destruct (State r =? k).
Qed.

Lemma state_rows_all_band (d : Frame) (a k : string) :
  (state_rows d "All ages" k)⟦fun r => Age_Group r =? a⟧ = band_rows d a k.
Proof.
  unfold state_rows, band_rows. rewrite filter_filter.
  apply filter_ext_pointwise. intros r _. simpl. by destruct (State r =? k).
Qed.

Lemma state_rows_band (d : Frame) (a k : string) :
  a <> "All ages" -> state_rows d a k = band_rows d a k.
Proof.
  intros Ha. apply filter_ext_pointwise. intros r _.
  by rewrite (proj2 (String.eqb_neq a "All ages") Ha).
Qed.

Section Aggregator.
Context `{gb : GroupBySum} `{!GroupBySumLaws gb}.

(** C4: the ["All ages"] map sums every row of the state, so when the
    table holds the state's own ["All ages"] rows (as the age-group
    column of the source data does) it adds them on top of the nine
    per-band totals the other selections show: those deaths are counted
    twice. *)
Theorem all_ages_total_decomposes (d : Frame) (k : string) :
  ages_in_range d ->
  lookup_total (state_totals d "All ages") k =
  (sumZ (map (fun a => lookup_total (state_totals d a) k) age_bands)
   + nansum (deaths_col (band_rows d "All ages" k)))%Z.
Proof.
  intros Hin.
  assert (Htot : forall sel, lookup_total (state_totals d sel) k = nansum (deaths_col (state_rows d sel k))).
  { intros sel. unfold state_totals.
    by rewrite (groupby_lookup_total gb), state_deaths_group_total, age_selection_rows. }
  rewrite Htot, nansum_deaths_col.
  rewrite (sumZ_partition _ String.eqb_spec _ Age_Group age_ranges)
    by first [exact age_ranges_NoDup | apply Forall_mask, Hin].
  rewrite age_ranges_bands, map_app, sumZ_app. cbn [map sumZ fold_right].
  rewrite Z.add_0_r, nansum_deaths_col. f_equal.
  - f_equal. apply map_ext_in. intros a Ha.
    rewrite Htot, (state_rows_band d a k), nansum_deaths_col by (by apply age_bands_not_all).
    by rewrite state_rows_all_band.
  - by rewrite state_rows_all_band.
Qed.

(** C2: the map's totals: a state appears in the map exactly when some
    row of that state passes the age selection, and its value is the
    NaN-skipping sum of those rows' counts, over every condition. *)
Theorem state_totals_spec (d : Frame) (sel k : string) :
  (list_to_map (state_totals d sel) : gmap string Z) !! k =
  match state_rows d sel k with
  | [] => None
  | rows => Some (nansum (deaths_col rows))
  end.
Proof.
  assert (Hsel : (age_selection d sel)⟦fun r => State r =? k⟧ = state_rows d sel k).
  { unfold age_selection, state_rows. case_str sel "All ages".
    - apply filter_ext_pointwise. intros r _. by rewrite orb_true_l, andb_true_r.
    - rewrite filter_filter. apply filter_ext_pointwise. intros r _. apply andb_comm. }
  unfold state_totals. rewrite (groupby_lookup gb), state_deaths_group_total, Hsel.
  case_decide as Hk; rewrite state_deaths_keys, Hsel in Hk;
    destruct (state_rows d sel k); first [done | congruence | (exfalso; apply Hk; discriminate)].
Qed.

Lemma state_totals_total (d : Frame) (sel k : string) :
  lookup_total (state_totals d sel) k = nansum (deaths_col (state_rows d sel k)).
Proof.
  unfold state_totals. rewrite (groupby_lookup_total gb).
  by rewrite state_deaths_group_total, age_selection_rows.
Qed.

(** C5: with non-negative counts, a state's total for one age group
    never exceeds its total for ["All ages"]. *)
Theorem state_totals_monotone (d : Frame) (sel k : string) :
  counts_nonneg d ->
  (lookup_total (state_totals d sel) k <= lookup_total (state_totals d "All ages") k)%Z.
Proof.
  intros Hnn. rewrite !state_totals_total, (state_rows_all_ages d sel k).
  apply nansum_filter_le. unfold state_rows. auto with frame.
Qed.
(** C9: for an age group other than ["All ages"], the map is empty
    exactly when no row of the table has that age group. *)
Theorem state_totals_empty (d : Frame) (sel : string) :
  sel <> "All ages" ->
  state_totals d sel = [] <-> Forall (fun r => Age_Group r <> sel) d.
Proof.
  intros Hsel. unfold state_totals. rewrite (groupby_nil gb).
  assert (state_deaths (age_selection d sel) = [] <-> age_selection d sel = []) as ->.
  { unfold state_deaths. split; [apply map_eq_nil | by intros ->]. }
  unfold age_selection. rewrite (proj2 (String.eqb_neq _ _) Hsel), filter_nil_iff.
  rewrite !List.Forall_forall. by setoid_rewrite String.eqb_neq.
Qed.

(** C26: the figure handed to plotly is well formed: its locations are
    the states in strictly ascending order, each once, with one colour
    value per location, and each location's colour is its state's total
    over the selected rows. *)
Theorem update_time_series_dashboard_wf (d : Frame) (sel : string) :
  let fig := update_time_series_dashboard d sel in
  StronglySorted str_lt (map_locations fig) /\
  length (map_color fig) = length (map_locations fig) /\
  Forall2 (fun k v => v = nansum (deaths_col (state_rows d sel k))) (map_locations fig) (map_color fig).
Proof.
  simpl. rewrite !length_map. split; [exact (groupby_sorted _)|]. split; [done|].
  apply Forall2_fst_snd, List.Forall_forall. intros [k v] Hin. simpl.
  rewrite (groupby_value _ _ _ Hin), state_deaths_group_total. by rewrite age_selection_rows.
Qed.

(** The rows handed to the grouped sum follow a permutation of the
    table. *)
#[export] Instance age_selection_Permutation :
  Proper (Permutation ==> eq ==> Permutation) age_selection.
Proof. intros d1 d2 Hp sel ? <-. unfold age_selection. case_match; by rewrite Hp. Qed.

#[export] Instance notebook_age_selection_Permutation :
  Proper (Permutation ==> eq ==> Permutation) Notebook.age_selection.
Proof. intros d1 d2 Hp sel ? <-. unfold Notebook.age_selection. case_match; by rewrite Hp. Qed.

(** C29: both maps depend only on the multiset of rows, not on their
    order in coviddeath.csv: the grouped sum sorts its keys and sums each
    group, so reordering the table changes neither figure. *)
Theorem maps_row_order_independent (d1 d2 : Frame) (sel : string) (v : Value) :
  Permutation d1 d2 ->
  update_time_series_dashboard d1 sel = update_time_series_dashboard d2 sel /\
  Notebook.update_usa_map d1 v = Notebook.update_usa_map d2 v.
Proof.
  intros Hp. unfold update_time_series_dashboard, Notebook.update_usa_map, state_totals,
    Notebook.state_totals, state_deaths. by rewrite Hp.
Qed.

End Aggregator.

(** ** The notebook's colour range *)

Lemma range_color_spec (fd : Grouped) (lo hi : Q) :
  Notebook.range_color fd = (Some lo, Some hi) ->
  exists m M, In m (map snd fd) /\ In M (map snd fd) /\
    Forall (fun t => m <= t <= M)%Z (map snd fd) /\
    lo = inject_Z m /\ hi = (inject_Z M * 0.025)%Q.
Proof.
  unfold Notebook.range_color, series_min, series_max.
  destruct (map snd fd) as [|z zs]; simpl; [discriminate|]. intros [= <- <-].
  destruct (fold_left_min_spec zs z) as [Hm Hmall].
  destruct (fold_left_max_spec zs z) as [HM HMall].
  exists (fold_left Z.min zs z), (fold_left Z.max zs z).
  repeat split; try done.
  apply List.Forall_forall. intros t Ht.
  eapply List.Forall_forall in Hmall, HMall; [|exact Ht..]. lia.
Qed.

Lemma Q_quarter_tenth_lt (m M : Z) : (inject_Z M * 0.025 < inject_Z m)%Q <-> (M < 40 * m)%Z.
Proof. unfold Qlt. cbn -[Z.mul]. lia. Qed.

(** C7: the notebook fixes the colour range to the smallest state total
    and 2.5% of the largest.  The upper end lies below the lower end, an
    inverted scale, exactly when the largest total is less than 40 times
    the smallest. *)
Theorem notebook_range_color_inverted `{GroupBySum} (d : Frame) (sel : Value) (lo hi : Q) :
  map_range_color (Notebook.update_usa_map d sel) = Some (Some lo, Some hi) ->
  exists m M,
    In m (map_color (Notebook.update_usa_map d sel)) /\
    In M (map_color (Notebook.update_usa_map d sel)) /\
    Forall (fun t => m <= t <= M)%Z (map_color (Notebook.update_usa_map d sel)) /\
    lo = inject_Z m /\ hi = (inject_Z M * 0.025)%Q /\
    ((hi < lo)%Q <-> (M < 40 * m)%Z).
Proof.
  intros Hr.
  change (Some (Notebook.range_color (Notebook.state_totals d sel)) = Some (Some lo, Some hi)) in Hr.
  apply (inj Some) in Hr.
  destruct (range_color_spec _ _ _ Hr) as (m & M & Hm & HM & Hall & -> & ->).
  exists m, M. repeat split; try done; apply Q_quarter_tenth_lt.
Qed.

Lemma notebook_range_color_inverted_witness :
  map_range_color (Notebook.update_usa_map spec_table (Some "All ages"))
    = Some (Some (inject_Z 300), Some (inject_Z 620 * 0.025)%Q) /\
  exists m M,
    In m (map_color (Notebook.update_usa_map spec_table (Some "All ages"))) /\
    In M (map_color (Notebook.update_usa_map spec_table (Some "All ages"))) /\
    Forall (fun t => m <= t <= M)%Z (map_color (Notebook.update_usa_map spec_table (Some "All ages"))) /\
    inject_Z 300 = inject_Z m /\ (inject_Z 620 * 0.025)%Q = (inject_Z M * 0.025)%Q /\
    ((inject_Z 620 * 0.025 < inject_Z 300)%Q <-> (M < 40 * m)%Z).
Proof.
  split; [vm_compute; reflexivity|].
  apply notebook_range_color_inverted. vm_compute. reflexivity.
Defined.

(** A cleared dropdown selects no row, so the notebook's grouped frame is
    empty. *)
Lemma notebook_state_totals_cleared `{gb : GroupBySum} `{!GroupBySumLaws gb} (d : Frame) :
  Notebook.state_totals d None = [].
Proof.
  unfold Notebook.state_totals. apply (groupby_nil gb). unfold Notebook.age_selection.
  cbn [cell_eq]. by rewrite List.filter_false.
Qed.

(** ** The spec's scenarios *)

Example spec_scenario_map :
  state_totals spec_table "All ages" = [("California", 620%Z); ("Texas", 300%Z)] /\
  map_locations (update_time_series_dashboard spec_table "65-74") = ["California"; "Texas"].
Proof. split; vm_compute; reflexivity. Qed.

(** On the spec's own table the notebook's colour range is inverted:
    [[300, 15.5]]. *)
Example spec_scenario_range_inverted :
  Notebook.range_color (Notebook.state_totals spec_table (Some "All ages"))
    = (Some (inject_Z 300), Some (inject_Z 620 * 0.025)%Q) /\
  (inject_Z 620 * 0.025 < inject_Z 300)%Q.
Proof. split; vm_compute; reflexivity. Qed.

(** ** Witnesses *)

(** A state whose table carries its own ["All ages"] row next to the
    per-band rows of the same deaths. *)
Definition double_count_table : Frame := [
  mkRow "California" "65-74" "COVID-19" (Some 500%Z);
  mkRow "California" "75-84" "COVID-19" (Some 200%Z);
  mkRow "California" "All ages" "COVID-19" (Some 700%Z)].

Lemma double_count_table_ages : ages_in_range double_count_table.
Proof. unfold ages_in_range. apply (bool_decide_unpack _). by vm_compute. Qed.

Lemma all_ages_total_decomposes_witness :
  ages_in_range double_count_table /\
  lookup_total (state_totals double_count_table "All ages") "California" =
  (sumZ (map (fun a => lookup_total (state_totals double_count_table a) "California") age_bands)
   + nansum (deaths_col (band_rows double_count_table "All ages" "California")))%Z.
Proof.
  split; [exact double_count_table_ages|].
  apply all_ages_total_decomposes. exact double_count_table_ages.
Defined.

(** The 700 deaths are shown as 1400 under ["All ages"]. *)
Example double_count_scenario :
  lookup_total (state_totals double_count_table "All ages") "California" = 1400%Z /\
  sumZ (map (fun a => lookup_total (state_totals double_count_table a) "California") age_bands)
  = 700%Z.
Proof. split; vm_compute; reflexivity. Qed.

Lemma spec_table_nonneg : counts_nonneg spec_table.
Proof. repeat constructor; simpl; lia. Qed.

Lemma state_totals_monotone_witness :
  counts_nonneg spec_table /\
  (lookup_total (state_totals spec_table "65-74") "California"
   <= lookup_total (state_totals spec_table "All ages") "California")%Z.
Proof.
  split; [exact spec_table_nonneg|].
  apply state_totals_monotone. exact spec_table_nonneg.
Defined.

Lemma state_totals_empty_witness :
  "0-24" <> "All ages" /\
  (state_totals spec_table "0-24" = [] <-> Forall (fun r => Age_Group r <> "0-24") spec_table).
Proof.
  assert (H : "0-24" <> "All ages") by discriminate.
  split; [exact H|]. apply state_totals_empty. exact H.
Defined.

Lemma state_totals_spec_witness :
  GroupBySumLaws groupby_sorted_insert /\
  (list_to_map (state_totals spec_table "65-74") : gmap string Z) !! "California" =
  match state_rows spec_table "65-74" "California" with
  | [] => None
  | rows => Some (nansum (deaths_col rows))
  end.
Proof. split; [exact groupby_sorted_insert_lawful | apply state_totals_spec]. Defined.





Lemma update_time_series_dashboard_wf_witness :
  GroupBySumLaws groupby_sorted_insert /\
  let fig := update_time_series_dashboard spec_table "65-74" in
  StronglySorted str_lt (map_locations fig) /\
  length (map_color fig) = length (map_locations fig) /\
  Forall2 (fun k v => v = nansum (deaths_col (state_rows spec_table "65-74" k))) (map_locations fig) (map_color fig).
Proof. split; [exact groupby_sorted_insert_lawful | apply update_time_series_dashboard_wf]. Defined.

Lemma maps_row_order_independent_witness :
  GroupBySumLaws groupby_sorted_insert /\
  Permutation spec_table (rev spec_table) /\
  update_time_series_dashboard spec_table "65-74" = update_time_series_dashboard (rev spec_table) "65-74" /\
  Notebook.update_usa_map spec_table (Some "65-74") = Notebook.update_usa_map (rev spec_table) (Some "65-74").
Proof.
  assert (Hp : Permutation spec_table (rev spec_table)) by apply Permutation_rev.
  split; [exact groupby_sorted_insert_lawful|]. split; [exact Hp|].
  apply maps_row_order_independent. exact Hp.
Defined.
