(* ===== verification/Dashboard.v ===== *)
(** * Dashboard: the Dash page of src/app.py as an event machine

    [app.layout] (lines 27-33) holds a [dcc.Tabs] whose value selects what
    [render_tab_content] (lines 77-85) puts in ['tabs-content']:
    [layout_tab1()] (lines 36-57) or [layout_tab2()] (lines 60-74).  Dash
    runs a callback whenever one of its inputs changes, including when the
    components it reads are first inserted into the page.

    The page is a record [App]: the tab value, the rendered content with
    its dropdown values and callback outputs, and the queue of callbacks
    Dash has still to run.  A user event ([dispatch]) changes one input
    and queues the callback that reads it; [fire] runs the callback at the
    head of the queue against the page as it is then.  User events and
    callbacks interleave freely ([step]).  The invariant [app_inv] holds in
    every reachable page; [settle] runs the queue to empty within a bound,
    and then every output on the page is what its callback computes from
    the inputs shown. *)

From S2P Require Import Prelude Table ConditionFilter GroupBy StateAggregator.
Open Scope string_scope.

(** ** The page *)

Record Tab1 := mkTab1 {
  age_range_dropdown_1 : string;
  condition_dropdown : string;
  display_output : option string;
  condition_visualization : option BarFigure
}.

Record Tab2 := mkTab2 {
  age_range_dropdown_2 : string;
  usa_map : option MapFigure
}.

(** The children of ['tabs-content']: [None] until the first render, and
    whatever [render_tab_content] returns (Python's implicit [None] for an
    unknown tab value). *)
Inductive Content :=
| Tab1Content (t : Tab1)
| Tab2Content (t : Tab2)
| NoContent.

(** The three callbacks of app.py. *)
Inductive Callback :=
| RenderTabContent
| UpdateMortalityDashboard
| UpdateTimeSeriesDashboard.

#[export] Instance Callback_eq_dec : EqDecision Callback.
Proof. solve_decision. Defined.

Record App := mkApp {
  tabs : string;
  tabs_content : Content;
  pending : list Callback
}.

(** What the user can do: pick a tab or a dropdown option. *)
Inductive Event :=
| SelectTab (v : string)
| SelectAge1 (v : string)
| SelectCondition (v : string)
| SelectAge2 (v : string).

(** The values of [dcc.Tabs] (lines 28-31). *)
Definition tab_values : list string := ["tab-1"; "tab-2"].

(** [layout_tab1()]: both dropdowns at their [value=] defaults,
    ['display-output'] and the graph not yet filled. *)
Definition layout_tab1 : Tab1 := mkTab1 "All ages" (hd "" conditions) None None.

(** [layout_tab2()] *)
Definition layout_tab2 : Tab2 := mkTab2 "All ages" None.

Definition render_tab_content (tab : string) : Content :=
  if tab =? "tab-1" then Tab1Content layout_tab1
  else if tab =? "tab-2" then Tab2Content layout_tab2
  else NoContent.

(** The callbacks whose inputs a freshly rendered content inserts. *)
Definition callbacks_of (c : Content) : list Callback :=
  match c with
  | Tab1Content _ => [UpdateMortalityDashboard]
  | Tab2Content _ => [UpdateTimeSeriesDashboard]
  | NoContent => []
  end.

(** [app.layout] at page load: tab 1 selected, empty content, and the
    tab callback about to run on its initial value. *)
Definition app_layout : App := mkApp "tab-1" NoContent [RenderTabContent].

Section Machine.
Context `{gb : GroupBySum}.
Variable deaths : Frame.

(** Running one callback on the page; a callback whose components have
    left the page is dropped. *)
Definition run_callback (cb : Callback) (s : App) : App :=
  match cb with
  | RenderTabContent =>
      let c := render_tab_content (tabs s) in
      mkApp (tabs s) c (pending s ++ callbacks_of c)
  | UpdateMortalityDashboard =>
      match tabs_content s with
      | Tab1Content t =>
          let out := update_mortality_dashboard deaths
                       (age_range_dropdown_1 t) (condition_dropdown t) in
          mkApp (tabs s)
            (Tab1Content (mkTab1 (age_range_dropdown_1 t) (condition_dropdown t)
                                 (Some out.1) (Some out.2)))
            (pending s)
      | _ => s
      end
  | UpdateTimeSeriesDashboard =>
      match tabs_content s with
      | Tab2Content t =>
          mkApp (tabs s)
            (Tab2Content (mkTab2 (age_range_dropdown_2 t)
                            (Some (update_time_series_dashboard deaths (age_range_dropdown_2 t)))))
            (pending s)
      | _ => s
      end
  end.

(** Dash runs the callback at the head of its queue. *)
Definition fire (s : App) : option App :=
  match pending s with
  | [] => None
  | cb :: rest => Some (run_callback cb (mkApp (tabs s) (tabs_content s) rest))
  end.

(** A user event.  Only values offered by the component can be picked
    (the dropdowns are [clearable=False]), only a component on the page
    can be used, and picking the current value changes nothing. *)
Definition dispatch (s : App) (e : Event) : option App :=
  match e, tabs_content s with
  | SelectTab v, _ =>
      if decide (In v tab_values) then
        if v =? tabs s then Some s
        else Some (mkApp v (tabs_content s) (pending s ++ [RenderTabContent]))
      else None
  | SelectAge1 v, Tab1Content t =>
      if decide (In v age_ranges) then
        if v =? age_range_dropdown_1 t then Some s
        else Some (mkApp (tabs s)
                     (Tab1Content (mkTab1 v (condition_dropdown t)
                                     (display_output t) (condition_visualization t)))
                     (pending s ++ [UpdateMortalityDashboard]))
      else None
  | SelectCondition v, Tab1Content t =>
      if decide (In v conditions) then
        if v =? condition_dropdown t then Some s
        else Some (mkApp (tabs s)
                     (Tab1Content (mkTab1 (age_range_dropdown_1 t) v
                                     (display_output t) (condition_visualization t)))
                     (pending s ++ [UpdateMortalityDashboard]))
      else None
  | SelectAge2 v, Tab2Content t =>
      if decide (In v age_ranges) then
        if v =? age_range_dropdown_2 t then Some s
        else Some (mkApp (tabs s) (Tab2Content (mkTab2 v (usa_map t)))
                     (pending s ++ [UpdateTimeSeriesDashboard]))
      else None
  | _, _ => None
  end.

Inductive step : App -> App -> Prop :=
| step_event s e s' : dispatch s e = Some s' -> step s s'
| step_callback s s' : fire s = Some s' -> step s s'.

Inductive reachable : App -> Prop :=
| reachable_init : reachable app_layout
| reachable_step s s' : reachable s -> step s s' -> reachable s'.

(** Running the queue with at most [fuel] callbacks. *)
Fixpoint settle (fuel : nat) (s : App) : App :=
  match fuel with
  | O => s
  | S fuel' => match fire s with None => s | Some s' => settle fuel' s' end
  end.

End Machine.

(** ** The invariant *)

(** The tab a content belongs to. *)
Definition content_tab (c : Content) : option string :=
  match c with
  | Tab1Content _ => Some "tab-1"
  | Tab2Content _ => Some "tab-2"
  | NoContent => None
  end.

(** The callback that fills a content's outputs (for the empty content,
    the one that renders it). *)
Definition owner (c : Content) : Callback :=
  match c with
  | Tab1Content _ => UpdateMortalityDashboard
  | Tab2Content _ => UpdateTimeSeriesDashboard
  | NoContent => RenderTabContent
  end.

(** Weights for the termination measure: rendering a tab may queue one
    more callback, the two others queue nothing. *)
Definition weight (cb : Callback) : nat :=
  match cb with RenderTabContent => 2 | _ => 1 end.

Definition queue_weight (q : list Callback) : nat := fold_right (fun cb n => weight cb + n) 0 q.

Section Invariant.
Context `{gb : GroupBySum}.
Variable deaths : Frame.

(** A content's outputs agree with its callback once no run of that
    callback is queued; its dropdowns hold offered values. *)
Definition content_ok (q : list Callback) (c : Content) : Prop :=
  match c with
  | Tab1Content t =>
      In (age_range_dropdown_1 t) age_ranges /\ In (condition_dropdown t) conditions /\
      (~ In UpdateMortalityDashboard q ->
       display_output t =
         Some (update_mortality_dashboard deaths (age_range_dropdown_1 t) (condition_dropdown t)).1 /\
       condition_visualization t =
         Some (update_mortality_dashboard deaths (age_range_dropdown_1 t) (condition_dropdown t)).2)
  | Tab2Content t =>
      In (age_range_dropdown_2 t) age_ranges /\
      (~ In UpdateTimeSeriesDashboard q ->
       usa_map t = Some (update_time_series_dashboard deaths (age_range_dropdown_2 t)))
  | NoContent => In RenderTabContent q
  end.

Definition app_inv (s : App) : Prop :=
  In (tabs s) tab_values /\
  (~ In RenderTabContent (pending s) -> content_tab (tabs_content s) = Some (tabs s)) /\
  content_ok (pending s) (tabs_content s).

Lemma content_ok_app (q q' : list Callback) (c : Content) :
  content_ok q c -> content_ok (q ++ q') c.
Proof.
  destruct c as [t|t|]; unfold content_ok.
  - intros (Ha & Hc & Ho). split; [done|]. split; [done|].
    intros Hn. apply Ho. rewrite in_app_iff in Hn. tauto.
  - intros (Ha & Ho). split; [done|]. intros Hn. apply Ho. rewrite in_app_iff in Hn. tauto.
  - rewrite in_app_iff. tauto.
Qed.

Lemma content_ok_drop (cb : Callback) (q : list Callback) (c : Content) :
  cb <> owner c -> content_ok (cb :: q) c -> content_ok q c.
Proof.
  destruct c as [t|t|]; unfold content_ok, owner; intros Hne.
  - intros (Ha & Hc & Ho). split; [done|]. split; [done|].
    intros Hn. apply Ho. intros [|]; congruence.
  - intros (Ha & Ho). split; [done|]. intros Hn. apply Ho. intros [|]; congruence.
  - intros [|]; congruence.
Qed.

Lemma render_tab_content_ok (v : string) (q : list Callback) :
  In v tab_values ->
  content_tab (render_tab_content v) = Some v /\
  content_ok (q ++ callbacks_of (render_tab_content v)) (render_tab_content v).
Proof.
  intros [<-|[<-|[]]]; cbn -[age_ranges conditions]; (split; [done|]);
    repeat split; try decide_closed; try intros ?; exfalso;
    match goal with Hn : ~ In _ _ |- _ => apply Hn, in_app_iff; right; by left end.
Qed.

(** A content of tab 1 replaced by one with offered values, with a run of
    its callback queued; likewise for tab 2. *)
Lemma tab1_update_inv (s : App) (t t' : Tab1) :
  app_inv s -> tabs_content s = Tab1Content t ->
  In (age_range_dropdown_1 t') age_ranges -> In (condition_dropdown t') conditions ->
  app_inv (mkApp (tabs s) (Tab1Content t') (pending s ++ [UpdateMortalityDashboard])).
Proof.
  intros (Htab & Hmatch & _) Ec Ha Hc. split; [done|]. split.
  - intros Hn. cbn [tabs tabs_content pending content_tab] in *.
    rewrite <- (Hmatch (fun H => Hn (in_or_app _ _ _ (or_introl H)))), Ec. done.
  - split; [done|]. split; [done|]. intros Hn. exfalso. apply Hn, in_app_iff. right. by left.
Qed.

Lemma tab2_update_inv (s : App) (t t' : Tab2) :
  app_inv s -> tabs_content s = Tab2Content t ->
  In (age_range_dropdown_2 t') age_ranges ->
  app_inv (mkApp (tabs s) (Tab2Content t') (pending s ++ [UpdateTimeSeriesDashboard])).
Proof.
  intros (Htab & Hmatch & _) Ec Ha. split; [done|]. split.
  - intros Hn. cbn [tabs tabs_content pending content_tab] in *.
    rewrite <- (Hmatch (fun H => Hn (in_or_app _ _ _ (or_introl H)))), Ec. done.
  - split; [done|]. intros Hn. exfalso. apply Hn, in_app_iff. right. by left.
Qed.

Lemma dispatch_inv (s s' : App) (e : Event) :
  app_inv s -> dispatch s e = Some s' -> app_inv s'.
Proof.
  intros Hinv He. pose proof Hinv as (Htab & Hmatch & Hok).
  destruct e as [v|v|v|v]; unfold dispatch in He.
  - case_decide as Hv; [|discriminate].
    destruct (String.eqb_spec v (tabs s)); injection He as <-; [done|].
    split; [done|]. split; [|by apply content_ok_app].
    intros Hn. exfalso. apply Hn, in_app_iff. right. by left.
  - destruct (tabs_content s) as [t|t|] eqn:Ec; try discriminate.
    case_decide as Hv; [|discriminate].
    destruct (String.eqb_spec v (age_range_dropdown_1 t)); injection He as <-; [done|].
    eapply tab1_update_inv; [exact Hinv|exact Ec|done|apply Hok].
  - destruct (tabs_content s) as [t|t|] eqn:Ec; try discriminate.
    case_decide as Hv; [|discriminate].
    destruct (String.eqb_spec v (condition_dropdown t)); injection He as <-; [done|].
    eapply tab1_update_inv; [exact Hinv|exact Ec|apply Hok|done].
  - destruct (tabs_content s) as [t|t|] eqn:Ec; try discriminate.
    case_decide as Hv; [|discriminate].
    destruct (String.eqb_spec v (age_range_dropdown_2 t)); injection He as <-; [done|].
    by eapply tab2_update_inv.
Qed.

(** Running a callback other than the content's own on the page with the
    rest of the queue keeps the invariant. *)
Lemma fire_other_inv (v : string) (c : Content) (cb : Callback) (rest : list Callback) :
  In v tab_values ->
  (~ In RenderTabContent (cb :: rest) -> content_tab c = Some v) ->
  content_ok (cb :: rest) c ->
  cb <> RenderTabContent -> cb <> owner c ->
  app_inv (mkApp v c rest).
Proof.
  intros Htab Hmatch Hok Hrt Hown. split; [done|]. split.
  - intros Hn. apply Hmatch. intros [|]; [congruence|auto].
  - by eapply content_ok_drop.
Qed.

Lemma fire_inv (s s' : App) :
  app_inv s -> fire deaths s = Some s' -> app_inv s'.
Proof.
  intros (Htab & Hmatch & Hok) Hf. unfold fire in Hf.
  destruct (pending s) as [|cb rest] eqn:Ep; [discriminate|]. injection Hf as <-.
  destruct cb; cbn [run_callback tabs tabs_content pending].
  - destruct (render_tab_content_ok (tabs s) rest Htab) as [H1 H2].
    split; [done|]. split; [intros _; exact H1 | exact H2].
  - destruct (tabs_content s) as [t|t|];
      try (eapply fire_other_inv; [exact Htab|exact Hmatch|exact Hok|discriminate|discriminate]).
    destruct Hok as (Ha & Hc & _). split; [done|]. split; [|done].
    intros Hn. apply Hmatch. intros [|]; [discriminate|done].
  - destruct (tabs_content s) as [t|t|];
      try (eapply fire_other_inv; [exact Htab|exact Hmatch|exact Hok|discriminate|discriminate]).
    destruct Hok as (Ha & _). split; [done|]. split; [|done].
    intros Hn. apply Hmatch. intros [|]; [discriminate|done].
Qed.

End Invariant.

(** ** Termination of the callback queue *)

Lemma queue_weight_app (q q' : list Callback) :
  queue_weight (q ++ q') = queue_weight q + queue_weight q'.
Proof. induction q; simpl; lia. Qed.

Lemma queue_weight_callbacks_of (c : Content) : queue_weight (callbacks_of c) <= 1.
Proof. destruct c; simpl; lia. Qed.

Lemma queue_weight_nil (q : list Callback) : queue_weight q = 0 -> q = [].
Proof. destruct q as [|[] q]; simpl; [done|lia..]. Qed.

Section Progress.
Context `{gb : GroupBySum}.
Variable deaths : Frame.

Lemma fire_weight (s s' : App) :
  fire deaths s = Some s' -> queue_weight (pending s') < queue_weight (pending s).
Proof.
  unfold fire. destruct (pending s) as [|cb rest]; [discriminate|]. intros [= <-].
  destruct cb; simpl.
  - rewrite queue_weight_app. pose proof (queue_weight_callbacks_of (render_tab_content (tabs s))). lia.
  - destruct (tabs_content s); simpl; lia.
  - destruct (tabs_content s); simpl; lia.
Qed.

Lemma fire_None (s : App) : fire deaths s = None <-> pending s = [].
Proof. unfold fire. destruct (pending s); done. Qed.

Lemma settle_reachable (fuel : nat) (s : App) :
  reachable deaths s -> reachable deaths (settle deaths fuel s).
Proof.
  revert s. induction fuel as [|fuel IH]; intros s Hs; simpl; [done|].
  destruct (fire deaths s) as [s'|] eqn:Hf; [|done].
  apply IH. eapply reachable_step; [exact Hs|]. by apply step_callback.
Qed.

Lemma settle_queue_empty (fuel : nat) (s : App) :
  queue_weight (pending s) <= fuel -> pending (settle deaths fuel s) = [].
Proof.
  revert s. induction fuel as [|fuel IH]; intros s Hw; simpl.
  - apply queue_weight_nil. lia.
  - destruct (fire deaths s) as [s'|] eqn:Hf; [|by apply fire_None].
    apply IH. pose proof (fire_weight s s' Hf). lia.
Qed.

Lemma reachable_app_inv (s : App) : reachable deaths s -> app_inv deaths s.
Proof.
  induction 1 as [|s s' _ IH Hstep].
  - split; [by left|]. split; [|by left]. intros Hn. exfalso. apply Hn. by left.
  - destruct Hstep as [s e s' He|s s' Hf].
    + by eapply dispatch_inv.
    + by eapply fire_inv.
Qed.

(** C13: running the queue terminates: with at least as much fuel as the
    queue's weight (2 per queued tab render, 1 per other callback),
    [settle] empties the queue, whatever the page. *)
Theorem settle_drains (fuel : nat) (s : App) :
  queue_weight (pending s) <= fuel -> pending (settle deaths fuel s) = [].
Proof. apply settle_queue_empty. Qed.

(** C11: every page reachable from the initial layout by user events and
    callback runs, in any interleaving, satisfies [app_inv]: the tab value
    is one of the two tabs; once no tab render is queued the content is
    that tab's; the dropdowns hold offered values; and once no run of a
    content's callback is queued its outputs are that callback's result
    on the dropdown values shown. *)
Theorem reachable_inv (s : App) : reachable deaths s -> app_inv deaths s.
Proof. apply reachable_app_inv. Qed.

(** C12: from every reachable page, running the queued callbacks (at
    most the queue's weight of them) reaches a reachable page with an
    empty queue on which the content is the selected tab's and every
    output is what the app's callbacks compute from the dropdown values
    shown. *)
Theorem settle_consistent (s : App) :
  reachable deaths s ->
  let s' := settle deaths (queue_weight (pending s)) s in
  reachable deaths s' /\ pending s' = [] /\
  content_tab (tabs_content s') = Some (tabs s') /\
  match tabs_content s' with
  | Tab1Content t =>
      display_output t =
        Some (update_mortality_dashboard deaths (age_range_dropdown_1 t) (condition_dropdown t)).1 /\
      condition_visualization t =
        Some (update_mortality_dashboard deaths (age_range_dropdown_1 t) (condition_dropdown t)).2
  | Tab2Content t =>
      usa_map t = Some (update_time_series_dashboard deaths (age_range_dropdown_2 t))
  | NoContent => False
  end.
Proof.
  intros Hs s'.
  assert (Hr : reachable deaths s') by apply settle_reachable, Hs.
  assert (Hp : pending s' = []) by (apply settle_queue_empty; lia).
  destruct (reachable_app_inv s' Hr) as (_ & Hmatch & Hok). rewrite Hp in Hmatch, Hok.
  split; [done|]. split; [done|]. split; [apply Hmatch; intros []|].
  destruct (tabs_content s'); simpl in Hok |- *.
  - apply Hok. intros [].
  - apply Hok. intros [].
  - exact Hok.
Qed.

(** At page load Dash renders tab 1 with its default dropdown values
    and then runs the mortality callback on them. *)
Example initial_page :
  settle deaths (queue_weight (pending app_layout)) app_layout =
  mkApp "tab-1"
    (Tab1Content
       (mkTab1 "All ages" "Influenza and pneumonia"
          (Some (update_mortality_dashboard deaths "All ages" "Influenza and pneumonia").1)
          (Some (update_mortality_dashboard deaths "All ages" "Influenza and pneumonia").2)))
    [].
Proof. reflexivity. Qed.

(** C34: the spec's "each dropdown change triggers exactly one call,
    which completes before the next is issued": on a settled page, a
    dropdown event that changes a value queues exactly one run, of the
    callback that reads that dropdown, and that run leaves the queue
    empty.  (A tab click queues two: the render and the new tab's
    callback.) *)
Theorem dropdown_change_one_call (s s' : App) (e : Event) :
  pending s = [] -> (forall v, e <> SelectTab v) -> dispatch s e = Some s' -> s' <> s ->
  pending s' = [owner (tabs_content s')] /\
  exists s'', fire deaths s' = Some s'' /\ pending s'' = [].
Proof.
  intros Hp Htab He Hne. destruct e as [v|v|v|v]; [by destruct (Htab v)| | |];
    unfold dispatch in He; destruct (tabs_content s) as [t|t|]; try discriminate;
    case_decide; try discriminate; case_match; injection He as <-; try done;
    rewrite Hp; split; try done; eexists; split; reflexivity.
Qed.

(** A user event followed by Dash running every callback it queued. *)
Definition user_then_settle (s : App) (e : Event) : option App :=
  option_map (fun s' => settle deaths (queue_weight (pending s')) s') (dispatch s e).

(** C21: switching to tab 2 and back rebuilds tab 1 from [layout_tab1()]:
    whatever the user had picked on tab 1, once the callbacks have run
    the page is exactly the page at load, with both dropdowns back at
    their defaults. *)
Theorem tab_round_trip_resets (s : App) :
  tabs s = "tab-1" -> pending s = [] ->
  user_then_settle s (SelectTab "tab-2") ≫= (fun s1 => user_then_settle s1 (SelectTab "tab-1")) =
  Some (settle deaths (queue_weight (pending app_layout)) app_layout).
Proof. destruct s as [tab c q]; simpl. intros -> ->. reflexivity. Qed.

End Progress.

(** ** Witnesses *)

Lemma settle_drains_witness :
  queue_weight (pending app_layout) <= 2 /\
  pending (settle (gb := groupby_sorted_insert_gb) spec_table 2 app_layout) = [].
Proof.
  assert (H : queue_weight (pending app_layout) <= 2) by (simpl; lia).
  split; [exact H|]. apply settle_drains. exact H.
Defined.

Lemma reachable_inv_witness :
  reachable (gb := groupby_sorted_insert_gb) spec_table app_layout /\
  app_inv (gb := groupby_sorted_insert_gb) spec_table app_layout.
Proof.
  split; [apply reachable_init|]. apply reachable_inv. apply reachable_init.
Defined.

(** The page after load, once the user has picked the age range
    ["65-74"] on tab 1 and before the mortality callback has run. *)
Definition picked_65_74 : App :=
  match dispatch (settle (gb := groupby_sorted_insert_gb) spec_table 2 app_layout) (SelectAge1 "65-74") with
  | Some s => s
  | None => app_layout
  end.

Lemma picked_65_74_reachable : reachable (gb := groupby_sorted_insert_gb) spec_table picked_65_74.
Proof.
  apply (reachable_step _ (settle spec_table 2 app_layout));
    [apply settle_reachable, reachable_init|].
  apply step_event with (e := SelectAge1 "65-74"). vm_compute. reflexivity.
Qed.

Lemma settle_consistent_witness :
  reachable (gb := groupby_sorted_insert_gb) spec_table picked_65_74 /\
  let s' := settle (gb := groupby_sorted_insert_gb) spec_table
              (queue_weight (pending picked_65_74)) picked_65_74 in
  reachable spec_table s' /\ pending s' = [] /\
  content_tab (tabs_content s') = Some (tabs s') /\
  match tabs_content s' with
  | Tab1Content t =>
      display_output t =
        Some (update_mortality_dashboard spec_table (age_range_dropdown_1 t) (condition_dropdown t)).1 /\
      condition_visualization t =
        Some (update_mortality_dashboard spec_table (age_range_dropdown_1 t) (condition_dropdown t)).2
  | Tab2Content t =>
      usa_map t = Some (update_time_series_dashboard spec_table (age_range_dropdown_2 t))
  | NoContent => False
  end.
Proof.
  split; [exact picked_65_74_reachable|].
  apply settle_consistent. exact picked_65_74_reachable.
Defined.

(** After the callback runs, the page shows the 65-74 selection. *)
Example picked_65_74_settled :
  match tabs_content (settle (gb := groupby_sorted_insert_gb) spec_table 1 picked_65_74) with
  | Tab1Content t => display_output t
  | _ => None
  end = Some "Age Range: 65-74, Condition: Influenza and pneumonia, Number of Cases: 0".
Proof. vm_compute. reflexivity. Qed.

(** After picking ["65-74"] and letting the callback run, a visit to tab 2
    and back shows ["All ages"] again. *)
Lemma tab_round_trip_resets_witness :
  user_then_settle (gb := groupby_sorted_insert_gb) spec_table
    (settle spec_table 1 picked_65_74) (SelectTab "tab-2")
    ≫= (fun s1 => user_then_settle spec_table s1 (SelectTab "tab-1")) =
  Some (settle spec_table (queue_weight (pending app_layout)) app_layout).
Proof. apply tab_round_trip_resets; vm_compute; reflexivity. Defined.

Lemma dropdown_change_one_call_witness :
  pending (settle (gb := groupby_sorted_insert_gb) spec_table 2 app_layout) = [] /\
  (forall v, SelectAge1 "65-74" <> SelectTab v) /\
  dispatch (settle spec_table 2 app_layout) (SelectAge1 "65-74") = Some picked_65_74 /\
  picked_65_74 <> settle spec_table 2 app_layout /\
  pending picked_65_74 = [owner (tabs_content picked_65_74)] /\
  exists s'', fire spec_table picked_65_74 = Some s'' /\ pending s'' = [].
Proof.
  assert (H1 : pending (settle (gb := groupby_sorted_insert_gb) spec_table 2 app_layout) = [])
    by reflexivity.
  assert (H2 : forall v, SelectAge1 "65-74" <> SelectTab v) by discriminate.
  assert (H3 : dispatch (settle (gb := groupby_sorted_insert_gb) spec_table 2 app_layout)
                 (SelectAge1 "65-74") = Some picked_65_74) by (vm_compute; reflexivity).
  assert (H4 : picked_65_74 <> settle (gb := groupby_sorted_insert_gb) spec_table 2 app_layout)
    by (vm_compute; discriminate).
  do 4 (split; [assumption|]).
  exact (dropdown_change_one_call spec_table _ _ _ H1 H2 H3 H4).
Defined.
