(* ===== verification/DashRuntime.v ===== *)
(** * DashRuntime: a single-page Dash app with one callback

    The notebook's two apps ([app1] and [app2] of src/covid_analysis.py)
    are single pages: a layout of dropdowns and outputs, and one callback
    whose inputs are the dropdowns and whose outputs fill the rest of the
    page.  Dash runs that callback once when the page is loaded and again
    whenever the user changes one of its inputs; a change that keeps the
    value triggers nothing.  Runs are queued and each one reads the inputs
    as they are when it runs.

    An app is a [SinglePageApp]: the layout's input and output values, the
    user events with the input values each one leads to, and the callback.
    A [Page] is the page in the browser; [page_step] lets user events and
    callback runs interleave.  The specification ([spec_reachable]) is the
    request/response contract: the inputs a sequence of interactions can
    produce, each answered by the callback on them.  [page_refines] shows
    that every reachable page has reachable inputs and, once its queue is
    empty, shows the callback's answer; [page_settle_spec] that Dash
    empties the queue. *)

From stdpp Require Import relations.
From S2P Require Import Prelude.

Record SinglePageApp (Inp Out Ev : Type) := mkSinglePageApp {
  spa_inputs : Inp;
  spa_outputs : Out;
  spa_event : Ev -> Inp -> option Inp;
  spa_callback : Inp -> Out
}.

Arguments mkSinglePageApp {Inp Out Ev} _ _ _ _.
Arguments spa_inputs {Inp Out Ev} _.
Arguments spa_outputs {Inp Out Ev} _.
Arguments spa_event {Inp Out Ev} _ _ _.
Arguments spa_callback {Inp Out Ev} _ _.

(** The page: input values, output values and the number of queued runs. *)
Record Page (Inp Out : Type) := mkPage {
  page_inputs : Inp;
  page_outputs : Out;
  page_queue : nat
}.

Arguments mkPage {Inp Out} _ _ _.
Arguments page_inputs {Inp Out} _.
Arguments page_outputs {Inp Out} _.
Arguments page_queue {Inp Out} _.

Section Runtime.
Context {Inp Out Ev : Type} `{EqDecision Inp} (app : SinglePageApp Inp Out Ev).

(** At load the page holds the layout's values and one run is queued. *)
Definition load_page : Page Inp Out := mkPage (spa_inputs app) (spa_outputs app) 1.

(** A user event; [None] when the page does not offer it. *)
Definition page_event (s : Page Inp Out) (e : Ev) : option (Page Inp Out) :=
  match spa_event app e (page_inputs s) with
  | None => None
  | Some i' =>
      if decide (i' = page_inputs s) then Some s
      else Some (mkPage i' (page_outputs s) (S (page_queue s)))
  end.

(** Dash runs the callback on the current inputs. *)
Definition page_fire (s : Page Inp Out) : option (Page Inp Out) :=
  match page_queue s with
  | 0 => None
  | S n => Some (mkPage (page_inputs s) (spa_callback app (page_inputs s)) n)
  end.

Inductive page_step : relation (Page Inp Out) :=
| page_step_event s e s' : page_event s e = Some s' -> page_step s s'
| page_step_fire s s' : page_fire s = Some s' -> page_step s s'.

Definition page_reachable (s : Page Inp Out) : Prop := rtc page_step load_page s.

Fixpoint page_settle (fuel : nat) (s : Page Inp Out) : Page Inp Out :=
  match fuel with
  | 0 => s
  | S fuel' => match page_fire s with None => s | Some s' => page_settle fuel' s' end
  end.

(** The specification: the inputs interactions can lead to. *)
Inductive spec_reachable : Inp -> Prop :=
| spec_init : spec_reachable (spa_inputs app)
| spec_interact i e i' : spec_reachable i -> spa_event app e i = Some i' -> spec_reachable i'.

(** A page whose queue is empty shows the callback's answer. *)
Definition page_consistent (s : Page Inp Out) : Prop :=
  page_queue s = 0 -> page_outputs s = spa_callback app (page_inputs s).

(** ** Lemmas *)

Lemma page_event_inv (s s' : Page Inp Out) (e : Ev) :
  page_event s e = Some s' ->
  exists i', spa_event app e (page_inputs s) = Some i' /\ page_inputs s' = i' /\
             (page_consistent s -> page_consistent s').
Proof.
  unfold page_event. destruct (spa_event app e (page_inputs s)) as [i'|] eqn:He; [|discriminate].
  case_decide as Hi; intros [= <-]; exists i'; repeat split; try done.
Qed.

Lemma page_fire_inv (s s' : Page Inp Out) :
  page_fire s = Some s' -> page_inputs s' = page_inputs s /\ page_consistent s'.
Proof.
  unfold page_fire, page_consistent. destruct (page_queue s); [discriminate|].
  by intros [= <-].
Qed.

Lemma page_step_preserves (s s' : Page Inp Out) :
  page_step s s' -> spec_reachable (page_inputs s) -> page_consistent s ->
  spec_reachable (page_inputs s') /\ page_consistent s'.
Proof.
  intros [s0 e s0' He|s0 s0' Hf] Hr Hc.
  - destruct (page_event_inv _ _ _ He) as (i' & Hi & -> & Hc'). split; [|auto].
    by eapply spec_interact.
  - destruct (page_fire_inv _ _ Hf) as [-> Hc']. done.
Qed.

(** Refinement: every reachable page has inputs the specification
    reaches, and once no run is queued its outputs are the callback's
    answer on them. *)
Lemma page_refines (s : Page Inp Out) :
  page_reachable s -> spec_reachable (page_inputs s) /\ page_consistent s.
Proof.
  unfold page_reachable. revert s. apply rtc_ind_r.
  - split; [constructor | discriminate].
  - intros s2 s3 _ Hstep [Hr Hc]. by apply (page_step_preserves s2).
Qed.

(** Conversely, every input value the specification reaches is shown by
    some reachable, settled page. *)
Lemma spec_complete (i : Inp) :
  spec_reachable i ->
  page_reachable (mkPage i (spa_callback app i) 0).
Proof.
  unfold page_reachable. induction 1 as [|i e i' _ IH He].
  - apply rtc_once. apply page_step_fire. done.
  - destruct (decide (i' = i)) as [->|Hne]; [done|].
    eapply rtc_r; [eapply rtc_r; [exact IH|]|].
    + apply (page_step_event _ e). unfold page_event. simpl. rewrite He.
      by rewrite decide_False.
    + apply page_step_fire. done.
Qed.

(** Running the queue: with fuel at least the queue's length the queue
    is emptied, and the outputs are the callback's answer unless nothing
    was queued. *)
Lemma page_settle_spec (fuel : nat) (s : Page Inp Out) :
  page_queue s <= fuel ->
  page_settle fuel s =
  mkPage (page_inputs s)
    (match page_queue s with 0 => page_outputs s | S _ => spa_callback app (page_inputs s) end) 0.
Proof.
  revert s. induction fuel as [|fuel IH]; intros [i o q] Hq; simpl in *.
  - by replace q with 0 by lia.
  - unfold page_fire. simpl. destruct q as [|q]; [done|].
    rewrite IH by (simpl; lia). simpl. by destruct q.
Qed.

Lemma page_settle_reachable (fuel : nat) (s : Page Inp Out) :
  page_reachable s -> page_reachable (page_settle fuel s).
Proof.
  revert s. induction fuel as [|fuel IH]; intros s Hs; simpl; [done|].
  destruct (page_fire s) as [s'|] eqn:Hf; [|done].
  apply IH. eapply rtc_r; [exact Hs|]. by apply page_step_fire.
Qed.

(** The settled pages Dash can show are exactly the callback's answers
    on the inputs the specification reaches. *)
Lemma settled_page_reachable_iff (i : Inp) (o : Out) :
  page_reachable (mkPage i o 0) <-> spec_reachable i /\ o = spa_callback app i.
Proof.
  split.
  - intros Hr. destruct (page_refines _ Hr) as [Hs Hc]. split; [done|]. by apply Hc.
  - intros [Hs ->]. by apply spec_complete.
Qed.

(** A property of the inputs that the layout has and every event keeps
    holds on every reachable page. *)
Lemma spec_reachable_ind_inputs (P : Inp -> Prop) :
  P (spa_inputs app) ->
  (forall e i i', P i -> spa_event app e i = Some i' -> P i') ->
  forall i, spec_reachable i -> P i.
Proof. intros H0 Hstep i. induction 1; eauto. Qed.

End Runtime.

#[export] Hint Constructors spec_reachable page_step : frame.
