(* ===== verification/NotebookApps.v ===== *)
(** * NotebookApps: the notebook's two Dash apps

    src/covid_analysis.py builds two single-page apps on the table
    [deaths].  [app1] (lines 159-217) has an age-range dropdown, a
    condition dropdown, a status [html.Div] and a bar chart, filled by
    [update_output]; [app2] (lines 230-277) has an age-range dropdown and
    a map, filled by [update_usa_map].  Unlike the app of src/app.py, the
    dropdowns keep Dash's default [clearable=True], so the user can clear
    them and the callbacks then receive [None].

    Both apps are instances of [SinglePageApp] (DashRuntime.v); their
    callbacks are the notebook clones of ConditionFilter.v and
    StateAggregator.v. *)

From stdpp Require Import relations gmap.
From S2P Require Import Prelude Table ConditionFilter GroupBy StateAggregator DashRuntime.
Open Scope string_scope.

(** ** The layout constants *)

(** [conditions] (lines 144-152). *)
Definition notebook_conditions : list string :=
  ["Influenza and pneumonia"; "Chronic lower respiratory diseases";
   "Adult respiratory distress syndrome"; "Respiratory failure";
   "Respiratory arrest"; "Other diseases of the respiratory system";
   "Hypertensive diseases"; "Ischemic heart disease"; "Cardiac arrest";
   "Cardiac arrhythmia"; "Heart failure"; "Cerebrovascular diseases";
   "Other diseases of the circulatory system"; "Sepsis"; "Malignant neoplasms";
   "Diabetes"; "Obesity"; "Alzheimer disease"; "Vascular and unspecified dementia";
   "Renal failure"; "Intentional and unintentional injury, poisoning, and other adverse events";
   "All other conditions and causes (residual)"; "COVID-19"].

(** The values of both age-range dropdowns (lines 161-176 and 233-248). *)
Definition notebook_age_options : list string :=
  ["0-24"; "25-34"; "35-44"; "45-54"; "55-64"; "65-74"; "75-84"; "85+";
   "Not stated"; "All ages"].

(** A [dcc.Dropdown] with the default [clearable=True]: the user picks
    one of its options or clears it. *)
Definition dropdown_pick (options : list string) (v : Value) : bool :=
  match v with
  | None => true
  | Some x => bool_decide (In x options)
  end.

(** ** app1: mortality by comorbidity *)

Inductive App1Event :=
| SetAgeRange (v : Value)
| SetCondition (v : Value).

(** The inputs of [update_output]: the two dropdowns' values. *)
Definition app1_event (e : App1Event) (i : Value * Value) : option (Value * Value) :=
  match e with
  | SetAgeRange v => if dropdown_pick notebook_age_options v then Some (v, i.2) else None
  | SetCondition v => if dropdown_pick notebook_conditions v then Some (i.1, v) else None
  end.

(** The outputs: the children of ['display-output'] and the figure of
    ['condition-visualization'] ([None] before the first run). *)
Abbreviation App1Outputs := (string * option BarFigure)%type.

(** [app1.layout] (lines 184-190) with the callback of lines 193-217. *)
Definition app1 (deaths : Frame) : SinglePageApp (Value * Value) App1Outputs App1Event :=
  mkSinglePageApp
    (Some "All ages", Some (hd "" notebook_conditions))
    ("Results will be shown here.", None)
    app1_event
    (fun i => let out := Notebook.update_output deaths i.1 i.2 in (out.1, Some out.2)).

(** ** app2: deaths per state *)

Inductive App2Event :=
| SetAgeRange2 (v : Value).

Definition app2_event (e : App2Event) (i : Value) : option Value :=
  match e with
  | SetAgeRange2 v => if dropdown_pick notebook_age_options v then Some v else None
  end.

(** [app2.layout] (lines 250-253) with the callback of lines 256-277. *)
Definition app2 `{GroupBySum} (deaths : Frame) : SinglePageApp Value (option MapFigure) App2Event :=
  mkSinglePageApp (Some "All ages") None app2_event
    (fun v => Some (Notebook.update_usa_map deaths v)).

(** ** Lemmas *)

Lemma dropdown_pick_default (options : list string) (x : string) :
  In x options -> dropdown_pick options (Some x) = true.
Proof. intros Hx. simpl. by apply bool_decide_eq_true. Qed.

(** C22: in every page app1 can reach, whatever the interleaving of user
    events and callback runs, each dropdown holds one of its options or
    nothing: [update_output] is only ever run on offered values or on a
    cleared ([None]) dropdown. *)
Theorem notebook_app1_inputs_offered (deaths : Frame) (s : Page (Value * Value) App1Outputs) :
  page_reachable (app1 deaths) s ->
  dropdown_pick notebook_age_options (page_inputs s).1 = true /\
  dropdown_pick notebook_conditions (page_inputs s).2 = true.
Proof.
  intros Hs. apply (spec_reachable_ind_inputs (app1 deaths)
    (fun i => dropdown_pick notebook_age_options i.1 = true /\
              dropdown_pick notebook_conditions i.2 = true)); [| |apply (page_refines _ s Hs)].
  - split; apply dropdown_pick_default; simpl; tauto.
  - intros [a|c] [a0 c0] [a' c'] [Ha Hc]; simpl; case_match; intros [= <- <-]; simpl; auto.
Qed.

(** The inputs interactions reach in app1 are the pairs of offered or
    cleared values. *)
Lemma app1_spec_reachable_iff (deaths : Frame) (i : Value * Value) :
  spec_reachable (app1 deaths) i <->
  dropdown_pick notebook_age_options i.1 = true /\ dropdown_pick notebook_conditions i.2 = true.
Proof.
  split.
  - apply (spec_reachable_ind_inputs (app1 deaths)
             (fun i => dropdown_pick notebook_age_options i.1 = true /\
                       dropdown_pick notebook_conditions i.2 = true)).
    + split; apply dropdown_pick_default; simpl; tauto.
    + intros [a|c] [a0 c0] [a' c'] [Ha Hc]; simpl;
        case_match eqn:Hp; intros [= <- <-]; simpl; auto.
  - destruct i as [a c]. simpl. intros [Ha Hc].
    apply (spec_interact _ (a, Some (hd "" notebook_conditions)) (SetCondition c));
      [|by simpl; rewrite Hc].
    apply (spec_interact _ (spa_inputs (app1 deaths)) (SetAgeRange a)); [constructor|].
    by simpl; rewrite Ha.
Qed.

Lemma app2_spec_reachable_iff `{GroupBySum} (deaths : Frame) (v : Value) :
  spec_reachable (app2 deaths) v <-> dropdown_pick notebook_age_options v = true.
Proof.
  split.
  - apply (spec_reachable_ind_inputs (app2 deaths) (fun v => dropdown_pick notebook_age_options v = true)).
    + apply dropdown_pick_default. simpl. tauto.
    + intros [a] v0 v'. simpl. case_match eqn:Hp; intros _ [= <-]; done.
  - intros Hv. apply (spec_interact _ (spa_inputs (app2 deaths)) (SetAgeRange2 v)); [constructor|].
    by simpl; rewrite Hv.
Qed.

(** ** app1 *)

(** C23: the settled pages of app1 (no callback run pending) are exactly
    the answers of [update_output] on a pair of offered or cleared
    dropdown values: Dash shows nothing else, and every such answer can be
    reached. *)
Theorem notebook_app1_settled_pages (deaths : Frame) (i : Value * Value) (o : App1Outputs) :
  page_reachable (app1 deaths) (mkPage i o 0) <->
  dropdown_pick notebook_age_options i.1 = true /\ dropdown_pick notebook_conditions i.2 = true /\
  o = ((Notebook.update_output deaths i.1 i.2).1, Some (Notebook.update_output deaths i.1 i.2).2).
Proof. rewrite settled_page_reachable_iff, app1_spec_reachable_iff. simpl. tauto. Qed.

(** C24: the notebook's page is not total over the spec's selectors: the
    user can clear the age dropdown, and the settled page then reports 0
    cases whatever the table and the condition. *)
Theorem notebook_app1_cleared_reachable (deaths : Frame) (c : Value) :
  dropdown_pick notebook_conditions c = true ->
  exists o, page_reachable (app1 deaths) (mkPage (None, c) o 0) /\
            count_of_text o.1 = Some 0%nat /\
            option_map bar_x o.2 = Some [].
Proof.
  intros Hc.
  assert (Hnil : Notebook.filtered_data deaths None c = []).
  { apply filter_nil_iff, List.Forall_forall. by intros r _. }
  eexists. rewrite settled_page_reachable_iff, app1_spec_reachable_iff.
  split; [split; [split; [done|exact Hc]|reflexivity]|].
  simpl. rewrite Hnil, output_text_split, count_of_text_suffix. done.
Qed.

(** ** app2 *)

(** C25: the settled pages of app2 are exactly the maps [update_usa_map]
    draws for an offered or cleared age range; in particular a cleared
    dropdown is reachable and shows a map with no location and the
    colour range [[NaN, NaN]]. *)
Theorem notebook_app2_settled_pages `{gb : GroupBySum} `{!GroupBySumLaws gb}
    (deaths : Frame) (v : Value) (o : option MapFigure) :
  (page_reachable (app2 deaths) (mkPage v o 0) <->
   dropdown_pick notebook_age_options v = true /\ o = Some (Notebook.update_usa_map deaths v)) /\
  exists m, page_reachable (app2 deaths) (mkPage None (Some m) 0) /\
            map_locations m = [] /\ map_range_color m = Some (None, None).
Proof.
  split; [by rewrite settled_page_reachable_iff, app2_spec_reachable_iff|].
  eexists. rewrite settled_page_reachable_iff, app2_spec_reachable_iff. split; [done|].
  unfold Notebook.update_usa_map. by rewrite notebook_state_totals_cleared.
Qed.

(** ** Witnesses *)

(** The user clears the age dropdown of the loaded page; the run that
    load queued and the one the event queued are still pending. *)
Definition app1_cleared_pending : Page (Value * Value) App1Outputs :=
  mkPage (None, Some "Influenza and pneumonia") ("Results will be shown here.", None) 2.

Lemma app1_cleared_pending_reachable : page_reachable (app1 spec_table) app1_cleared_pending.
Proof.
  apply rtc_once. apply (page_step_event _ _ (SetAgeRange None)). reflexivity.
Qed.

Lemma notebook_app1_inputs_offered_witness :
  page_reachable (app1 spec_table) app1_cleared_pending /\
  dropdown_pick notebook_age_options (page_inputs app1_cleared_pending).1 = true /\
  dropdown_pick notebook_conditions (page_inputs app1_cleared_pending).2 = true.
Proof.
  split; [exact app1_cleared_pending_reachable|].
  apply (notebook_app1_inputs_offered spec_table). exact app1_cleared_pending_reachable.
Defined.

Lemma notebook_app1_cleared_reachable_witness :
  dropdown_pick notebook_conditions (Some "COVID-19") = true /\
  exists o, page_reachable (app1 spec_table) (mkPage (None, Some "COVID-19") o 0) /\
            count_of_text o.1 = Some 0%nat /\ option_map bar_x o.2 = Some [].
Proof.
  assert (H : dropdown_pick notebook_conditions (Some "COVID-19") = true) by reflexivity.
  split; [exact H|]. apply notebook_app1_cleared_reachable. exact H.
Defined.

Lemma notebook_app2_settled_pages_witness :
  GroupBySumLaws groupby_sorted_insert /\
  ((page_reachable (app2 spec_table) (mkPage (Some "65-74") (Some (Notebook.update_usa_map spec_table (Some "65-74"))) 0) <->
    dropdown_pick notebook_age_options (Some "65-74") = true /\
    Some (Notebook.update_usa_map spec_table (Some "65-74")) = Some (Notebook.update_usa_map spec_table (Some "65-74"))) /\
   exists m, page_reachable (app2 spec_table) (mkPage None (Some m) 0) /\
             map_locations m = [] /\ map_range_color m = Some (None, None)).
Proof. split; [exact groupby_sorted_insert_lawful | apply notebook_app2_settled_pages]. Defined.

(** After the two pending runs, the page shows the cleared selection. *)
Example app1_cleared_settled :
  (page_outputs (page_settle (app1 spec_table) 2 app1_cleared_pending)).1 =
  "Age Range: None, Condition: Influenza and pneumonia, Number of Cases: 0".
Proof. reflexivity. Qed.
