(* ===== verification/TimeSeries.v ===== *)
(** * TimeSeries: the notebook's US time-series analysis

    src/covid_analysis.py lines 35-98 take the frame [grouped]
    (covid_grouped.csv, one row per country and day), keep the US rows
    (line 35), sort them by date (line 37), derive 7-day moving averages
    of the daily increments of the cumulative columns (lines 44-45), the
    death-to-case ratio with infinities replaced by NA and then NA filled
    with 0 (lines 79-81), and monthly sums (line 98).  The charts drawn from these
    columns are not modelled.

    The frame as read ([RawRow]) keeps its dates as text; [usa_grouped_raw]
    converts those of the US rows with [parse_date] (Dates.v), as line 36
    does, before sorting.

    Numbers: the count columns are integers ([Z]); pandas' float results
    are rationals ([Q]) with NaN, [+inf] and [-inf] as separate values
    ([PyFloat]); rounding is not modelled. *)

From Stdlib Require Import QArith.
From Stdlib Require Finite.
From S2P Require Import Prelude Dates.
Open Scope string_scope.

(** ** Dates and rows *)

(** The columns of covid_grouped.csv the analysis reads. *)
Record GroupedRow := mkGRow {
  Date_ : Date;
  Country_Region : string;
  Confirmed : Z;
  Deaths : Z
}.

(** ** Python floats with their special values *)

Inductive PyFloat :=
| Fin (q : Q)
| PosInf
| NegInf
| NaN.

(** [a / b] on two integer columns: true division, with IEEE's results
    for a zero divisor. *)
Definition py_div (a b : Z) : PyFloat :=
  if (b =? 0)%Z then
    if (0 <? a)%Z then PosInf else if (a <? 0)%Z then NegInf else NaN
  else Fin (inject_Z a / inject_Z b).

(** [.replace([float("inf"), -float("inf")], pd.NA)] *)
Definition replace_inf (x : PyFloat) : PyFloat :=
  match x with PosInf | NegInf => NaN | _ => x end.

(** [.fillna(0)]: NaN (and NA) become 0; the infinities stay. *)
Definition fillna0 (x : PyFloat) : PyFloat :=
  match x with NaN => Fin 0 | _ => x end.

(** ** The pipeline *)

(** [grouped[grouped["Country/Region"] == "US"]] (line 35) *)
Definition usa_filter (grouped : list GroupedRow) : list GroupedRow :=
  grouped⟦fun r => Country_Region r =? "US"⟧.

(** [sort_values("Date")] (line 37), as an insertion sort by date.
    pandas' default sort is not stable, so only the sorted order and the
    multiset of rows are part of its contract ([usa_grouped_spec]). *)
Fixpoint insert_by_date (r : GroupedRow) (l : list GroupedRow) : list GroupedRow :=
  match l with
  | [] => [r]
  | r' :: l' =>
      if (date_key (Date_ r) <=? date_key (Date_ r'))%Z then r :: l
      else r' :: insert_by_date r l'
  end.

Definition sort_values_date (l : list GroupedRow) : list GroupedRow :=
  fold_right insert_by_date [] l.

Definition usa_grouped (grouped : list GroupedRow) : list GroupedRow :=
  sort_values_date (usa_filter grouped).

(** The frame as read from covid_grouped.csv, its ["Date"] column still
    text. *)
Record RawRow := mkRaw {
  Raw_Date : string;
  Raw_Country : string;
  Raw_Confirmed : Z;
  Raw_Deaths : Z
}.

(** [pd.to_datetime] on a column.  pandas 2 infers one format from the
    first string and reads every string with it, raising at the first
    that does not fit.  When the first string is the ISO text of a day the
    format is the ISO one, which [parse_date] models; a first string of
    another layout, or one that names no day (pandas then guesses the
    format with dateutil), leads to a format the model does not follow. *)
Definition to_datetime (col : list string) : Outcome (list Date) :=
  match col with
  | [] => Done []
  | s :: _ =>
      match parse_date s with
      | Done _ => mapM parse_date col
      | _ => Outside
      end
  end.

Definition with_date (d : Date) (r : RawRow) : GroupedRow :=
  mkGRow d (Raw_Country r) (Raw_Confirmed r) (Raw_Deaths r).

(** Lines 35-37 on the frame as read: the US rows, their dates parsed in
    place (line 36), then sorted. *)
Definition usa_grouped_raw (grouped : list RawRow) : Outcome (list GroupedRow) :=
  let us := grouped⟦fun r => Raw_Country r =? "US"⟧ in
  ds ← to_datetime (map Raw_Date us);
  Done (sort_values_date (zip_with with_date ds us)).

(** A row whose date parses, with its parsed date. *)
Definition parse_row (r : RawRow) : option GroupedRow :=
  match parse_date (Raw_Date r) with
  | Done d => Some (with_date d r)
  | _ => None
  end.

(** [Series.diff()]: NaN first, then each value minus the one before. *)
Fixpoint diff_from (prev : Z) (l : list Z) : list (option Z) :=
  match l with
  | [] => []
  | x :: l' => Some (x - prev)%Z :: diff_from x l'
  end.

Definition diff (l : list Z) : list (option Z) :=
  match l with
  | [] => []
  | x :: l' => None :: diff_from x l'
  end.

(** All values of a window, or [None] when one is NaN. *)
Fixpoint all_some (l : list (option Z)) : option (list Z) :=
  match l with
  | [] => Some []
  | None :: _ => None
  | Some x :: l' => option_map (cons x) (all_some l')
  end.

(** The window of [w] values ending at position [i]. *)
Definition window (w i : nat) (l : list (option Z)) : list (option Z) :=
  firstn w (skipn (S i - w) l).

(** [Series.rolling(window=w).mean()]: position [i] is NaN while fewer
    than [w] values precede it (the default [min_periods] is [w]) or
    when its window holds a NaN, else the window's mean. *)
Definition rolling_mean (w : nat) (l : list (option Z)) : list (option Q) :=
  map (fun i =>
         if (S i <? w)%nat then None
         else match all_some (window w i l) with
              | Some xs => Some (inject_Z (sumZ xs) / inject_Z (Z.of_nat w))%Q
              | None => None
              end)
      (seq 0 (length l)).

(** Lines 44-45 *)
Definition Cases_7d_avg (usa : list GroupedRow) : list (option Q) :=
  rolling_mean 7 (diff (map Confirmed usa)).

Definition Deaths_7d_avg (usa : list GroupedRow) : list (option Q) :=
  rolling_mean 7 (diff (map Deaths usa)).

(** Lines 79-81 *)
Definition death_to_case_ratio (r : GroupedRow) : PyFloat :=
  fillna0 (replace_inf (py_div (Deaths r) (Confirmed r))).

Definition Death_to_case_ratio (usa : list GroupedRow) : list PyFloat :=
  map death_to_case_ratio usa.

(** ** Monthly resampling *)

(** A row of [usa_monthly]: the summed columns the chart plots. *)
Record MonthRow := mkMRow { M_Date : Date; M_Confirmed : Z; M_Deaths : Z }.

(** [resample] makes one bin per month from the earliest row's month to
    the latest row's, months without rows included. *)
Definition month_range (l : list GroupedRow) : list Z :=
  match map (fun r => month_index (Date_ r)) l with
  | [] => []
  | k :: ks =>
      let lo := fold_left Z.min ks k in
      let hi := fold_left Z.max ks k in
      map (fun n => lo + Z.of_nat n)%Z (seq 0 (Z.to_nat (hi - lo + 1)))
  end.

Definition in_month (k : Z) (r : GroupedRow) : bool := (month_index (Date_ r) =? k)%Z.

(** [usa_grouped.resample("M", on="Date").sum()] (line 98) *)
Definition usa_monthly (usa : list GroupedRow) : list MonthRow :=
  map (fun k => mkMRow (month_end k)
                  (sumZ (map Confirmed usa⟦in_month k⟧))
                  (sumZ (map Deaths usa⟦in_month k⟧)))
      (month_range usa).

(** ** Lemmas on [diff] and [rolling_mean] *)

Lemma diff_from_length (p : Z) (l : list Z) : length (diff_from p l) = length l.
Proof. revert p. induction l as [|x l IH]; intros p; simpl; [done|]. by rewrite IH. Qed.

Lemma diff_length (x : list Z) : length (diff x) = length x.
Proof. destruct x as [|x0 l]; simpl; [done|]. by rewrite diff_from_length. Qed.

Lemma nth_diff_from (p : Z) (l : list Z) (j : nat) :
  j < length l -> nth j (diff_from p l) None = Some (nth j l 0 - nth j (p :: l) 0)%Z.
Proof.
  revert p j. induction l as [|x l IH]; intros p [|j] Hj; simpl in *; try lia; [done|].
  apply IH. lia.
Qed.

Lemma nth_diff (x : list Z) (j : nat) :
  0 < j < length x -> nth j (diff x) None = Some (nth j x 0 - nth (j - 1) x 0)%Z.
Proof.
  destruct x as [|x0 l]; simpl; [lia|]. destruct j as [|j]; [lia|]. intros Hj.
  rewrite nth_diff_from by lia. simpl. by rewrite ?Nat.sub_0_r.
Qed.

Lemma all_some_map {A} (f : A -> option Z) (g : A -> Z) (l : list A) :
  (forall a, In a l -> f a = Some (g a)) -> all_some (map f l) = Some (map g l).
Proof.
  induction l as [|a l IH]; intros Hfg; simpl; [done|].
  rewrite (Hfg a (or_introl eq_refl)), IH; [done|]. intros b Hb. apply Hfg. by right.
Qed.

Lemma all_some_None (l : list (option Z)) : In None l -> all_some l = None.
Proof.
  induction l as [|[x|] l IH]; simpl; [done| |done].
  intros [?|Hin]; [discriminate|]. by rewrite IH.
Qed.

Lemma rolling_mean_length (w : nat) (l : list (option Z)) : length (rolling_mean w l) = length l.
Proof. unfold rolling_mean. by rewrite length_map, length_seq. Qed.

Lemma nth_rolling_mean (w : nat) (l : list (option Z)) (i : nat) :
  i < length l ->
  nth i (rolling_mean w l) None =
  if (S i <? w)%nat then None
  else match all_some (window w i l) with
       | Some xs => Some (inject_Z (sumZ xs) / inject_Z (Z.of_nat w))%Q
       | None => None
       end.
Proof.
  intros Hi. unfold rolling_mean. by rewrite nth_map_seq.
Qed.

(** The mean over a window of the daily increments of a cumulative
    series is the series' increase over the window, divided by its width;
    a window that reaches the first day holds its NaN. *)
Lemma rolling_mean_diff (w : nat) (x : list Z) (i : nat) :
  0 < w -> i < length x ->
  nth i (rolling_mean w (diff x)) None =
  if (i <? w)%nat then None
  else Some (inject_Z (nth i x 0%Z - nth (i - w) x 0%Z) / inject_Z (Z.of_nat w))%Q.
Proof.
  intros Hw Hi. rewrite nth_rolling_mean by (rewrite diff_length; lia).
  destruct (Nat.ltb_spec (S i) w), (Nat.ltb_spec i w); try lia; [done| |].
  - unfold window. replace (S i - w) with 0 by lia. rewrite skipn_O, all_some_None; [done|].
    destruct x as [|x0 l]; simpl in Hi; [lia|]. destruct w as [|w]; [lia|]. by left.
  - unfold window. rewrite (firstn_skipn_seq None) by (rewrite diff_length; lia).
    rewrite (all_some_map _ (fun j => nth j x 0 - nth (j - 1) x 0)%Z).
    + replace (S i - w) with (S (i - w)) by lia.
      rewrite (sumZ_telescope (fun j => nth j x 0%Z)).
      by replace (i - w + w)%nat with i by lia.
    + intros j Hj. apply in_seq in Hj. apply nth_diff. lia.
Qed.

(** ** Sorting by date *)

Definition date_le (r r' : GroupedRow) : Prop := (date_key (Date_ r) <= date_key (Date_ r'))%Z.

Lemma insert_by_date_perm (r : GroupedRow) (l : list GroupedRow) :
  Permutation (r :: l) (insert_by_date r l).
Proof.
  induction l as [|r' l IH]; simpl; [done|].
  destruct (Z.leb_spec (date_key (Date_ r)) (date_key (Date_ r'))); [done|].
  etrans; [apply perm_swap|]. by constructor.
Qed.

Lemma insert_by_date_sorted (r : GroupedRow) (l : list GroupedRow) :
  Sorted date_le l -> Sorted date_le (insert_by_date r l).
Proof.
  unfold date_le. induction 1 as [|r' l Hs IH Hhd]; simpl; [by repeat constructor|].
  destruct (Z.leb_spec (date_key (Date_ r)) (date_key (Date_ r'))); [by repeat constructor|].
  constructor; [done|]. destruct l as [|r'' l]; simpl in *; [constructor; lia|].
  inversion Hhd; subst.
  destruct (Z.leb_spec (date_key (Date_ r)) (date_key (Date_ r''))); constructor; lia.
Qed.

(** ** Lemmas on the monthly bins *)

Lemma month_range_NoDup (l : list GroupedRow) : List.NoDup (month_range l).
Proof.
  unfold month_range. destruct (map _ l) as [|k ks]; [constructor|].
  apply Finite.Injective_map_NoDup; [intros m n ?; lia | apply seq_NoDup].
Qed.

Lemma month_range_covers (l : list GroupedRow) (r : GroupedRow) :
  In r l -> In (month_index (Date_ r)) (month_range l).
Proof.
  intros Hr. apply (in_map (fun r => month_index (Date_ r))) in Hr. unfold month_range.
  destruct (map _ l) as [|k ks]; [done|].
  destruct (fold_left_min_spec ks k) as [_ Hlo]. destruct (fold_left_max_spec ks k) as [_ Hhi].
  rewrite List.Forall_forall in Hlo, Hhi. specialize (Hlo _ Hr). specialize (Hhi _ Hr).
  apply in_map_iff. exists (Z.to_nat (month_index (Date_ r) - fold_left Z.min ks k)).
  split; [lia|]. apply in_seq. lia.
Qed.

(** ** Division with [inf] and NaN replaced by 0 *)

(** [(a / b).replace([inf, -inf], NA).fillna(0)]: the quotient, or 0
    when the divisor is 0. *)
Lemma fillna_replace_div (a b : Z) :
  fillna0 (replace_inf (py_div a b)) = if (b =? 0)%Z then Fin 0 else Fin (inject_Z a / inject_Z b)%Q.
Proof.
  unfold py_div. destruct (b =? 0)%Z; [|done].
  by destruct (0 <? a)%Z, (a <? 0)%Z.
Qed.

(** ** The 7-day averages *)

(** C15: Each 7-day average column has one entry per day; on the first
    seven days it is NaN, and on day [i] after them it is the cumulative
    count's increase over the last seven days divided by 7. *)
Theorem moving_averages_spec (usa : list GroupedRow) (i : nat) :
  i < length usa ->
  length (Cases_7d_avg usa) = length usa /\
  nth i (Cases_7d_avg usa) None =
    (if (i <? 7)%nat then None
     else Some (inject_Z (nth i (map Confirmed usa) 0%Z - nth (i - 7) (map Confirmed usa) 0%Z) / 7)%Q) /\
  nth i (Deaths_7d_avg usa) None =
    (if (i <? 7)%nat then None
     else Some (inject_Z (nth i (map Deaths usa) 0%Z - nth (i - 7) (map Deaths usa) 0%Z) / 7)%Q).
Proof.
  intros Hi. unfold Cases_7d_avg, Deaths_7d_avg.
  rewrite rolling_mean_length, diff_length, length_map, !rolling_mean_diff by (rewrite ?length_map; lia).
  done.
Qed.

(** The moving mean of the increments of a column that never decreases
    is never negative. *)
Lemma rolling_mean_diff_nonneg (x : list Z) (i : nat) (q : Q) :
  (forall j, S j < length x -> (nth j x 0 <= nth (S j) x 0)%Z) ->
  nth i (rolling_mean 7 (diff x)) None = Some q -> (0 <= q)%Q.
Proof.
  intros Hm Hq. destruct (Nat.lt_ge_cases i (length x)) as [Hi|Hi].
  2:{ rewrite nth_overflow in Hq; [discriminate|]. by rewrite rolling_mean_length, diff_length. }
  rewrite rolling_mean_diff in Hq by lia. destruct (Nat.ltb_spec i 7); [discriminate|].
  injection Hq as <-. pose proof (nth_mono x (i - 7) i Hm ltac:(lia)).
  apply Qle_shift_div_l; [reflexivity|]. rewrite Qmult_0_l. unfold Qle; simpl; lia.
Qed.

(** C32: on data whose cumulative counts never decrease from one day to
    the next, both 7-day averages are never negative. *)
Theorem moving_averages_nonneg (usa : list GroupedRow) :
  (forall j, S j < length usa -> (nth j (map Confirmed usa) 0 <= nth (S j) (map Confirmed usa) 0)%Z) ->
  (forall j, S j < length usa -> (nth j (map Deaths usa) 0 <= nth (S j) (map Deaths usa) 0)%Z) ->
  (forall i q, nth i (Cases_7d_avg usa) None = Some q -> (0 <= q)%Q) /\
  (forall i q, nth i (Deaths_7d_avg usa) None = Some q -> (0 <= q)%Q).
Proof.
  intros HC HD. split; intros i q; apply rolling_mean_diff_nonneg; rewrite length_map; assumption.
Qed.

(** ** The death-to-case ratio *)

(** C16: The death-to-case ratio of a day is the finite float
    [Deaths / Confirmed], and 0 on a day without confirmed cases, whether
    [Deaths] is 0 (NaN, filled by [fillna(0)]) or not (an infinity, which
    [fillna(0)] would keep and the [replace] step turns into NA first). *)
Theorem death_to_case_ratio_spec (r : GroupedRow) :
  death_to_case_ratio r =
  if (Confirmed r =? 0)%Z then Fin 0 else Fin (inject_Z (Deaths r) / inject_Z (Confirmed r))%Q.
Proof. apply fillna_replace_div. Qed.

(** C17: On rows whose death count lies between 0 and the confirmed count,
    the ratio is a proportion: between 0 and 1. *)
Theorem death_to_case_ratio_bounds (r : GroupedRow) :
  (0 <= Deaths r <= Confirmed r)%Z ->
  exists q, death_to_case_ratio r = Fin q /\ (0 <= q <= 1)%Q.
Proof.
  intros HD. unfold death_to_case_ratio. rewrite fillna_replace_div.
  destruct (Z.eqb_spec (Confirmed r) 0) as [|HC]; [exists 0%Q; split; [done | split; discriminate]|].
  eexists. split; [reflexivity|].
  assert (Hpos : (0 < inject_Z (Confirmed r))%Q) by (unfold Qlt; simpl; lia).
  split.
  - apply Qle_shift_div_l; [done|]. rewrite Qmult_0_l. unfold Qle; simpl; lia.
  - apply Qle_shift_div_r; [done|]. rewrite Qmult_1_l. unfold Qle; simpl; lia.
Qed.

(** ** Sorting the US rows *)

Lemma sort_values_date_perm (l : list GroupedRow) : Permutation l (sort_values_date l).
Proof.
  induction l as [|r l IH]; simpl; [done|]. etrans; [|apply insert_by_date_perm]. by constructor.
Qed.

Lemma sort_values_date_sorted (l : list GroupedRow) : Sorted date_le (sort_values_date l).
Proof. induction l as [|r l IH]; simpl; [constructor|]. by apply insert_by_date_sorted. Qed.

(** C18: [usa_grouped] holds exactly the US rows of the frame, in date
    order. *)
Theorem usa_grouped_spec (grouped : list GroupedRow) :
  Sorted date_le (usa_grouped grouped) /\
  Permutation (usa_filter grouped) (usa_grouped grouped) /\
  Forall (fun r => Country_Region r = "US") (usa_grouped grouped).
Proof.
  unfold usa_grouped. split; [apply sort_values_date_sorted|]. split; [apply sort_values_date_perm|].
  eapply Permutation_Forall; [apply sort_values_date_perm|]. apply List.Forall_forall. intros r Hr.
  unfold usa_filter in Hr. apply filter_In in Hr as [_ Hr]. by apply String.eqb_eq.
Qed.

(** ** Monthly resampling *)

Lemma month_range_shape (l : list GroupedRow) :
  exists lo m, month_range l = map (fun n => lo + Z.of_nat n)%Z (seq 0 m).
Proof. unfold month_range. destruct (map _ l); [by exists 0%Z, 0|]. by eexists _, _. Qed.

(** C19: The monthly bins are consecutive months: each bin's month comes
    right after the previous bin's. *)
Theorem usa_monthly_consecutive (usa : list GroupedRow) (i : nat) (dflt : MonthRow) :
  S i < length (usa_monthly usa) ->
  month_index (M_Date (nth (S i) (usa_monthly usa) dflt)) =
  (month_index (M_Date (nth i (usa_monthly usa) dflt)) + 1)%Z.
Proof.
  unfold usa_monthly. destruct (month_range_shape usa) as (lo & m & ->).
  rewrite !map_map, length_map, length_seq. intros Hi.
  rewrite !nth_map_seq by lia. simpl.
  assert (Hk : forall k, month_index (month_end k) = k).
  { intros k. unfold month_index, month_end; simpl. pose proof (Z.div_mod k 12). lia. }
  rewrite !Hk. lia.
Qed.

(** C20: Resampling loses no row: the monthly sums add up to the column
    totals of the daily rows. *)
Theorem usa_monthly_total (usa : list GroupedRow) :
  sumZ (map M_Confirmed (usa_monthly usa)) = sumZ (map Confirmed usa) /\
  sumZ (map M_Deaths (usa_monthly usa)) = sumZ (map Deaths usa).
Proof.
  assert (Hcov : Forall (fun r => In (month_index (Date_ r)) (month_range usa)) usa).
  { apply List.Forall_forall. intros r. apply month_range_covers. }
  unfold usa_monthly. rewrite !map_map.
  split; by rewrite (sumZ_partition _ Z.eqb_spec _ _ (month_range usa) usa (month_range_NoDup usa) Hcov).
Qed.

(** ** Parsing the dates of the US rows *)

Lemma zip_parse_rows (l : list RawRow) (ds : list Date) :
  Forall2 (fun s d => parse_date s = Done d) (map Raw_Date l) ds ->
  zip_with with_date ds l = omap parse_row l.
Proof.
  revert ds. induction l as [|r l IH]; intros ds H; simpl in H; inversion H as [|? d ? ds' Hd Hrest];
    subst; [done|].
  simpl. unfold parse_row at 1. rewrite Hd. simpl. f_equal. by apply IH.
Qed.

Lemma to_datetime_Done (l : list RawRow) (ds : list Date) :
  to_datetime (map Raw_Date l) = Done ds -> zip_with with_date ds l = omap parse_row l.
Proof.
  destruct l as [|r l]; cbn [map to_datetime]; [by intros [= <-]|].
  destruct (parse_date (Raw_Date r)) eqn:E; [|discriminate | discriminate].
  change (Raw_Date r :: map Raw_Date l) with (map Raw_Date (r :: l)). intros H%mapM_Done_inv. by apply zip_parse_rows.
Qed.

(** When the first string is the ISO text of a day, the column is read
    string by string with the ISO format. *)
Lemma to_datetime_first (col : list string) :
  (forall s, head col = Some s -> exists d, parse_date s = Done d) ->
  to_datetime col = mapM parse_date col.
Proof.
  destruct col as [|s col]; [done|]. intros Hs. cbn [to_datetime].
  by destruct (Hs s eq_refl) as [d ->].
Qed.

Lemma usa_filter_omap (g : list RawRow) :
  usa_filter (omap parse_row g) = omap parse_row g⟦fun r => Raw_Country r =? "US"⟧.
Proof.
  apply filter_omap. intros r r' Hr. unfold parse_row in Hr.
  destruct (parse_date (Raw_Date r)); simpl in Hr; simplify_eq. reflexivity.
Qed.

Lemma Exists_us_dates (P : string -> Prop) (g : list RawRow) :
  Exists P (map Raw_Date g⟦fun r => Raw_Country r =? "US"⟧) <->
  Exists (fun r => Raw_Country r = "US" /\ P (Raw_Date r)) g.
Proof.
  rewrite !List.Exists_exists. split.
  - intros (s & (r & <- & [Hr Hus%String.eqb_eq]%filter_In)%in_map_iff & Hp). by exists r.
  - intros (r & Hr & Hus & Hp). exists (Raw_Date r). split; [|done].
    apply in_map. apply filter_In. split; [done|]. by apply String.eqb_eq.
Qed.

(** C31: line 36 on the frame as read.  Whatever the dates, a result is
    [usa_grouped] of the rows whose dates parse.  When the first US row's
    date is the ISO text of a day (so that pandas reads the column with
    the ISO format) and every US date has the ISO layout, line 36 is
    decided, and it raises exactly when some US row's date names no day
    of the [datetime64[ns]] range; a row of another country with a bad
    date is filtered out before parsing and does no harm. *)
Theorem usa_grouped_raw_spec (grouped : list RawRow) :
  (forall l, usa_grouped_raw grouped = Done l -> l = usa_grouped (omap parse_row grouped)) /\
  (Forall (fun r => Raw_Country r = "US" -> iso_shape (Raw_Date r) = true) grouped ->
   (forall r, head (grouped⟦fun r => Raw_Country r =? "US"⟧) = Some r ->
              exists d, parse_date (Raw_Date r) = Done d) ->
   usa_grouped_raw grouped <> Outside /\
   ((exists e, usa_grouped_raw grouped = Raised e) <->
    Exists (fun r => Raw_Country r = "US" /\ exists e, parse_date (Raw_Date r) = Raised e) grouped)).
Proof.
  unfold usa_grouped_raw. split.
  - intros l. destruct (to_datetime _) as [ds| |] eqn:E; cbn; try discriminate. intros [= <-].
    unfold usa_grouped. by rewrite usa_filter_omap, (to_datetime_Done _ _ E).
  - intros Hiso Hfirst. rewrite to_datetime_first.
    2:{ intros s Hs. destruct (grouped⟦_⟧) as [|r us] eqn:E; simplify_eq/=. by apply Hfirst. }
    assert (Hout : forall s, In s (map Raw_Date grouped⟦fun r => Raw_Country r =? "US"⟧) ->
                             parse_date s <> Outside).
    { intros s (r & <- & Hr%filter_In)%in_map_iff. destruct Hr as [Hr Hus%String.eqb_eq].
      rewrite parse_date_Outside. rewrite List.Forall_forall in Hiso. by rewrite (Hiso r Hr Hus). }
    pose proof (mapM_not_Outside _ _ Hout) as Hno.
    pose proof (Exists_us_dates (fun s => exists e, parse_date s = Raised e) grouped) as Hex.
    cbn beta in Hex. rewrite <- Hex, <- (mapM_Raised_iff _ _ Hout).
    destruct (mapM parse_date _) as [ds|e|]; cbn; [| |done].
    + split; [discriminate|]. split; intros [e' He']; discriminate.
    + split; [discriminate|]. split; intros [e' He']; eauto.
Qed.

(** ** Scenarios *)

(** A US row of the given day of March 2020. *)
Definition us_march (d c k : Z) : GroupedRow := mkGRow (mkDate 2020 3 d) "US" c k.

(** Eight days of cumulative counts, ten new cases and one new death a
    day. *)
Definition march_rows : list GroupedRow :=
  map (fun d => us_march (Z.of_nat d) (10 * Z.of_nat d) (Z.of_nat d)) (seq 1 8).

Lemma moving_averages_spec_witness :
  nth 7 (Cases_7d_avg march_rows) None = Some (inject_Z 70 / 7)%Q /\
  nth 6 (Deaths_7d_avg march_rows) None = None.
Proof.
  split.
  - destruct (moving_averages_spec march_rows 7) as (_ & -> & _); [simpl; lia | reflexivity].
  - destruct (moving_averages_spec march_rows 6) as (_ & _ & ->); [simpl; lia | reflexivity].
Defined.

Lemma death_to_case_ratio_bounds_witness :
  exists q, death_to_case_ratio (us_march 1 100 3) = Fin q /\ (0 <= q <= 1)%Q.
Proof. apply death_to_case_ratio_bounds. simpl. lia. Defined.

Lemma usa_monthly_consecutive_witness :
  month_index (M_Date (nth 1 (usa_monthly [us_march 5 50 1; mkGRow (mkDate 2020 1 9) "US" 7 0])
                             (mkMRow (month_end 0) 0 0))) =
  (month_index (M_Date (nth 0 (usa_monthly [us_march 5 50 1; mkGRow (mkDate 2020 1 9) "US" 7 0])
                              (mkMRow (month_end 0) 0 0))) + 1)%Z.
Proof. apply usa_monthly_consecutive. vm_compute. lia. Defined.

(** Resampling sums the cumulative columns day by day: the March bin
    holds 360 "confirmed" cases although the running total reached 80,
    and a month without rows (February) gets a bin of 0. *)
Example usa_monthly_sums_cumulative :
  map (fun m => (M_Date m, M_Confirmed m)) (usa_monthly march_rows) = [(mkDate 2020 3 31, 360%Z)] /\
  map (fun m => (M_Date m, M_Confirmed m))
      (usa_monthly [mkGRow (mkDate 2020 1 9) "US" 7 0; us_march 5 50 1]) =
    [(mkDate 2020 1 31, 7%Z); (mkDate 2020 2 29, 0%Z); (mkDate 2020 3 31, 50%Z)].
Proof. split; reflexivity. Qed.

Lemma moving_averages_nonneg_witness :
  (forall i q, nth i (Cases_7d_avg march_rows) None = Some q -> (0 <= q)%Q) /\
  (forall i q, nth i (Deaths_7d_avg march_rows) None = Some q -> (0 <= q)%Q).
Proof.
  apply moving_averages_nonneg; intros j Hj; simpl in Hj;
    do 7 (destruct j as [|j]; [simpl; lia|]); lia.
Defined.

(** A US row whose date names no day makes line 36 raise, while a bad
    date in another country's row is filtered out first. *)
Lemma usa_grouped_raw_spec_witness :
  exists e, usa_grouped_raw [mkRaw "2020-01-22" "US" 1 0; mkRaw "2020-02-30" "US" 2 0;
                             mkRaw "22/01/2020" "France" 1 0] = Raised e.
Proof.
  apply (proj2 (usa_grouped_raw_spec _)).
  - repeat (apply List.Forall_cons; [intros ?; first [reflexivity | discriminate] |]).
    apply List.Forall_nil.
  - intros r [= <-]. eexists. reflexivity.
  - apply Exists_cons_tl, Exists_cons_hd. split; [reflexivity|]. eexists. reflexivity.
Defined.

Example usa_grouped_raw_scenario :
  usa_grouped_raw [mkRaw "22/01/2020" "France" 5 0; mkRaw "2020-01-23" "US" 2 0;
                   mkRaw "2020-01-22" "US" 1 0] =
  Done [mkGRow (mkDate 2020 1 22) "US" 1 0; mkGRow (mkDate 2020 1 23) "US" 2 0] /\
  usa_grouped_raw [mkRaw "2020-01-22" "US" 1 0; mkRaw "9999-01-23" "US" 2 0] =
  Raised OutOfBoundsDatetime /\
  usa_grouped_raw [mkRaw "01/22/2020" "US" 1 0; mkRaw "2020-01-23" "US" 2 0] = Outside.
Proof. vm_compute. repeat split. Qed.
