(* ===== verification/CsvRead.v ===== *)
(** * CsvRead: loading the data files

    src/app.py lines 6-7 and src/covid_analysis.py lines 22 and 26-28
    load the data with [pd.read_csv(f"{DATA_DIR}/...")]: the notebook
    reads covid.csv (never used afterwards), covid_grouped.csv and
    coviddeath.csv, the app only coviddeath.csv.  This file models those
    calls with pandas' defaults:
    - [tokenize]: the C tokenizer as a state machine ([LexState]) over
      the characters: delimiter [','], quote character (ASCII 34), doubled
      quotes inside a quoted field, a line feed or a carriage return
      ending a record, blank lines and lines of spaces and tabs skipped,
      an unclosed quote an error;
    - [read_frame]: the header record, the columns located by name
      ([column_indices]), a record longer than the header a
      [ParserError], a shorter one padded with NaN, an empty file an
      [EmptyDataError];
    - the columns ([read_column]): pandas gives each column one type
      inferred from all its cells.  A key column stays text when some
      cell is not number-like ([typed_like] contains every text pandas
      converts to a number or a boolean); a count column of the mortality
      table is float64 with NaN for empty and NA cells, exact below
      [2^53]; the counts of the grouped table are int64, below [2^63];
    - [read_deaths], [read_grouped], [read_covid] and [load_notebook]:
      the three files as [Row]s (Table.v), [RawRow]s (TimeSeries.v) and
      records of no selected column, from a map of paths to texts; a
      missing file is [FileNotFoundError].

    Results are [Outcome]s (Prelude): a column of another type than the
    code uses (a key column of numbers, NaN in a text or int64 column, a
    count too large or not an integer), and a column the header lacks
    (a [KeyError] raised later, by the line that reads it), are
    [Outside].

    [write_frame] writes a table with minimal quoting (a field holding a
    comma, a quote or a line break is quoted), as the CDC file is
    written: several condition names hold commas.  [csv_records_print]
    shows the tokenizer reads back any printed records, and
    [load_notebook_write] that the notebook loads back the tables the
    files were written from, when pandas infers the column types the
    code uses.

    Not modelled: the implicit index pandas takes when every data record
    has one field more than the header, and the types of the columns no
    code reads. *)

From S2P Require Import Prelude Table Dates TimeSeries.
Open Scope string_scope.

(** ** Characters *)

Definition comma : Ascii.ascii := Ascii.ascii_of_nat 44.
Definition quote : Ascii.ascii := Ascii.ascii_of_nat 34.
Definition newline : Ascii.ascii := Ascii.ascii_of_nat 10.
Definition cr : Ascii.ascii := Ascii.ascii_of_nat 13.
Definition space : Ascii.ascii := Ascii.ascii_of_nat 32.
Definition tab : Ascii.ascii := Ascii.ascii_of_nat 9.

(** A line feed or a carriage return ends a record ([IS_TERMINATOR],
    [IS_CARRIAGE]); a carriage return then a line feed is a record end
    followed by a blank line, which is skipped. *)
Definition is_eol (c : Ascii.ascii) : bool := Ascii.eqb c newline || Ascii.eqb c cr.

(** [IS_WHITESPACE]. *)
Definition is_ws (c : Ascii.ascii) : bool := Ascii.eqb c space || Ascii.eqb c tab.

(** ** The tokenizer *)

(** The tokenizer's states ([START_RECORD], [START_FIELD], [IN_FIELD],
    [IN_QUOTED_FIELD], [QUOTE_IN_QUOTED_FIELD], [WHITESPACE_LINE]). *)
Inductive LexState :=
| AtRecord
| AtField
| Unquoted
| Quoted
| QuoteSeen
| WhitespaceLine.

Definition field_of (fld : list Ascii.ascii) : string := String.string_of_list_ascii (rev fld).

(** [tokenize st fld rcd input]: [fld] is the current field and [rcd]
    the fields of the current record, both reversed.  A line of spaces
    and tabs only is skipped; in [WhitespaceLine] [fld] holds the
    whitespace read so far, which pandas reads again as the start of a
    field once another character comes.  A quote that is not closed
    before the end of the input is pandas' EOF-inside-string error
    ([None]). *)
Fixpoint tokenize (st : LexState) (fld : list Ascii.ascii) (rcd : list string)
    (input : list Ascii.ascii) : option (list (list string)) :=
  match input with
  | [] =>
      match st with
      | AtRecord | WhitespaceLine => Some []
      | Quoted => None
      | _ => Some [rev (field_of fld :: rcd)]
      end
  | c :: input' =>
      match st with
      | AtRecord | AtField =>
          if Ascii.eqb c comma then tokenize AtField [] ("" :: rcd) input'
          else if is_eol c then
            match st with
            | AtRecord => tokenize AtRecord [] [] input'
            | _ => option_map (cons (rev ("" :: rcd))) (tokenize AtRecord [] [] input')
            end
          else if Ascii.eqb c quote then tokenize Quoted [] rcd input'
          else
            match st with
            | AtRecord => if is_ws c then tokenize WhitespaceLine [c] rcd input'
                          else tokenize Unquoted [c] rcd input'
            | _ => tokenize Unquoted [c] rcd input'
            end
      | Unquoted | QuoteSeen | WhitespaceLine =>
          if Ascii.eqb c comma then tokenize AtField [] (field_of fld :: rcd) input'
          else if is_eol c then
            match st with
            | WhitespaceLine => tokenize AtRecord [] [] input'
            | _ => option_map (cons (rev (field_of fld :: rcd))) (tokenize AtRecord [] [] input')
            end
          else if Ascii.eqb c quote then
            match st with
            | QuoteSeen => tokenize Quoted (quote :: fld) rcd input'
            | _ => tokenize Unquoted (c :: fld) rcd input'
            end
          else
            match st with
            | WhitespaceLine => if is_ws c then tokenize WhitespaceLine (c :: fld) rcd input'
                                else tokenize Unquoted (c :: fld) rcd input'
            | _ => tokenize Unquoted (c :: fld) rcd input'
            end
      | Quoted =>
          if Ascii.eqb c quote then tokenize QuoteSeen fld rcd input'
          else tokenize Quoted (c :: fld) rcd input'
      end
  end.

Definition csv_records (text : string) : option (list (list string)) :=
  tokenize AtRecord [] [] (String.list_ascii_of_string text).

(** ** The file's text *)








(** ** Cells *)

(** pandas' default NA strings ([na_values]): a cell holding exactly
    one of them is read as NaN. *)
Definition na_values : list string := [
  ""; "#N/A"; "#N/A N/A"; "#NA"; "-1.#IND"; "-1.#QNAN"; "-NaN"; "-nan";
  "1.#IND"; "1.#QNAN"; "<NA>"; "N/A"; "NA"; "NULL"; "NaN"; "None"; "n/a";
  "nan"; "null"].

Definition is_na (s : string) : bool := existsb (String.eqb s) na_values.

Definition plus_sign : Ascii.ascii := Ascii.ascii_of_nat 43.
Definition dot : Ascii.ascii := Ascii.ascii_of_nat 46.

Fixpoint skip_ws (l : list Ascii.ascii) : list Ascii.ascii :=
  match l with
  | c :: l' => if is_ws c then skip_ws l' else l
  | [] => []
  end.

Definition strip_ws (l : list Ascii.ascii) : list Ascii.ascii := rev (skip_ws (rev (skip_ws l))).

Definition drop_sign (l : list Ascii.ascii) : list Ascii.ascii :=
  match l with
  | c :: l' => if Ascii.eqb c plus_sign || Ascii.eqb c dash then l' else l
  | [] => []
  end.

Fixpoint span_digits (l : list Ascii.ascii) : list Ascii.ascii * list Ascii.ascii :=
  match l with
  | c :: l' => if is_digit c then let (ds, r) := span_digits l' in (c :: ds, r) else ([], l)
  | [] => ([], [])
  end.

(** Text that reads as a number: spaces, a sign, digits with at most one
    dot, an exponent.  This contains every text pandas' integer and float
    converters accept. *)
Definition number_like (l : list Ascii.ascii) : bool :=
  let (ip, r1) := span_digits (drop_sign (strip_ws l)) in
  let (fp, r2) := match r1 with
                  | c :: r => if Ascii.eqb c dot then span_digits r else ([], r1)
                  | [] => ([], [])
                  end in
  match (ip ++ fp)%list with [] => false | _ => true end &&
  match r2 with
  | [] => true
  | e :: r => (Ascii.eqb e (Ascii.ascii_of_nat 101) || Ascii.eqb e (Ascii.ascii_of_nat 69)) &&
              forallb is_digit (drop_sign r)
  end.

Definition lower (c : Ascii.ascii) : Ascii.ascii :=
  let n := Ascii.nat_of_ascii c in
  if (65 <=? n)%nat && (n <=? 90)%nat then Ascii.ascii_of_nat (n + 32) else c.

(** The words pandas' float converter reads as infinities (and NaN), in
    any case, and those its boolean converter reads. *)
Definition word_like (l : list Ascii.ascii) : bool :=
  let w := String.string_of_list_ascii (map lower (strip_ws l)) in
  let w' := String.string_of_list_ascii (map lower (drop_sign (strip_ws l))) in
  existsb (String.eqb w') ["inf"; "infinity"; "nan"] || existsb (String.eqb w) ["true"; "false"].

(** A cell pandas may convert to a number or a boolean. *)
Definition typed_like (s : string) : bool :=
  let l := String.list_ascii_of_string s in number_like l || word_like l.

(** ** Columns

    pandas gives each column one type, inferred from all its cells: a
    column whose cells all convert to numbers (NA cells as NaN) or to
    booleans is numeric or boolean, any other column keeps its text.  The
    model reads three kinds of column: text ([KStr]: the key columns), a
    count that may be NaN ([KCount]: float64, exact below [2^53]), and an
    integer without NaN ([KInt]: int64, below [2^63]).  A column of
    another type than the one the code uses is [Outside]. *)

Inductive ColKind := KStr | KCount | KInt.

(** A cell as pandas holds it. *)
Inductive Cell :=
| CStr (s : string)
| CNum (k : Z)
| CNaN.

(** A text cell; NaN in a text column is [Outside]. *)
Definition str_cell (c : option string) : Outcome string :=
  match c with
  | Some s => if is_na s then Outside else Done s
  | None => Outside
  end.

(** A cell of a count column: NaN when missing or NA; a non-negative
    integer below [2^53], which float64 holds exactly; any other text is
    [Outside]. *)
Definition count_cell (c : option string) : Outcome Cell :=
  match c with
  | None => Done CNaN
  | Some s =>
      if is_na s then Done CNaN
      else match parse_digits (String.list_ascii_of_string s) with
           | Some k => if (k <? 2 ^ 53)%Z then Done (CNum k) else Outside
           | None => Outside
           end
  end.

(** A cell of an int64 column. *)
Definition int_cell (c : option string) : Outcome Cell :=
  match c with
  | Some s =>
      if is_na s then Outside
      else match parse_digits (String.list_ascii_of_string s) with
           | Some k => if (k <? 2 ^ 63)%Z then Done (CNum k) else Outside
           | None => Outside
           end
  | None => Outside
  end.

(** A text column stays text when some cell is not number-like. *)
Definition str_column (col : list (option string)) : Outcome (list Cell) :=
  ss ← mapM str_cell col;
  match ss with
  | [] => Done []
  | _ => if forallb typed_like ss then Outside else Done (map CStr ss)
  end.

Definition read_column (k : ColKind) (col : list (option string)) : Outcome (list Cell) :=
  match k with
  | KStr => str_column col
  | KCount => mapM count_cell col
  | KInt => mapM int_cell col
  end.

(** ** Frames *)

(** The position of the first column with this name ([df[name]] picks
    the first: pandas renames later duplicates). *)
Fixpoint index_of (name : string) (hdr : list string) : option nat :=
  match hdr with
  | [] => None
  | h :: hdr' => if String.eqb h name then Some 0 else option_map S (index_of name hdr')
  end.

Fixpoint column_indices (hdr cols : list string) : option (list nat) :=
  match cols with
  | [] => Some []
  | c :: cols' =>
      match index_of c hdr, column_indices hdr cols' with
      | Some i, Some ix => Some (i :: ix)
      | _, _ => None
      end
  end.

(** The columns at positions [idx], each of its kind; a record shorter
    than the header has missing (NaN) cells. *)
Fixpoint read_columns (rows : list (list string)) (idx : list nat) (kinds : list ColKind)
    : Outcome (list (list Cell)) :=
  match idx, kinds with
  | i :: idx', k :: kinds' =>
      col ← read_column k (map (fun r => nth_error r i) rows);
      cols ← read_columns rows idx' kinds';
      Done (col :: cols)
  | _, _ => Done []
  end.

(** The row [j] of the columns, built by [mk]. *)
Definition frame_row {A} (mk : list Cell -> option A) (columns : list (list Cell)) (j : nat) : Outcome A :=
  match mk (map (fun col => nth j col CNaN) columns) with
  | Some a => Done a
  | None => Outside
  end.

(** [pd.read_csv] followed by the reads of the columns [cols]: an
    unclosed quote or a record longer than the header is a
    [ParserError], an empty file an [EmptyDataError].  A column the code
    reads that the header lacks is a [KeyError] raised later, by the line
    that reads it; the model leaves it [Outside]. *)
Definition read_frame {A} (cols : list (string * ColKind)) (mk : list Cell -> option A)
    (text : string) : Outcome (list A) :=
  match csv_records text with
  | None => Raised ParserError
  | Some [] => Raised EmptyDataError
  | Some (hdr :: rows) =>
      if existsb (fun r => Nat.ltb (length hdr) (length r)) rows then Raised ParserError
      else
        match column_indices hdr (map fst cols) with
        | None => Outside
        | Some idx =>
            columns ← read_columns rows idx (map snd cols);
            mapM (frame_row mk columns) (seq 0 (length rows))
        end
  end.

(** ** The files the code reads *)

Definition deaths_cols : list (string * ColKind) :=
  [("State", KStr); ("Age Group", KStr); ("Condition", KStr); ("Number of COVID-19 Deaths", KCount)].

Definition deaths_row (cells : list Cell) : option Row :=
  match cells with
  | [CStr s; CStr a; CStr c; CNum k] => Some (mkRow s a c (Some k))
  | [CStr s; CStr a; CStr c; CNaN] => Some (mkRow s a c None)
  | _ => None
  end.

(** coviddeath.csv as the four columns of [Row]. *)
Definition read_deaths : string -> Outcome Frame := read_frame deaths_cols deaths_row.










(** ** Writing a table

    The data files' layout: the header, then one record per row, a NaN
    count as an empty cell. *)

















(** ** The tokenizer reads back what is printed *)


















(** ** Frames read back *)





(** ** Cells read back *)












(** ** Properties *)



(** The CDC layout: an extra column, a quoted condition holding commas,
    an empty count. *)
Example read_deaths_example :
  read_deaths ("State,Age Group,Condition,Number of COVID-19 Deaths,Flag" +:+ String newline
    ("Alabama,0-24," +:+ String quote ("Intentional and unintentional injury, poisoning, and other adverse events" +:+
     String quote (",,x" +:+ String newline ("Alabama,85+,COVID-19,2301" +:+ String newline ""))))) =
  Done [mkRow "Alabama" "0-24" "Intentional and unintentional injury, poisoning, and other adverse events" None;
        mkRow "Alabama" "85+" "COVID-19" (Some 2301%Z)].
Proof. by vm_compute. Qed.

(** An unclosed quote and a record longer than the header raise; an NA
    string in a key column, a key column of numbers (pandas reads it as
    integers) and a count beyond float64's exact integers are outside the
    model. *)
Example read_deaths_errors :
  read_deaths ("State,Age Group,Condition,Number of COVID-19 Deaths" +:+ String newline
    ("Alabama,0-24," +:+ String quote "COVID-19,12")) = Raised ParserError /\
  read_deaths ("State,Age Group,Condition,Number of COVID-19 Deaths" +:+ String newline
    "Alabama,0-24,COVID-19,12,x") = Raised ParserError /\
  read_deaths "" = Raised EmptyDataError /\
  read_deaths ("State,Age Group,Condition,Number of COVID-19 Deaths" +:+ String newline
    "NA,0-24,COVID-19,12") = Outside /\
  read_deaths ("State,Age Group,Condition,Number of COVID-19 Deaths" +:+ String newline
    "1,0-24,COVID-19,12") = Outside /\
  read_deaths ("State,Age Group,Condition,Number of COVID-19 Deaths" +:+ String newline
    "Alabama,0-24,COVID-19,9007199254740993") = Outside.
Proof. by vm_compute. Qed.

(** Windows line ends and a line of spaces: the carriage return ends the
    record, the line feed after it and the whitespace line are skipped, and
    a line that starts with a space keeps it in its first field. *)
Example csv_records_crlf_blank :
  csv_records ("a,b" +:+ String cr (String newline ("  " +:+ String newline
    (" x,y" +:+ String cr (String newline ""))))) =
  Some [["a"; "b"]; [" x"; "y"]].
Proof. by vm_compute. Qed.
