(* ===== verification/Charts.v ===== *)
(** * Charts: the notebook's static time-series charts

    Cells In[5]-In[9] of src/covid_analysis.py (lines 51-136) draw six
    charts of the US series of TimeSeries.v and write each to a file of
    [OUTPUT_DIR]: two plotly line charts of the cumulative counts, a
    matplotlib chart of the two 7-day averages, a seaborn chart of the
    death-to-case ratio, a plotly chart of the monthly sums, and a
    dual-axis matplotlib chart of the 7-day averages.

    A chart is modelled by what the code hands to the plotting library:
    its series (x values, y values, label, colour, line style, axis),
    title, axis labels, whether a legend is drawn, and the file it is
    written to.  The files are written into a file system of directories
    and files ([FileSystem]): [os.makedirs(OUTPUT_DIR, exist_ok=True)]
    (line 24) creates the output directory, and each [write_html] or
    [savefig] call stores its chart under its path, or raises when the
    path's directory is missing or the path is a directory.  Rendering
    (the bytes of the files) is not modelled. *)

From Stdlib Require Import QArith.
From stdpp Require Import gmap.
From S2P Require Import Prelude Dates TimeSeries.
Open Scope string_scope.

(** [OUTPUT_DIR] (line 23). *)
Definition OUTPUT_DIR : string := "output".

(** One line of a chart; [s_twin] marks a line drawn on the second
    y axis of [ax1.twinx()]. *)
Record Series := mkSeries {
  s_x : list Date;
  s_y : list (option Q);
  s_label : option string;
  s_color : option string;
  s_linestyle : option string;
  s_twin : bool
}.

Record Chart := mkChart {
  c_series : list Series;
  c_title : string;
  c_xlabel : string;
  c_ylabel : string;
  c_ylabel2 : option string;
  c_legend : bool;
  c_file : string
}.

(** An integer column as the floats the libraries plot. *)
Definition as_floats (col : list Z) : list (option Q) := map (fun z => Some (inject_Z z)) col.

(** [px.line(df, x="Date", y=col, title=title)]: plotly titles the axes
    with the column names and draws no legend for a single line. *)
Definition px_line (x : list Date) (col : string) (y : list (option Q)) (title file : string) : Chart :=
  mkChart [mkSeries x y (Some col) None None false] title "Date" col None false file.

(** Lines 52-53 *)
Definition fig1 (usa : list GroupedRow) : Chart :=
  px_line (map Date_ usa) "Confirmed" (as_floats (map Confirmed usa))
    "Total Confirmed Cases in USA" (OUTPUT_DIR +:+ "/usa_total_cases.html").

(** Lines 55-56 *)
Definition fig2 (usa : list GroupedRow) : Chart :=
  px_line (map Date_ usa) "Deaths" (as_floats (map Deaths usa))
    "Total Deaths in USA" (OUTPUT_DIR +:+ "/usa_total_deaths.html").

(** Lines 63-72 *)
Definition moving_averages_plot (usa : list GroupedRow) : Chart :=
  mkChart
    [mkSeries (map Date_ usa) (Cases_7d_avg usa) (Some "7-Day Avg Cases") None None false;
     mkSeries (map Date_ usa) (Deaths_7d_avg usa) (Some "7-Day Avg Deaths") None None false]
    "COVID-19 USA: 7-Day Moving Averages" "Date" "Cases / Deaths" None true
    (OUTPUT_DIR +:+ "/moving_averages.png").

(** A float as a plotted point: NaN and the infinities are not drawn. *)
Definition plotted (x : PyFloat) : option Q :=
  match x with Fin q => Some q | _ => None end.

(** Lines 83-89: seaborn labels the axes with the column names, and
    [plt.ylabel] replaces the y label.  [sns.lineplot] would average the
    rows of a repeated date; the series below is the one drawn when the
    dates are distinct, as in the data file. *)
Definition ratio_plot (usa : list GroupedRow) : Chart :=
  mkChart [mkSeries (map Date_ usa) (map plotted (Death_to_case_ratio usa)) None None None false]
    "Death-to-Case Ratio Over Time (USA)" "Date" "Ratio" None false
    (OUTPUT_DIR +:+ "/death_to_case_ratio.png").

(** Lines 100-112: the wide-form [px.line] draws one line per column of
    [y], named in a legend; [update_layout] titles the axes. *)
Definition slider_chart (monthly : list MonthRow) : Chart :=
  mkChart
    [mkSeries (map M_Date monthly) (as_floats (map M_Confirmed monthly)) (Some "Confirmed") None None false;
     mkSeries (map M_Date monthly) (as_floats (map M_Deaths monthly)) (Some "Deaths") None None false]
    "COVID-19 Cases & Deaths Over Time (USA)" "Date" "Count" None true
    (OUTPUT_DIR +:+ "/cases_deaths_over_time.html").

(** Lines 119-136: no [legend()] call, so the lines' labels are not
    shown. *)
Definition dual_axis_plot (usa : list GroupedRow) : Chart :=
  mkChart
    [mkSeries (map Date_ usa) (Cases_7d_avg usa) (Some "7-Day Avg Cases") (Some "blue") None false;
     mkSeries (map Date_ usa) (Deaths_7d_avg usa) (Some "7-Day Avg Deaths") (Some "red") (Some "dashed") true]
    "Comparison of Cases vs. Deaths in USA (7-Day Moving Avg)" "Date" "7-Day Avg Cases"
    (Some "7-Day Avg Deaths") false
    (OUTPUT_DIR +:+ "/cases_vs_deaths.png").

(** The six charts in the order the cells draw them. *)
Definition notebook_charts (grouped : list GroupedRow) : list Chart :=
  let usa := usa_grouped grouped in
  [fig1 usa; fig2 usa; moving_averages_plot usa; ratio_plot usa;
   slider_chart (usa_monthly usa); dual_axis_plot usa].

(** ** The output files *)

Record FileSystem := mkFS {
  fs_dirs : gset string;
  fs_files : gmap string Chart
}.

Definition slash : Ascii.ascii := Ascii.ascii_of_nat 47.

Fixpoint drop_to_slash (l : list Ascii.ascii) : option (list Ascii.ascii) :=
  match l with
  | [] => None
  | c :: l' => if Ascii.eqb c slash then Some l' else drop_to_slash l'
  end.

(** The directory part of a path; [""] is the working directory. *)
Definition dirname (p : string) : string :=
  match drop_to_slash (rev (String.list_ascii_of_string p)) with
  | Some r => String.string_of_list_ascii (rev r)
  | None => ""
  end.

(** [os.makedirs(d, exist_ok=True)] for a directory of the working
    directory (line 24): nothing when it exists, [FileExistsError] when a
    file has its name. *)
Definition makedirs (fs : FileSystem) (d : string) : option FileSystem :=
  if decide (d ∈ fs_dirs fs) then Some fs
  else match fs_files fs !! d with
       | Some _ => None
       | None => Some (mkFS ({[d]} ∪ fs_dirs fs) (fs_files fs))
       end.

(** [fig.write_html(p)] and [plt.savefig(p)]: [FileNotFoundError] when
    the directory of [p] does not exist, [IsADirectoryError] when [p] is a
    directory; an existing file is replaced. *)
Definition write_file (fs : FileSystem) (p : string) (c : Chart) : option FileSystem :=
  if decide (dirname p = "" \/ dirname p ∈ fs_dirs fs) then
    if decide (p ∈ fs_dirs fs) then None
    else Some (mkFS (fs_dirs fs) (<[p := c]> (fs_files fs)))
  else None.

(** The cells write their charts in order; the first error stops the
    notebook. *)
Fixpoint write_charts (fs : FileSystem) (cs : list Chart) : option FileSystem :=
  match cs with
  | [] => Some fs
  | c :: cs' =>
      match write_file fs (c_file c) c with
      | Some fs' => write_charts fs' cs'
      | None => None
      end
  end.

(** Line 24, then the writes of lines 53, 56, 71, 88, 112 and 135. *)
Definition notebook_export (fs : FileSystem) (grouped : list GroupedRow) : option FileSystem :=
  match makedirs fs OUTPUT_DIR with
  | Some fs' => write_charts fs' (notebook_charts grouped)
  | None => None
  end.

(** ** Lemmas *)

Lemma moving_averages_length (usa : list GroupedRow) :
  length (Cases_7d_avg usa) = length usa /\ length (Deaths_7d_avg usa) = length usa.
Proof.
  unfold Cases_7d_avg, Deaths_7d_avg. by rewrite !rolling_mean_length, !diff_length, !length_map.
Qed.

(** Month-end labels of consecutive months are in date order. *)
Lemma month_end_key_lt (k : Z) : (date_key (month_end k) < date_key (month_end (k + 1)))%Z.
Proof.
  assert (Hk : forall k, date_key (month_end k) = (31 * k + days_in_month (k / 12) (k mod 12 + 1) - 1)%Z).
  { intros j. unfold date_key, month_end; simpl. pose proof (Z.div_mod j 12). lia. }
  rewrite !Hk. pose proof (days_in_month_bounds (k / 12) (k mod 12 + 1)).
  pose proof (days_in_month_bounds ((k + 1) / 12) ((k + 1) mod 12 + 1)). lia.
Qed.

Lemma usa_grouped_dates_sorted (grouped : list GroupedRow) :
  Sorted (fun d1 d2 => (date_key d1 <= date_key d2)%Z) (map Date_ (usa_grouped grouped)).
Proof. apply Sorted_map_2, sort_values_date_sorted. Qed.

Lemma usa_monthly_dates_sorted (usa : list GroupedRow) :
  Sorted (fun d1 d2 => (date_key d1 <= date_key d2)%Z) (map M_Date (usa_monthly usa)).
Proof.
  unfold usa_monthly. rewrite map_map. destruct (month_range_shape usa) as (lo & m & ->).
  rewrite map_map. apply Sorted_map_seq. intros n. simpl.
  replace (lo + Z.of_nat (S n))%Z with ((lo + Z.of_nat n) + 1)%Z by lia.
  pose proof (month_end_key_lt (lo + Z.of_nat n)). lia.
Qed.

(** The six files are distinct, each directly in [OUTPUT_DIR]. *)
Lemma notebook_files_NoDup (grouped : list GroupedRow) : NoDup (map c_file (notebook_charts grouped)).
Proof. decide_closed. Qed.

Lemma notebook_files_dir (grouped : list GroupedRow) :
  Forall (fun c => dirname (c_file c) = OUTPUT_DIR /\ c_file c <> OUTPUT_DIR) (notebook_charts grouped).
Proof.
  unfold notebook_charts.
  repeat (apply List.Forall_cons; [split; [vm_compute; reflexivity | discriminate] |]).
  apply List.Forall_nil.
Qed.

(** [makedirs] on a name no file has: the directory exists afterwards
    and the files are untouched. *)
Lemma makedirs_spec (fs : FileSystem) (d : string) :
  fs_files fs !! d = None ->
  exists fs', makedirs fs d = Some fs' /\ (forall x, x ∈ fs_dirs fs' <-> x = d \/ x ∈ fs_dirs fs) /\
              fs_files fs' = fs_files fs.
Proof.
  intros Hd. unfold makedirs. case_decide as Hin.
  - exists fs. split_and!; [done | | done]. intros x. split; [auto|]. by intros [->|?].
  - rewrite Hd. eexists. split_and!; [done | | done]. intros x. simpl. set_solver.
Qed.

(** Writing charts with distinct paths into existing directories: every
    chart is in its file afterwards and no other file changes. *)
Lemma write_charts_spec (fs : FileSystem) (cs : list Chart) :
  NoDup (map c_file cs) ->
  Forall (fun c => dirname (c_file c) ∈ fs_dirs fs /\ c_file c ∉ fs_dirs fs) cs ->
  exists fs', write_charts fs cs = Some fs' /\ fs_dirs fs' = fs_dirs fs /\
    (forall c, c ∈ cs -> fs_files fs' !! c_file c = Some c) /\
    (forall p, p ∉ map c_file cs -> fs_files fs' !! p = fs_files fs !! p).
Proof.
  revert fs. induction cs as [|c cs IH]; intros fs Hnd Hok.
  - exists fs. split_and!; [done | done | | done]. by intros c ?%elem_of_nil.
  - apply NoDup_cons in Hnd as [Hnin Hnd]. inversion Hok as [|? ? [Hdir Hnot] Hok']; subst.
    set (fs1 := mkFS (fs_dirs fs) (<[c_file c := c]> (fs_files fs))).
    assert (Hw : write_file fs (c_file c) c = Some fs1).
    { unfold write_file. rewrite decide_True by auto. by rewrite decide_False. }
    destruct (IH fs1 Hnd Hok') as (fs' & Hcs & Hdirs & Hin & Hout).
    exists fs'. cbn [write_charts]. rewrite Hw. split_and!; [done | done | |].
    + intros c' [->|Hc']%elem_of_cons; [|by apply Hin].
      rewrite Hout by done. simpl. by simplify_map_eq.
    + intros p Hp. rewrite Hout by (intros ?; apply Hp; by apply list_elem_of_further).
      simpl. rewrite lookup_insert_ne; [done|]. intros Heq. subst p. apply Hp, list_elem_of_here.
Qed.

(** ** Properties *)

(** C27: every chart the notebook draws is well formed: each line has
    one y value per x value, and the six charts go to six different
    files, so none overwrites another. *)
Theorem notebook_charts_wf (grouped : list GroupedRow) :
  Forall (fun c => Forall (fun s => length (s_y s) = length (s_x s)) (c_series c)) (notebook_charts grouped) /\
  List.NoDup (map c_file (notebook_charts grouped)).
Proof.
  split; [|apply NoDup_ListNoDup, notebook_files_NoDup].
  destruct (moving_averages_length (usa_grouped grouped)) as [Hc Hd].
  unfold notebook_charts, fig1, fig2, px_line, moving_averages_plot, ratio_plot, slider_chart,
    dual_axis_plot, as_floats.
  repeat first [apply List.Forall_nil | apply List.Forall_cons]; cbn [s_x s_y];
    by rewrite ?Hc, ?Hd, ?length_map; unfold Death_to_case_ratio; rewrite ?length_map.
Qed.

(** C28: every line of every chart is drawn in date order: the daily
    charts because [usa_grouped] is sorted by date, the monthly chart
    because its bins are consecutive months labelled by their last day. *)
Theorem notebook_charts_dates_sorted (grouped : list GroupedRow) :
  Forall (fun c => Forall (fun s => Sorted (fun d1 d2 => (date_key d1 <= date_key d2)%Z) (s_x s)) (c_series c))
    (notebook_charts grouped).
Proof.
  pose proof (usa_grouped_dates_sorted grouped).
  pose proof (usa_monthly_dates_sorted (usa_grouped grouped)).
  unfold notebook_charts, fig1, fig2, px_line, moving_averages_plot, ratio_plot, slider_chart,
    dual_axis_plot.
  by repeat first [apply List.Forall_nil | apply List.Forall_cons].
Qed.

(** C33: the notebook's export writes every chart to its own file: when
    no file is named like [OUTPUT_DIR] and none of the six paths is a
    directory, line 24 and the six writes succeed, each of the six files
    holds its chart afterwards (none overwrites another), and every other
    file is left as it was. *)
Theorem notebook_export_writes (fs : FileSystem) (grouped : list GroupedRow) :
  fs_files fs !! OUTPUT_DIR = None ->
  Forall (fun c => c_file c ∉ fs_dirs fs) (notebook_charts grouped) ->
  exists fs', notebook_export fs grouped = Some fs' /\
    (forall c, c ∈ notebook_charts grouped -> fs_files fs' !! c_file c = Some c) /\
    (forall p, p ∉ map c_file (notebook_charts grouped) -> fs_files fs' !! p = fs_files fs !! p).
Proof.
  intros Hout Hnd. destruct (makedirs_spec fs OUTPUT_DIR Hout) as (fs0 & Hmk & Hdirs & Hfiles).
  destruct (write_charts_spec fs0 (notebook_charts grouped)) as (fs' & Hw & _ & Hin & Hrest).
  - apply notebook_files_NoDup.
  - pose proof (notebook_files_dir grouped) as Hdir. rewrite List.Forall_forall in Hdir, Hnd |- *.
    intros c Hc. destruct (Hdir c Hc) as [-> Hne]. rewrite !Hdirs. specialize (Hnd c Hc). tauto.
  - exists fs'. unfold notebook_export. rewrite Hmk, <- Hfiles. auto.
Qed.

Lemma notebook_export_writes_witness :
  let fs := mkFS ∅ (<["README.md" := ratio_plot []]> ∅) in
  exists fs', notebook_export fs [] = Some fs' /\
    (forall c, c ∈ notebook_charts [] -> fs_files fs' !! c_file c = Some c) /\
    (forall p, p ∉ map c_file (notebook_charts []) -> fs_files fs' !! p = fs_files fs !! p).
Proof.
  intros fs. apply notebook_export_writes; [reflexivity |].
  apply List.Forall_forall. intros c _. apply not_elem_of_empty.
Defined.

(** A file named like the output directory stops the notebook at line 24. *)
Example notebook_export_output_is_file :
  notebook_export (mkFS ∅ (<[OUTPUT_DIR := ratio_plot []]> ∅)) [] = None.
Proof. reflexivity. Qed.
